(** * Commitment ingestion and lifecycle engine: a shallow embedding

    The Python sources are embedded module by module, with explicit state
    passing for the document store and an error type for raised exceptions:

    - [Py]                 Python values, truthiness, string helpers
    - [DateTime]           dates as proleptic Gregorian ordinals
    - [CreditEngine]       credit_engine.py
    - [StatusCalculator]   services/gmail/commitments/status_calculator.py
    - [Regex]              the fragment of [re] used by the deadline parser
    - [DeadlineParser]     services/gmail/deadline_parser.py
    - [Extractor]          services/gmail/extract_initial_commitments.py
    - [LiveEmail]          tools/gmail/process_new_email.py, save_commitment.py
    - [CommitmentRoutes]   routes/commitment_routes.py
    - [ConnectionState]    services/composio/connection_state_manager.py
    - [Webhook]            main.py, composio_webhook

    Modelling conventions.  A finite number is the rational it denotes
    ([Q], compared with [==]); the arithmetic of [credit_engine.py] is the
    binary64 arithmetic of Python floats, with its rounding, its infinities
    and its NaN.  Strings are sequences of code points below 256.  A
    calendar date is its ordinal ([date.toordinal()]); a date addition
    raises [OverflowError] outside 0001-01-01 .. 9999-12-31, as Python's
    does. *)

From Stdlib Require Import ZArith QArith Qminmax Qround Lqa String Ascii List Lia Bool.
From stdpp Require Import gmap strings.

Local Open Scope string_scope.
Local Open Scope Z_scope.

(** ** Python values and exceptions *)

Module Py.

Inductive exn :=
| ValueError
| TypeError
| AttributeError
| ImportError
| KeyError
| OverflowError
| NotFound.

Inductive result (A : Type) :=
| Ok (a : A)
| Raise (e : exn).
Arguments Ok {A} a.
Arguments Raise {A} e.

#[global] Instance result_ret : MRet result := fun _ a => Ok a.

#[global] Instance result_bind : MBind result := fun _ _ f r =>
  match r with
  | Ok a => f a
  | Raise e => Raise e
  end.

(** [datetime]: the calendar date as an ordinal, the time of day in
    microseconds, and the UTC offset of an aware value. *)
Record datetime := mk_datetime {
  dt_date : Z;
  dt_time : Z;
  dt_tzinfo : option Z
}.

(** The scalar values that reach the embedded functions: JSON scalars, and
    the [date] and [datetime] objects a document snapshot can carry. *)
Inductive value :=
| VNone
| VBool (b : bool)
| VNum (q : Q)
| VStr (s : string)
| VDate (d : Z)
| VDatetime (t : datetime).

(** *** Floats *)

(** The values of a Python [float] that are not numbers. *)
Inductive special :=
| Inf (negative : bool)
| NaN.

(** A Python [float]: a finite binary64 number, as the rational it denotes
    (the two zeros are one), or a special value. *)
Inductive float :=
| Finite (q : Q)
| Special (s : special).

(** [num / den] rounded to the nearest integer, a tie to the even one;
    [0 <= num] and [0 < den]. *)
Definition round_half_even (num den : Z) : Z :=
  let m := num / den in
  match 2 * (num mod den) ?= den with
  | Lt => m
  | Gt => m + 1
  | Eq => if Z.even m then m else m + 1
  end.

(** The exponent [e] with [2^e <= a / d < 2^(e+1)], for [0 < a] and
    [0 < d]. *)
Definition floor_log2 (a d : Z) : Z :=
  let e := Z.log2 a - Z.log2 d in
  if (if 0 <=? e then d * 2 ^ e <=? a else d <=? a * 2 ^ (- e)) then e
  else e - 1.

(** The binary64 number nearest to [q], a tie to the even significand:
    53 significant bits, the least exponent -1074 (below which the
    subnormal numbers lose bits), and an infinity from 2^1024 on. *)
Definition round64 (q : Q) : float :=
  let q := Qred q in
  let n := Qnum q in
  let d := Zpos (Qden q) in
  if n =? 0 then Finite 0 else
  let a := Z.abs n in
  let p := Z.max (floor_log2 a d - 52) (-1074) in
  let m :=
    if 0 <=? p then round_half_even a (d * 2 ^ p)
    else round_half_even (a * 2 ^ (- p)) d in
  if (0 <=? p) && (2 ^ 1024 <=? m * 2 ^ p) then Special (Inf (n <? 0))
  else
    Finite (Qred (if 0 <=? p then inject_Z (Z.sgn n * m * 2 ^ p)
                  else Qmake (Z.sgn n * m) (Z.to_pos (2 ^ (- p))))).

(** [- x] *)
Definition float_neg (x : float) : float :=
  match x with
  | Finite q => Finite (- q)
  | Special (Inf s) => Special (Inf (negb s))
  | Special NaN => Special NaN
  end.

(** [x + y] *)
Definition float_add (x y : float) : float :=
  match x, y with
  | Finite a, Finite b => round64 (a + b)
  | Special NaN, _ => Special NaN
  | _, Special NaN => Special NaN
  | Special (Inf s), Special (Inf s') =>
      if Bool.eqb s s' then Special (Inf s) else Special NaN
  | Special (Inf s), Finite _ => Special (Inf s)
  | Finite _, Special (Inf s) => Special (Inf s)
  end.

(** [x - y] *)
Definition float_sub (x y : float) : float := float_add x (float_neg y).

(** [x > 0] *)
Definition float_pos (x : float) : bool :=
  match x with
  | Finite q => negb (Qle_bool q 0)
  | Special (Inf negative) => negb negative
  | Special NaN => false
  end.

(** [x <= 0] *)
Definition float_le0 (x : float) : bool :=
  match x with
  | Finite q => Qle_bool q 0
  | Special (Inf negative) => negative
  | Special NaN => false
  end.

(** [max(x, 0)]: [0] when [0 > x], else [x]. *)
Definition max_0 (x : float) : float :=
  match x with
  | Finite q => if Qle_bool 0 q then Finite q else Finite 0
  | Special (Inf true) => Finite 0
  | Special _ => x
  end.


(** [bool(v)] *)
Definition truthy (v : value) : bool :=
  match v with
  | VNone => false
  | VBool b => b
  | VNum q => negb (Qeq_bool q 0)
  | VStr s => negb (String.eqb s "")
  | VDate _ => true
  | VDatetime _ => true
  end.

(** [bool(d.get(k))]: a missing key reads as [None]. *)
Definition truthy_get (o : option value) : bool :=
  match o with
  | Some v => truthy v
  | None => false
  end.

(** [a or b] on optional strings, as used on request fields *)
Definition or_else (a b : option value) : option value :=
  if truthy_get a then a else b.

(** Functions of the Python standard library and of third-party packages
    that the sources call and that are not part of the repository. *)
Class Lib := {
  (** [datetime.fromisoformat]; [None] stands for [ValueError] *)
  fromisoformat : string -> option datetime;
  (** [date.isoformat()] *)
  date_isoformat : Z -> string;
  (** [datetime.isoformat()] *)
  datetime_isoformat : datetime -> string;
  (** [datetime.fromtimestamp(seconds, tz=timezone.utc)] *)
  fromtimestamp_utc : Q -> datetime;
  (** [float(s)] on a string; [None] stands for [ValueError] *)
  float_of_string : string -> option float;
  (** [str(x)] on a date or datetime, as [json.dumps(default=str)] calls it *)
  str_of_date : Z -> string;
  str_of_datetime : datetime -> string;
  (** [str(n)] on an integer *)
  str_of_int : Z -> string;
  (** [.year] and [.month] of a date *)
  date_year : Z -> Z;
  date_month : Z -> Z;
  (** [date(y, m, d)]; [None] stands for [ValueError] *)
  make_date : Z -> Z -> Z -> option Z;
  (** whether [dateutil] could be imported *)
  dateutil_available : bool;
  (** [dateutil.parser.parse(text, default=reference)], and
      [dateutil.parser.parse(text)] when no default is given; [None] stands
      for a raised exception *)
  dateutil_parse : string -> option datetime -> option datetime
}.

(** [float(v)].  A number of a document is a float, or an integer that
    [float] converts without rounding. *)
Definition py_float `{Lib} (v : value) : result float :=
  match v with
  | VNum q => Ok (Finite q)
  | VBool b => Ok (Finite (if b then 1 else 0)%Q)
  | VStr s =>
      match float_of_string s with
      | Some x => Ok x
      | None => Raise ValueError
      end
  | VNone => Raise TypeError
  | VDate _ => Raise TypeError
  | VDatetime _ => Raise TypeError
  end.

(** *** Strings *)

Definition code (c : ascii) : N := N_of_ascii c.

Definition between (lo hi n : N) : bool := (lo <=? n)%N && (n <=? hi)%N.

(** [str.isspace] on one character; also the class [\s] of [re] *)
Definition isspace (c : ascii) : bool :=
  between 9 13 (code c) || between 28 32 (code c)
  || (code c =? 133)%N || (code c =? 160)%N.

(** the class [\d] of [re] *)
Definition isdigit (c : ascii) : bool := between 48 57 (code c).

Definition lower_char (c : ascii) : ascii :=
  if between 65 90 (code c)
     || (between 192 222 (code c) && negb (code c =? 215)%N)
  then ascii_of_N (code c + 32)
  else c.

(** [str.lower] *)
Fixpoint lower (s : string) : string :=
  match s with
  | EmptyString => EmptyString
  | String c s' => String (lower_char c) (lower s')
  end.

Fixpoint lstrip (s : string) : string :=
  match s with
  | EmptyString => EmptyString
  | String c s' => if isspace c then lstrip s' else s
  end.

Fixpoint rstrip (s : string) : string :=
  match s with
  | EmptyString => EmptyString
  | String c s' =>
      match rstrip s' with
      | EmptyString => if isspace c then EmptyString else String c EmptyString
      | r => String c r
      end
  end.

(** [str.strip] *)
Definition strip (s : string) : string := rstrip (lstrip s).

(** [s.startswith(p)], returning the rest of [s] *)
Fixpoint strip_prefix (p s : string) : option string :=
  match p, s with
  | EmptyString, _ => Some s
  | String a p', String b s' =>
      if Ascii.eqb a b then strip_prefix p' s' else None
  | String _ _, EmptyString => None
  end.

(** [needle in hay] *)
Fixpoint contains (needle hay : string) : bool :=
  match strip_prefix needle hay with
  | Some _ => true
  | None =>
      match hay with
      | EmptyString => false
      | String _ hay' => contains needle hay'
      end
  end.

(** [s.replace(c, by)] for a one-character pattern *)
Fixpoint replace_char (c : ascii) (by_ : string) (s : string) : string :=
  match s with
  | EmptyString => EmptyString
  | String a s' =>
      if Ascii.eqb a c then String.append by_ (replace_char c by_ s')
      else String a (replace_char c by_ s')
  end.

(** [s.replace('Z', '+00:00')] *)
Definition replace_Z (s : string) : string := replace_char "Z"%char "+00:00" s.

End Py.

Export Py.

(** A document: a Python [dict] with string keys. *)
Abbreviation dict := (gmap string value).

(** [d.get(k, dflt)] *)
Definition get_or (d : dict) (k : string) (dflt : value) : value :=
  default dflt (d !! k).

(** A field of a user document: a scalar, a nested map such as
    [composio_connection], or an infinity or NaN that the credit arithmetic
    left there. *)
Inductive field :=
| Scalar (v : value)
| Nested (m : dict)
| SpecialFloat (s : special).

(** A float as a field of a user document. *)
Definition float_field (x : float) : field :=
  match x with
  | Finite q => Scalar (VNum q)
  | Special s => SpecialFloat s
  end.

(** A document of the [users] collection. *)
Abbreviation user_doc := (gmap string field).

(** The [users] collection, by user id. *)
Abbreviation users_coll := (gmap string user_doc).

(** ** credit_engine.py *)

Module CreditEngine.

(** What a call leaves behind besides the store: invocations of the pause
    hook, and printed lines. *)
Inductive event :=
| PauseCalled (user_id : string)
| PrintedExhausted (user_id : string)
| PrintedPauseFailed (e : exn).

(** The pause hook: a callable on the user id that returns or raises. *)
Definition hook := string -> result unit.

(** The names bound at the top level of
    services/composio/composio_manager.py: its imports and its seven
    functions. *)
Definition composio_manager_names : list string :=
  [ "datetime"; "timezone"; "firestore"; "Dict"; "Optional";
    "_get_db"; "get_connection_state"; "mark_first_connection";
    "mark_reconnection"; "mark_disconnection"; "should_run_initial_sync";
    "migrate_existing_user" ].

(** [from <module> import <name>]: [ImportError] unless the module binds the
    name; [impl] is the object the name is bound to when it is. *)
Definition import_from (names : list string) (name : string) (impl : hook)
  : result hook :=
  if existsb (String.eqb name) names then Ok impl else Raise ImportError.

(** [float(data.get(k, 0))] *)
Definition float_get `{Lib} (data : user_doc) (k : string) : result float :=
  match data !! k with
  | None => Ok (Finite 0)
  | Some (Scalar v) => py_float v
  | Some (SpecialFloat s) => Ok (Special s)
  | Some (Nested _) => Raise TypeError
  end.

(** The transaction body [txn] of [deduct_credits], on an amount
    [credits_spent] that is a finite float (or an integer that converts to
    one without rounding): the new remaining balance and the updated
    collection.  The subtraction and the addition are those of floats, and
    [max(x, 0)] keeps [x] unless [0 > x]. *)
Definition txn `{Lib} (user_id : string) (credits_spent : Q)
    (users : users_coll) : result (float * users_coll) :=
  match users !! user_id with
  | None => Raise ValueError
  | Some data =>
      remaining ← float_get data "credits_remaining";
      used ← float_get data "credits_used";
      let new_remaining := max_0 (float_sub remaining (Finite credits_spent)) in
      let new_used := float_add used (Finite credits_spent) in
      Ok (new_remaining,
          <[user_id :=
              <["credits_used" := float_field new_used]>
                (<["credits_remaining" := float_field new_remaining]> data)]>
            users)
  end.

(** [deduct_credits], over a module namespace [names] for
    services.composio.composio_manager and the callable [impl] that
    [pause_composio_trigger] denotes when the namespace binds it. *)
Definition deduct_credits_in `{Lib} (names : list string) (impl : hook)
    (user_id : string) (credits_spent : Q) (users : users_coll)
  : result (users_coll * list event) :=
  '(new_remaining, users') ← txn user_id credits_spent users;
  if float_le0 new_remaining then
    match import_from names "pause_composio_trigger" impl with
    | Raise e => Ok (users', [PrintedPauseFailed e])
    | Ok pause_composio_trigger =>
        match pause_composio_trigger user_id with
        | Ok _ => Ok (users', [PauseCalled user_id; PrintedExhausted user_id])
        | Raise e => Ok (users', [PauseCalled user_id; PrintedPauseFailed e])
        end
    end
  else Ok (users', []).

(** [deduct_credits] as the repository runs it. *)
Definition deduct_credits `{Lib} : string -> Q -> users_coll ->
    result (users_coll * list event) :=
  deduct_credits_in composio_manager_names (fun _ => Ok tt).

(** [has_enough_credits] *)
Definition has_enough_credits `{Lib} (user_id : string) (users : users_coll)
  : result bool :=
  match users !! user_id with
  | None => Ok false
  | Some data =>
      r ← float_get data "credits_remaining";
      Ok (float_pos r)
  end.

(** A run of [deduct_credits] calls on one user, in order; the events of
    all calls are collected. *)
Fixpoint deduct_all `{Lib} (user_id : string) (amounts : list Q)
    (users : users_coll) : result (users_coll * list event) :=
  match amounts with
  | [] => Ok (users, [])
  | a :: rest =>
      '(users', ev) ← deduct_credits user_id a users;
      '(users'', ev') ← deduct_all user_id rest users';
      Ok (users'', (ev ++ ev')%list)
  end.

(** The total of a run of amounts. *)
Definition total (amounts : list Q) : Q := fold_right Qplus 0%Q amounts.

(** The credit fields of a user document. *)
Definition credits (data : user_doc) (used remaining : Q) : Prop :=
  data !! "credits_used" = Some (Scalar (VNum used))
  /\ data !! "credits_remaining" = Some (Scalar (VNum remaining)).

(** The credit fields of a user document, as the floats a deduction
    stores. *)
Definition stored (data : user_doc) (used remaining : float) : Prop :=
  data !! "credits_used" = Some (float_field used)
  /\ data !! "credits_remaining" = Some (float_field remaining).

(** The balance that a run of deductions leaves, from the balance
    [(used, remaining)]. *)
Fixpoint balance_after (used remaining : float) (amounts : list Q)
  : float * float :=
  match amounts with
  | [] => (used, remaining)
  | a :: rest =>
      balance_after (float_add used (Finite a))
        (max_0 (float_sub remaining (Finite a))) rest
  end.

(** The float [x] is the number [q]. *)
Definition exact (x : float) (q : Q) : bool :=
  match x with
  | Finite d => Qeq_bool d q
  | Special _ => false
  end.


(** The number of invocations of the pause hook in a list of events. *)
Fixpoint pause_calls (evs : list event) : nat :=
  match evs with
  | [] => O
  | PauseCalled _ :: evs' => S (pause_calls evs')
  | _ :: evs' => pause_calls evs'
  end.

(** A user document as [initialize_credits_if_missing] leaves the credit
    fields: total, nothing used, everything remaining. *)
Definition fresh_credits (initial_total : Q) (data : user_doc) : user_doc :=
  <["credits_remaining" := Scalar (VNum initial_total)]>
    (<["credits_used" := Scalar (VNum 0)]>
       (<["credits_total" := Scalar (VNum initial_total)]> data)).

End CreditEngine.

(** ** Dates *)

Module DateTime.

(** [date.weekday()]: Monday is 0; ordinal 1 (0001-01-01) is a Monday. *)
Definition weekday (d : Z) : Z := (d + 6) mod 7.

(** The ordinals of [date.min] (0001-01-01) and [date.max] (9999-12-31). *)
Definition date_min : Z := 1.
Definition date_max : Z := 3652059.

(** [timedelta(days=n)]: [OverflowError] beyond 999999999 days. *)
Definition timedelta_days (n : Z) : result Z :=
  if Z.abs n <=? 999999999 then Ok n else Raise OverflowError.

(** [d + timedelta(days=n)]: [OverflowError] when the sum is not a date. *)
Definition add_days (d n : Z) : result Z :=
  n ← timedelta_days n;
  if (date_min <=? d + n) && (d + n <=? date_max) then Ok (d + n)
  else Raise OverflowError.

(** [(a - b).days] *)
Definition days_between (a b : Z) : Z := a - b.

(** [datetime.combine(d, datetime.min.time(), tzinfo=tz)] *)
Definition combine_min (d : Z) (tz : option Z) : datetime :=
  mk_datetime d 0 tz.

End DateTime.

(** ** services/gmail/commitments/status_calculator.py *)

Module StatusCalculator.

Import DateTime.

(** The three derived fields. *)
Definition status_fields : Type := string * Z * bool.

Definition no_deadline : status_fields := ("no_deadline", 0, false).

(** The comparison of a deadline date with today (lines 61-72). *)
Definition compare_deadline (deadline_date today : Z) : status_fields :=
  if deadline_date <? today then
    ("overdue", days_between today deadline_date, true)
  else if deadline_date =? today then ("due_today", 0, false)
  else ("active", 0, false).

(** The body of the [try] block (lines 52-72) on a truthy [deadline_iso].
    A [datetime] is an instance of [date], so it is taken as the deadline
    date, and its comparison with the date [today] raises [TypeError]. *)
Definition try_deadline `{Lib} (deadline_iso : value) (today : Z)
  : result status_fields :=
  match deadline_iso with
  | VStr s =>
      match fromisoformat (replace_Z s) with
      | Some t => Ok (compare_deadline (dt_date t) today)
      | None => Raise ValueError
      end
  | VDate d => Ok (compare_deadline d today)
  | VDatetime _ => Raise TypeError
  | VNone | VBool _ | VNum _ => Ok no_deadline
  end.

(** [commitment[...] = ...] for the three derived fields (lines 80-82). *)
Definition set_status (commitment : dict) (f : status_fields) : dict :=
  let '(status, days_overdue, overdue_flag) := f in
  <["overdue_flag" := VBool overdue_flag]>
    (<["days_overdue" := VNum (inject_Z days_overdue)]>
       (<["status" := VStr status]> commitment)).

(** The completed branch (lines 43-47): each derived field is rewritten
    with its own value, or with its default when the commitment lacks it. *)
Definition fill_defaults (c : dict) : dict :=
  <["overdue_flag" := get_or c "overdue_flag" (VBool false)]>
    (<["days_overdue" := get_or c "days_overdue" (VNum 0)]>
       (<["status" := get_or c "status" (VStr "no_deadline")]> c)).

(** [recalculate_status(commitment, today)]; [now] is the reading of the
    clock used when [today] is not given. *)
Definition recalculate_status `{Lib} (now : datetime) (commitment : dict)
    (today : option Z) : result dict :=
  let today := default (dt_date now) today in
  let deadline_iso := commitment !! "deadline_iso" in
  if truthy_get (commitment !! "completed") then
    Ok (fill_defaults commitment)
  else if truthy_get deadline_iso then
    match try_deadline (default VNone deadline_iso) today with
    | Ok f => Ok (set_status commitment f)
    | Raise ValueError | Raise TypeError => Ok (set_status commitment no_deadline)
    | Raise e => Raise e
    end
  else Ok (set_status commitment no_deadline).

(** The result [r] carries the given status, days overdue and flag. *)
Definition yields (r : result dict) (status : string) (days_overdue : Z)
    (overdue_flag : bool) : Prop :=
  exists c' : dict,
    r = Ok c'
    /\ c' !! "status" = Some (VStr status)
    /\ c' !! "days_overdue" = Some (VNum (inject_Z days_overdue))
    /\ c' !! "overdue_flag" = Some (VBool overdue_flag).

(** [deadline_iso] of [c] parses to the date [d]: a non-empty string that
    [fromisoformat] accepts, or a [date] object. *)
Definition parses_to `{Lib} (c : dict) (d : Z) : Prop :=
  (exists s t, c !! "deadline_iso" = Some (VStr s) /\ s <> ""
               /\ fromisoformat (replace_Z s) = Some t /\ dt_date t = d)
  \/ c !! "deadline_iso" = Some (VDate d).

(** [deadline_iso] of [c] is null (absent or [None]) or a string that does
    not parse. *)
Definition null_or_unparseable `{Lib} (c : dict) : Prop :=
  c !! "deadline_iso" = None
  \/ c !! "deadline_iso" = Some VNone
  \/ exists s, c !! "deadline_iso" = Some (VStr s)
               /\ fromisoformat (replace_Z s) = None.

End StatusCalculator.

(** ** The fragment of [re] the deadline parser uses

    A backtracking matcher with Python's leftmost, greedy, ordered-choice
    semantics, in continuation-passing style. *)

Module Regex.

Inductive re :=
| Lit (s : string)            (* a literal string *)
| Cls (p : ascii -> bool)     (* one character of a class *)
| Cat (r1 r2 : re)            (* r1 r2 *)
| Alt (r1 r2 : re)            (* r1|r2 *)
| Opt (r : re)                (* r? *)
| Star (r : re)               (* r* *)
| Grp (n : nat) (r : re).     (* the capturing group number n *)

(** [r+] *)
Definition Plus (r : re) : re := Cat r (Star r).

(** [a|b|...] over literals *)
Fixpoint any_of (a : string) (l : list string) : re :=
  match l with
  | [] => Lit a
  | b :: l' => Alt (Lit a) (any_of b l')
  end.

(** The groups that took part in a match, the latest binding first. *)
Definition captures := list (nat * string).

(** [m.group(n)] *)
Fixpoint group (caps : captures) (n : nat) : option string :=
  match caps with
  | [] => None
  | (i, v) :: caps' => if (i =? n)%nat then Some v else group caps' n
  end.

(** The text between a position [s] and a later position [s']. *)
Definition consumed (s s' : string) : string :=
  substring 0 (String.length s - String.length s') s.

(** [re_match r s caps k]: match [r] at the start of [s], then hand the rest
    of the text to [k]; on failure of [k] the next alternative is tried.  An
    iteration of [Star] has to consume text. *)
Fixpoint re_match (r : re) (s : string) (caps : captures)
    (k : string -> captures -> option captures) {struct r} : option captures :=
  match r with
  | Lit l =>
      match strip_prefix l s with
      | Some s' => k s' caps
      | None => None
      end
  | Cls p =>
      match s with
      | String c s' => if p c then k s' caps else None
      | EmptyString => None
      end
  | Cat r1 r2 =>
      re_match r1 s caps (fun s' caps' => re_match r2 s' caps' k)
  | Alt r1 r2 =>
      match re_match r1 s caps k with
      | Some m => Some m
      | None => re_match r2 s caps k
      end
  | Opt r1 =>
      match re_match r1 s caps k with
      | Some m => Some m
      | None => k s caps
      end
  | Star r1 =>
      (fix iterate (fuel : nat) (s : string) (caps : captures)
         : option captures :=
         match fuel with
         | O => k s caps
         | S fuel' =>
             match re_match r1 s caps
                     (fun s' caps' =>
                        if (String.length s' <? String.length s)%nat
                        then iterate fuel' s' caps' else None) with
             | Some m => Some m
             | None => k s caps
             end
         end) (String.length s) s caps
  | Grp n r1 =>
      re_match r1 s caps (fun s' caps' => k s' ((n, consumed s s') :: caps'))
  end.

(** [re.search(r, s)]: the match at the leftmost position that has one. *)
Fixpoint search (r : re) (s : string) : option captures :=
  match re_match r s [] (fun _ caps => Some caps) with
  | Some m => Some m
  | None =>
      match s with
      | EmptyString => None
      | String _ s' => search r s'
      end
  end.

(** [\s], [\d], [\w] *)
Definition space : re := Cls isspace.
Definition digit : re := Cls isdigit.
Definition word : re :=
  Cls (fun c => isdigit c || between 97 122 (code c) || between 65 90 (code c)
                || (code c =? 95)%N || between 192 255 (code c)
                   && negb (code c =? 215)%N && negb (code c =? 247)%N
                || (code c =? 170)%N || (code c =? 181)%N || (code c =? 186)%N
                || (code c =? 178)%N || (code c =? 179)%N || (code c =? 185)%N
                || between 188 190 (code c)).

End Regex.

(** ** services/gmail/deadline_parser.py *)

Module DeadlineParser.

Import DateTime Regex.

Definition WEEKDAY_MAP : list (string * Z) :=
  [ ("monday", 0); ("tuesday", 1); ("wednesday", 2); ("thursday", 3);
    ("friday", 4); ("saturday", 5); ("sunday", 6) ].

(** [WEEKDAY_MAP[wd]]; [None] stands for [KeyError]. *)
Fixpoint weekday_index (m : list (string * Z)) (wd : string) : option Z :=
  match m with
  | [] => None
  | (name, i) :: m' => if String.eqb name wd then Some i else weekday_index m' wd
  end.

(** [_normalize] *)
Definition _normalize (text : string) : string := lower (strip text).

(** [_weekday_after] *)
Definition _weekday_after (reference : datetime) (target_wd : Z)
    (which : string) : result datetime :=
  let ref := dt_date reference in
  let days_ahead := (target_wd - weekday ref + 7) mod 7 in
  let days_ahead :=
    if String.eqb which "next" then
      if negb (days_ahead =? 0) then days_ahead else 7
    else if String.eqb which "this" then days_ahead
    else days_ahead in
  d ← add_days ref days_ahead;
  Ok (combine_min d (dt_tzinfo reference)).

Definition null_like : list string :=
  [ "null"; "none"; "n/a"; "na"; "no deadline"; "no date"; "tbd";
    "to be determined" ].

Definition asap_phrases : list string :=
  [ "asap"; "as soon as possible"; "immediately"; "right away"; "right now";
    "urgent"; "urgently"; "at your earliest" ].

Definition time_unit : re := any_of "hour" ["hr"; "minute"; "min"].

(** [within\s+\d+\s*(hour|hr|minute|min)] *)
Definition re_within_hours : re :=
  Cat (Lit "within") (Cat (Plus space) (Cat (Plus digit)
    (Cat (Star space) (Grp 1 time_unit)))).

(** [in\s+\d+\s*(hour|hr|minute|min)] *)
Definition re_in_hours : re :=
  Cat (Lit "in") (Cat (Plus space) (Cat (Plus digit)
    (Cat (Star space) (Grp 1 time_unit)))).

(** [before\s+(the|our|my)\s+(meeting|call|demo|presentation|review)] *)
Definition re_before_event : re :=
  Cat (Lit "before") (Cat (Plus space)
    (Cat (Grp 1 (any_of "the" ["our"; "my"])) (Cat (Plus space)
      (Grp 2 (any_of "meeting" ["call"; "demo"; "presentation"; "review"]))))).

(** [(?:(?:by|due|on|before)\s+)?(?:(next|this)\s+)?(monday|...|sunday)] *)
Definition re_weekday : re :=
  Cat (Opt (Cat (any_of "by" ["due"; "on"; "before"]) (Plus space)))
    (Cat (Opt (Cat (Grp 1 (any_of "next" ["this"])) (Plus space)))
       (Grp 2 (any_of "monday" ["tuesday"; "wednesday"; "thursday"; "friday";
                                "saturday"; "sunday"]))).

(** [(?:in|within)\s+(\d+)\s*days?] *)
Definition re_in_days : re :=
  Cat (any_of "in" ["within"]) (Cat (Plus space) (Cat (Grp 1 (Plus digit))
    (Cat (Star space) (Cat (Lit "day") (Opt (Lit "s")))))).

Definition ordinal_suffix : re := any_of "st" ["nd"; "rd"; "th"].

(** [\d{1,2}] *)
Definition one_or_two_digits : re := Cat digit (Opt digit).

(** [(\d{1,2})(?:st|nd|rd|th)?\s*(jan|...|dec)\w*] *)
Definition re_ordinal_month : re :=
  Cat (Grp 1 one_or_two_digits) (Cat (Opt ordinal_suffix) (Cat (Star space)
    (Cat (Grp 2 (any_of "jan" ["feb"; "mar"; "apr"; "may"; "jun"; "jul";
                               "aug"; "sep"; "oct"; "nov"; "dec"]))
         (Star word)))).

(** [(?:the|by)\s+(\d{1,2})(?:st|nd|rd|th)] *)
Definition re_day_of_month : re :=
  Cat (any_of "the" ["by"]) (Cat (Plus space)
    (Cat (Grp 1 one_or_two_digits) ordinal_suffix)).

(** [int(s)] on a string of decimal digits. *)
Fixpoint int_of_digits (acc : Z) (s : string) : Z :=
  match s with
  | EmptyString => acc
  | String c s' => int_of_digits (10 * acc + (Z.of_N (code c) - 48)) s'
  end.

(** [int(s)] on a string of decimal digits: [ValueError] beyond the 4300
    digits that [int] converts by default. *)
Definition py_int (s : string) : result Z :=
  if (4300 <? String.length s)%nat then Raise ValueError
  else Ok (int_of_digits 0 s).

(** [m.group(1) or 'this'] *)
Definition group_or (m : captures) (n : nat) (dflt : string) : string :=
  match group m n with
  | Some w => if String.eqb w "" then dflt else w
  | None => dflt
  end.

(** [bool(re.search(r, txt))] *)
Definition found (r : re) (txt : string) : bool :=
  match search r txt with
  | Some _ => true
  | None => false
  end.

(** [_try_parse_explicit_date] *)
Definition _try_parse_explicit_date `{Lib} (text : string)
    (reference : datetime) : option datetime :=
  if negb dateutil_available then None
  else dateutil_parse text (Some reference).

(** Lines 192-202: an ordinal day and a month name; any exception is
    passed over. *)
Definition ordinal_month_rule `{Lib} (txt : string) (email_dt : datetime)
  : option string :=
  match search re_ordinal_month txt with
  | Some m2 =>
      let day := int_of_digits 0 (default "" (group m2 1)) in
      let mon := default "" (group m2 2) in
      let year := date_year (dt_date email_dt) in
      let parsed :=
        if dateutil_available then
          dateutil_parse
            (String.append (str_of_int day)
               (String.append " " (String.append mon
                  (String.append " " (str_of_int year)))))
            None
        else None in
      match parsed with
      | Some p => Some (date_isoformat (dt_date p))
      | None => None
      end
  | None => None
  end.

(** Lines 205-218: a bare day of the month, rolled over to the next month
    when it has passed; any exception is passed over. *)
Definition day_of_month_rule `{Lib} (txt : string) (email_dt : datetime)
  : option string :=
  match search re_day_of_month txt with
  | Some m3 =>
      let day := int_of_digits 0 (default "" (group m3 1)) in
      let year := date_year (dt_date email_dt) in
      let month := date_month (dt_date email_dt) in
      match make_date year month day with
      | None => None
      | Some result_date =>
          if result_date <? dt_date email_dt then
            match (if month =? 12 then make_date (year + 1) 1 day
                   else make_date year (month + 1) day) with
            | Some rolled => Some (date_isoformat rolled)
            | None => None
            end
          else Some (date_isoformat result_date)
      end
  | None => None
  end.

(** [parse_deadline_raw]; [now] is the reading of the clock used when the
    email date does not parse. *)
Definition parse_deadline_raw `{Lib} (now : datetime) (deadline_raw : string)
    (email_date_iso : string) : result (option string) :=
  if String.eqb deadline_raw "" then Ok None else
  let txt := _normalize deadline_raw in
  if existsb (String.eqb txt) null_like then Ok None else
  let email_dt :=
    match fromisoformat (replace_Z email_date_iso) with
    | Some t => t
    | None => now
    end in
  let same_day := Ok (Some (date_isoformat (dt_date email_dt))) in
  let after n :=
    d ← add_days (dt_date email_dt) n; Ok (Some (date_isoformat d)) in
  let next_day := after 1 in
  if contains "tonight" txt || contains "this evening" txt then same_day else
  if contains "today" txt && negb (contains "yesterday" txt) then same_day else
  if contains "end of day" txt || contains "eod" txt || contains "by eod" txt
  then same_day else
  if contains "close of business" txt || contains "cob" txt then same_day else
  if existsb (fun phrase => contains phrase txt) asap_phrases then same_day else
  if found re_within_hours txt then same_day else
  if found re_in_hours txt then same_day else
  if found re_before_event txt then same_day else
  if contains "tomorrow" txt then next_day else
  if contains "first thing" txt && contains "morning" txt then next_day else
  match search re_weekday txt with
  | Some m =>
      let which := group_or m 1 "this" in
      let wd := default "" (group m 2) in
      match weekday_index WEEKDAY_MAP wd with
      | None => Raise KeyError
      | Some wd_index =>
          dt ← _weekday_after email_dt wd_index which;
          Ok (Some (date_isoformat (dt_date dt)))
      end
  | None =>
  if contains "next week" txt then after 7 else
  if contains "this week" txt then
    let days_to_sun := 6 - weekday (dt_date email_dt) in
    after days_to_sun else
  if contains "end of week" txt || contains "end of the week" txt then
    let days_to_fri := 4 - weekday (dt_date email_dt) in
    let days_to_fri := if days_to_fri <? 0 then days_to_fri + 7 else days_to_fri in
    after days_to_fri else
  match search re_in_days txt with
  | Some m =>
      days ← py_int (default "" (group m 1));
      after days
  | None =>
  match _try_parse_explicit_date deadline_raw email_dt with
  | Some dt => Ok (Some (date_isoformat (dt_date dt)))
  | None =>
  match ordinal_month_rule txt email_dt with
  | Some iso => Ok (Some iso)
  | None => Ok (day_of_month_rule txt email_dt)
  end end end end.

(** The date [r] is the earliest date from [d] on (strictly after [d] when
    [strict]) that falls on the weekday [wd]. *)
Definition earliest_weekday (strict : bool) (wd d r : Z) : Prop :=
  weekday r = wd
  /\ (if strict then d < r else d <= r)
  /\ forall r', weekday r' = wd -> (if strict then d < r' else d <= r') -> r <= r'.

End DeadlineParser.

(** ** services/gmail/extract_initial_commitments.py *)

Module Extractor.

Import DateTime DeadlineParser.

(** The email handed to the extractor, as [build_email_json] builds it. *)
Record email_json := mk_email {
  sender : string;
  sender_name : string;
  subject : string;
  body : string;
  date : string;
  message_id : string;
  folder : string;
  recipient_email : string;
  recipient_name : string
}.

Definition required_fields : list string :=
  [ "what"; "to_whom"; "assigned_to_me"; "deadline_raw"; "priority";
    "confidence"; "commitment_type"; "estimated_hours" ].

(** [isinstance(v, (int, float))]; a [bool] is an [int]. *)
Definition is_number (o : option value) : bool :=
  match o with
  | Some (VNum _) | Some (VBool _) => true
  | _ => false
  end.

(** [v is None], where a missing key reads as [None] *)
Definition is_none (o : option value) : bool :=
  match o with
  | None | Some VNone => true
  | Some _ => false
  end.

(** [isinstance(v, bool)] *)
Definition is_bool (o : option value) : bool :=
  match o with
  | Some (VBool _) => true
  | _ => false
  end.

(** The checks of [_validate_schema] on one commitment (lines 378-389). *)
Definition validate_commitment (c : dict) : bool :=
  forallb (fun f => bool_decide (is_Some (c !! f))) required_fields
  && is_number (c !! "estimated_hours")
  && negb (is_none (c !! "estimated_hours"))
  && is_bool (c !! "assigned_to_me").

(** The default of lines 480-491, on the lower-cased commitment type. *)
Definition default_estimated_hours (commitment_type : string) : Q :=
  if contains "meeting" commitment_type || contains "call" commitment_type
  then 1
  else if contains "email" commitment_type || contains "message" commitment_type
          || contains "communication" commitment_type
  then 0.5
  else if contains "deliverable" commitment_type
          || contains "report" commitment_type
          || contains "document" commitment_type
  then 3
  else if contains "presentation" commitment_type then 5
  else if contains "feature" commitment_type
          || contains "development" commitment_type
  then 8
  else 2.

(** [c.get("commitment_type", "").lower()] *)
Definition lowered_type (c : dict) : result string :=
  match c !! "commitment_type" with
  | None => Ok ""
  | Some (VStr s) => Ok (lower s)
  | Some _ => Raise AttributeError
  end.

(** Lines 477-491 *)
Definition ensure_estimated_hours (c : dict) : result dict :=
  if is_none (c !! "estimated_hours") then
    commitment_type ← lowered_type c;
    Ok (<["estimated_hours" := VNum (default_estimated_hours commitment_type)]> c)
  else Ok c.

(** Lines 494-505: a truthy [deadline_raw] is parsed, any exception giving
    [None]; a value that is not a string raises inside [_normalize]. *)
Definition deadline_iso_of `{Lib} (now : datetime) (c : dict)
    (email_date : string) : option string :=
  match c !! "deadline_raw" with
  | Some (VStr s) =>
      match parse_deadline_raw now s email_date with
      | Ok iso => iso
      | Raise _ => None
      end
  | _ => None
  end.

(** Lines 508-524 *)
Definition status_of `{Lib} (deadline_iso : option string) (today : Z)
  : string * Z * bool :=
  match deadline_iso with
  | Some iso =>
      if String.eqb iso "" then ("no_deadline", 0, false) else
      match fromisoformat iso with
      | Some t =>
          let d_iso := dt_date t in
          if d_iso <? today then ("overdue", days_between today d_iso, true)
          else if d_iso =? today then ("due_today", 0, false)
          else ("active", 0, false)
      | None => ("no_deadline", 0, false)
      end
  | None => ("no_deadline", 0, false)
  end.

Definition value_of_iso (o : option string) : value :=
  match o with
  | Some iso => VStr iso
  | None => VNone
  end.

(** The body of the loop of [_post_process_commitments] on one commitment;
    the clock is read once. *)
Definition post_process_one `{Lib} (now : datetime) (email : email_json)
    (c : dict) : result dict :=
  let today := dt_date now in
  c ← ensure_estimated_hours (<["given_by" := VStr (sender email)]> c);
  let deadline_iso := deadline_iso_of now c (date email) in
  let '(status, days_overdue, overdue_flag) := status_of deadline_iso today in
  Ok (<["completed_at" := VNone]>
        (<["completed" := VBool false]>
           (<["overdue_flag" := VBool overdue_flag]>
              (<["days_overdue" := VNum (inject_Z days_overdue)]>
                 (<["status" := VStr status]>
                    (<["deadline_iso" := value_of_iso deadline_iso]> c)))))).

(** [_post_process_commitments] on the list [parsed["commitments"]] *)
Definition _post_process_commitments `{Lib} (now : datetime)
    (email : email_json) (commitments : list dict) : result (list dict) :=
  mapM (post_process_one now email) commitments.

(** The post-processing of one commitment returns unless the estimated
    hours are missing and the type is not a string. *)
Definition type_ok (c : dict) : Prop :=
  is_none (c !! "estimated_hours") = true ->
  c !! "commitment_type" = None \/ exists s, c !! "commitment_type" = Some (VStr s).

(** What the post-processing does to the estimated hours of [c]. *)
Definition hours_rule (c c' : dict) : Prop :=
  (is_none (c !! "estimated_hours") = true ->
     exists ty, lowered_type c = Ok ty
       /\ c' !! "estimated_hours" = Some (VNum (default_estimated_hours ty))
       /\ (0 < default_estimated_hours ty)%Q)
  /\ (is_none (c !! "estimated_hours") = false ->
     c' !! "estimated_hours" = c !! "estimated_hours").

(** The estimated hours of a commitment as a number, when it has one. *)
Definition hours (c : dict) : option Q :=
  match c !! "estimated_hours" with
  | Some (VNum q) => Some q
  | Some (VBool b) => Some (if b then 1 else 0)%Q
  | _ => None
  end.

End Extractor.

(** ** services/composio/connection_state_manager.py *)

Module ConnectionState.

(** One entry ["<field>.<key>": v] of a Firestore [update]: the key is
    written in the nested map [field], which is created when the document
    has no such map. *)
Definition update_path (data : user_doc) (field_ key : string) (v : value)
  : user_doc :=
  let m :=
    match data !! field_ with
    | Some (Nested m) => m
    | _ => ∅
    end in
  <[field_ := Nested (<[key := v]> m)]> data.

(** [mark_reconnection]; [update] raises when the user document does not
    exist, and the handler returns [False].  The trigger ids come from the
    aggregator and may be [None]. *)
Definition mark_reconnection (user_id : string) (entity_id : value)
    (inbox_trigger_id sent_trigger_id : value) (users : users_coll)
  : bool * users_coll :=
  match users !! user_id with
  | None => (false, users)
  | Some data =>
      let data := update_path data "composio_connection" "composio_enabled" (VBool true) in
      let data := update_path data "composio_connection" "inbox_trigger_id" inbox_trigger_id in
      let data := update_path data "composio_connection" "sent_trigger_id" sent_trigger_id in
      let data := update_path data "composio_connection" "entity_id" entity_id in
      (true, <[user_id := data]> users)
  end.

(** [mark_disconnection] *)
Definition mark_disconnection (user_id : string) (users : users_coll)
  : bool * users_coll :=
  match users !! user_id with
  | None => (false, users)
  | Some data =>
      let data := update_path data "composio_connection" "composio_enabled" (VBool false) in
      let data := update_path data "composio_connection" "inbox_trigger_id" VNone in
      let data := update_path data "composio_connection" "sent_trigger_id" VNone in
      (true, <[user_id := data]> users)
  end.

(** The connection state of a user: the nested map [composio_connection]
    of the user document. *)
Definition connection (users : users_coll) (user_id : string) : option dict :=
  match users !! user_id with
  | Some data =>
      match data !! "composio_connection" with
      | Some (Nested m) => Some m
      | _ => None
      end
  | None => None
  end.

(** [first_connected_at] is set: present and not [None]. *)
Definition first_connected (conn : dict) : Prop :=
  exists v, conn !! "first_connected_at" = Some v /\ v <> VNone.

End ConnectionState.

(** ** The commitment store *)

(** The subcollection [users/{uid}/commitments] of one user, by document
    id, and the subcollections of all users, by user id. *)
Abbreviation collection := (gmap string dict).
Abbreviation store := (gmap string collection).

Module Firestore.

(** The documents of a user. *)
Definition commitments_of (st : store) (user_id : string) : collection :=
  default ∅ (st !! user_id).

(** [doc_ref.set(doc)] *)
Definition set_doc (st : store) (user_id doc_id : string) (doc : dict)
  : store :=
  <[user_id := <[doc_id := doc]> (commitments_of st user_id)]> st.

(** [doc_ref.delete()] *)
Definition delete_doc (st : store) (user_id doc_id : string) : store :=
  <[user_id := delete doc_id (commitments_of st user_id)]> st.

(** The document field [k] is the string [s]. *)
Definition field_is (k s : string) (d : dict) : bool :=
  match d !! k with
  | Some (VStr s') => String.eqb s' s
  | _ => false
  end.

(** [ref.where(k, "==", s).limit(1).stream()]: the first matching document,
    in the order the collection streams its documents. *)
Definition query_first (k s : string) (coll : collection)
  : option (string * dict) :=
  head (filter (fun kd => field_is k s kd.2 = true) (map_to_list coll)).

End Firestore.

(** ** routes/commitment_routes.py *)

Module CommitmentRoutes.

Import Firestore.

(** What a route answers: its success body, or an [HTTPException]. *)
Inductive response :=
| Success
| HttpError (status_code : Z).

(** The value [json.loads(json.dumps(v, default=str))] gives back: a value
    that JSON cannot carry is written as [str(v)]. *)
Definition json_value `{Lib} (v : value) : value :=
  match v with
  | VDate d => VStr (str_of_date d)
  | VDatetime t => VStr (str_of_datetime t)
  | _ => v
  end.

Definition json_roundtrip `{Lib} (d : dict) : dict := json_value <$> d.

(** Every value of the document is a JSON scalar. *)
Definition json_native (d : dict) : Prop :=
  forall k v, d !! k = Some v ->
    match v with
    | VDate _ | VDatetime _ => False
    | _ => True
    end.

(** The value stored under a key of the shadow store. *)
Record shadow_item := mk_item {
  item_commitment_id : string;
  item_user_id : string;
  item_data : dict;
  item_deleted_at : string
}.

(** A key of the shadow store with its time of expiry, in seconds. *)
Record entry := mk_entry {
  expires_at : Z;
  payload : shadow_item
}.

(** The Redis client: whether its calls go through, and the keys it holds.
    [redis_client] is [None] when Redis is not configured. *)
Record redis := mk_redis {
  reachable : bool;
  entries : gmap string entry
}.

(** [redis_client.get(key)] at time [t] *)
Definition redis_get (r : redis) (t : Z) (key : string) : option shadow_item :=
  match entries r !! key with
  | Some e => if t <? expires_at e then Some (payload e) else None
  | None => None
  end.

(** [f"deleted_commitment:{user_id}:{commitment_id}"] *)
Definition shadow_key (user_id commitment_id : string) : string :=
  String.append "deleted_commitment:"
    (String.append user_id (String.append ":" commitment_id)).

(** [get_commitment_by_field]: the document id and the snapshot *)
Definition get_commitment_by_field (st : store) (user_id commitment_id : string)
  : option (string * dict) :=
  let coll := commitments_of st user_id in
  match query_first "commitment_id" commitment_id coll with
  | Some kd => Some kd
  | None =>
      match coll !! commitment_id with
      | Some d => Some (commitment_id, d)
      | None => None
      end
  end.

(** [backup_to_redis] at time [t]; [now] is the reading of the clock *)
Definition backup_to_redis `{Lib} (now : datetime) (t : Z)
    (user_id commitment_id : string) (commitment_data : dict)
    (redis_client : option redis) : bool * option redis :=
  match redis_client with
  | None => (false, None)
  | Some r =>
      if negb (reachable r) then (false, Some r)
      else
        let key := shadow_key user_id commitment_id in
        let data := mk_item commitment_id user_id
                      (json_roundtrip commitment_data)
                      (datetime_isoformat now) in
        (true,
         Some (mk_redis (reachable r)
                 (<[key := mk_entry (t + 86400) data]> (entries r))))
  end.

(** [delete_commitment], for the authenticated user [user_id] *)
Definition delete_commitment `{Lib} (now : datetime) (t : Z)
    (user_id commitment_id : string) (st : store)
    (redis_client : option redis) : response * store * option redis :=
  match get_commitment_by_field st user_id commitment_id with
  | None => (HttpError 404, st, redis_client)
  | Some (doc_id, commitment_data) =>
      let '(_, redis_client) :=
        backup_to_redis now t user_id commitment_id commitment_data
          redis_client in
      (Success, delete_doc st user_id doc_id, redis_client)
  end.

(** The fields [restore_deleted_commitment] writes (lines 539-542);
    the clock is read for each of the two timestamps. *)
Definition restored `{Lib} (now_restored now_updated : datetime)
    (commitment_data : dict) : dict :=
  <["status" := VStr "active"]>
    (<["completed" := VBool false]>
       (<["updated_at" := VStr (datetime_isoformat now_updated)]>
          (<["restored_at" := VStr (datetime_isoformat now_restored)]>
             commitment_data))).

(** [restore_deleted_commitment], for the authenticated user [user_id] *)
Definition restore_deleted_commitment `{Lib}
    (now_restored now_updated : datetime) (t : Z)
    (user_id commitment_id : string) (st : store)
    (redis_client : option redis) : response * store * option redis :=
  match redis_client with
  | None => (HttpError 400, st, None)
  | Some r =>
      if negb (reachable r) then (HttpError 500, st, Some r)
      else
        let key := shadow_key user_id commitment_id in
        match redis_get r t key with
        | None => (HttpError 404, st, Some r)
        | Some item =>
            let commitment_data :=
              restored now_restored now_updated (item_data item) in
            (Success,
             set_doc st user_id commitment_id commitment_data,
             Some (mk_redis (reachable r) (delete key (entries r))))
        end
  end.

(** Every commitment is stored under its [commitment_id], as
    [save_commitment_to_firestore] stores it. *)
Definition ids_consistent (coll : collection) : Prop :=
  forall k d, coll !! k = Some d -> d !! "commitment_id" = Some (VStr k).

(** The four fields a restore writes. *)
Definition restore_written (k : string) : Prop :=
  k = "updated_at" \/ k = "restored_at" \/ k = "completed" \/ k = "status".

(** The shadow store holds nothing under [key]. *)
Definition shadow_absent (redis_client : option redis) (key : string) : Prop :=
  match redis_client with
  | Some r => entries r !! key = None
  | None => True
  end.

End CommitmentRoutes.

(** ** tools/gmail/process_new_email.py and services/gmail/save_commitment.py *)

Module LiveEmail.

Import Firestore Extractor DeadlineParser Regex.

(** A message as the aggregator returns it: its id, its headers by name,
    its labels, its internal date in milliseconds, and the text that the
    body extraction of lines 91-128 yields. *)
Record gmail_message := mk_message {
  msg_id : option string;
  msg_headers : gmap string string;
  msg_label_ids : list string;
  msg_internal_date : option Z;
  msg_body_text : string
}.

(** What the extractor returns, as far as the handler reads it. *)
Record ai_result := mk_ai_result {
  has_commitment : value;
  ai_commitments : list dict;
  classification : dict;
  direction : value;
  summary : value
}.

(** The services the handler calls: the aggregator's fetch of a message
    (an exception, an empty payload, or a message), the extractor of
    [extract_commitments_from_email], whose debit of the user's credits is
    outside this model, and the stream of [uuid.uuid4().hex[:16]]. *)
Class Services := {
  fetch_message : string -> string -> string -> result (option gmail_message);
  extract_commitments_from_email : email_json -> string -> result ai_result;
  uuid4_hex16 : nat -> string
}.

(** [s.split(c)[0]] *)
Fixpoint before (c : ascii) (s : string) : string :=
  match s with
  | EmptyString => EmptyString
  | String a s' => if Ascii.eqb a c then EmptyString else String a (before c s')
  end.

Fixpoint lstrip_char (c : ascii) (s : string) : string :=
  match s with
  | EmptyString => EmptyString
  | String a s' => if Ascii.eqb a c then lstrip_char c s' else s
  end.

Fixpoint rstrip_char (c : ascii) (s : string) : string :=
  match s with
  | EmptyString => EmptyString
  | String a s' =>
      match rstrip_char c s' with
      | EmptyString => if Ascii.eqb a c then EmptyString else String a EmptyString
      | r => String a r
      end
  end.

(** [s.strip(c)] for a one-character argument *)
Definition strip_char (c : ascii) (s : string) : string :=
  rstrip_char c (lstrip_char c s).

(** [<([^>]+)>] *)
Definition re_angle : re :=
  Cat (Lit "<")
    (Cat (Grp 1 (Plus (Cls (fun c => negb (Ascii.eqb c ">"%char))))) (Lit ">")).

(** [extract_email_address] *)
Definition extract_email_address (header_value : string) : string :=
  if String.eqb header_value "" then ""
  else
    match search re_angle header_value with
    | Some m => strip (default "" (group m 1))
    | None => strip header_value
    end.

(** [extract_name_from_header] *)
Definition extract_name_from_header (header_value : string) : string :=
  if String.eqb header_value "" then ""
  else
    let name := strip (before "<"%char header_value) in
    if contains "<" header_value && negb (String.eqb name "")
    then strip_char "'"%char (strip_char (ascii_of_N 34) name)
    else
      let email := extract_email_address header_value in
      if negb (String.eqb email "") && contains "@" email
      then before "@"%char email
      else "".







(** What an invocation of the handler does, in order. *)
Inductive event :=
| Fetched (message_id : string)
| Extracted (email : email_json)
| Saved (doc_id : string).












End LiveEmail.

(** ** main.py: the webhook endpoint *)

Module Webhook.

Import CreditEngine.

(** What the endpoint answers: one of its three JSON bodies, or the HTTP 500
    raised from its [except] clause. *)
Inductive response :=
| RespError (reason : string)
| RespSkipped (reason : string)
| RespOk
| Http500.

(** A queued call of [process_new_email]. *)
Record task := mk_task {
  task_user_id : string;
  task_connected_account_id : value;
  task_message_id : value
}.

(** [composio_webhook]; [body_data] is the member [data] of the request body
    when it has one.  A user id that is not a string cannot name a document
    and raises inside [has_enough_credits]. *)
Definition composio_webhook `{Lib} (body_data : option dict)
    (users : users_coll) : response * list task :=
  let data := default ∅ body_data in
  let user_id := data !! "user_id" in
  let connected_account_id :=
    or_else (data !! "connection_nano_id") (data !! "connection_id") in
  let message_id := or_else (data !! "message_id") (data !! "id") in
  if negb (truthy_get user_id) || negb (truthy_get connected_account_id)
     || negb (truthy_get message_id)
  then (RespError "missing_fields", [])
  else
    match user_id with
    | Some (VStr uid) =>
        match has_enough_credits uid users with
        | Ok false => (RespSkipped "no_credits", [])
        | Ok true =>
            (RespOk,
             [mk_task uid (default VNone connected_account_id)
                      (default VNone message_id)])
        | Raise _ => (Http500, [])
        end
    | _ => (Http500, [])
    end.

(** A well-formed payload: a user id, a connection id and a message id,
    all non-empty strings. *)
Definition well_formed (data : dict) (uid : string) : Prop :=
  data !! "user_id" = Some (VStr uid) /\ uid <> ""
  /\ truthy_get (or_else (data !! "connection_nano_id") (data !! "connection_id")) = true
  /\ truthy_get (or_else (data !! "message_id") (data !! "id")) = true.

End Webhook.

(** ** A reference instance of the library interface

    A small implementation of the library functions on the formats the
    sources produce ([YYYY-MM-DD], optionally followed by a time), used to
    run the embedding on concrete inputs. *)

Module RefLib.

(** Days since 1970-01-01 of a civil date. *)
Definition days_from_civil (y m d : Z) : Z :=
  let y' := if m <=? 2 then y - 1 else y in
  let era := y' / 400 in
  let yoe := y' - era * 400 in
  let mp := (m + 9) mod 12 in
  let doy := (153 * mp + 2) / 5 + d - 1 in
  let doe := yoe * 365 + yoe / 4 - yoe / 100 + doy in
  era * 146097 + doe - 719468.

(** [date(y, m, d).toordinal()] *)
Definition ordinal (y m d : Z) : Z := days_from_civil y m d + 719163.

(** The civil date of an ordinal. *)
Definition civil (o : Z) : Z * Z * Z :=
  let z := o - 719163 + 719468 in
  let era := z / 146097 in
  let doe := z - era * 146097 in
  let yoe := (doe - doe / 1460 + doe / 36524 - doe / 146096) / 365 in
  let doy := doe - (365 * yoe + yoe / 4 - yoe / 100) in
  let mp := (5 * doy + 2) / 153 in
  let d := doy - (153 * mp + 2) / 5 + 1 in
  let m := if mp <? 10 then mp + 3 else mp - 9 in
  let y := yoe + era * 400 in
  (if m <=? 2 then y + 1 else y, m, d).

Definition digit (c : ascii) : option Z :=
  if isdigit c then Some (Z.of_N (code c) - 48) else None.

(** The number written by a string of decimal digits. *)
Fixpoint digits (acc : Z) (s : string) : option Z :=
  match s with
  | EmptyString => Some acc
  | String c s' =>
      match digit c with
      | Some n => digits (10 * acc + n) s'
      | None => None
      end
  end.

Definition number (s : string) : option Z :=
  match s with
  | EmptyString => None
  | _ => digits 0 s
  end.

(** [date(y, m, d)], checked by converting back. *)
Definition ref_make_date (y m d : Z) : option Z :=
  match civil (ordinal y m d) with
  | (y', m', d') =>
      if (1 <=? y) && (y =? y') && (m =? m') && (d =? d')
      then Some (ordinal y m d) else None
  end.

(** [YYYY-MM-DD] *)
Definition parse_date (s : string) : option Z :=
  if negb (String.length s =? 10)%nat then None else
  match number (substring 0 4 s), number (substring 5 2 s),
        number (substring 8 2 s) with
  | Some y, Some m, Some d =>
      if String.eqb (substring 4 1 s) "-" && String.eqb (substring 7 1 s) "-"
      then ref_make_date y m d else None
  | _, _, _ => None
  end.

(** A date, alone or followed by [T] and a time of day; the time of day
    and the offset are not interpreted. *)
Definition ref_fromisoformat (s : string) : option datetime :=
  match parse_date (substring 0 10 s) with
  | Some d =>
      if (String.length s =? 10)%nat then Some (mk_datetime d 0 None)
      else if String.eqb (substring 10 1 s) "T"
      then Some (mk_datetime d 0 (Some 0))
      else None
  | None => None
  end.

Definition digit_char (n : Z) : ascii := ascii_of_N (Z.to_N (n mod 10) + 48).

(** [n] written with [w] digits, zero-padded. *)
Fixpoint pad (w : nat) (n : Z) : string :=
  match w with
  | O => EmptyString
  | S w' => String.append (pad w' (n / 10)) (String (digit_char n) EmptyString)
  end.

(** The decimal digits of a non-negative number, at most [w] of them. *)
Fixpoint decimal (w : nat) (n : Z) : string :=
  match w with
  | O => EmptyString
  | S w' =>
      if n <? 10 then String (digit_char n) EmptyString
      else String.append (decimal w' (n / 10)) (String (digit_char n) EmptyString)
  end.

Definition ref_str_of_int (n : Z) : string :=
  if n <? 0 then String.append "-" (decimal 40 (- n)) else decimal 40 n.

Definition ref_date_isoformat (o : Z) : string :=
  match civil o with
  | (y, m, d) =>
      String.append (pad 4 y)
        (String.append "-" (String.append (pad 2 m) (String.append "-" (pad 2 d))))
  end.

Definition ref_datetime_isoformat (t : datetime) : string :=
  String.append (ref_date_isoformat (dt_date t)) "T00:00:00+00:00".

Definition ref_fromtimestamp (secs : Q) : datetime :=
  mk_datetime (719163 + Qfloor secs / 86400)
              ((Qfloor secs mod 86400) * 1000000) (Some 0).

Definition ref_float (s : string) : option float :=
  match number s with
  | Some n => Some (round64 (inject_Z n))
  | None => None
  end.

#[export] Instance ref_lib : Lib := {|
  fromisoformat := ref_fromisoformat;
  date_isoformat := ref_date_isoformat;
  datetime_isoformat := ref_datetime_isoformat;
  fromtimestamp_utc := ref_fromtimestamp;
  float_of_string := ref_float;
  str_of_date := ref_date_isoformat;
  str_of_datetime := ref_datetime_isoformat;
  str_of_int := ref_str_of_int;
  date_year := fun o => fst (fst (civil o));
  date_month := fun o => snd (fst (civil o));
  make_date := ref_make_date;
  dateutil_available := false;
  dateutil_parse := fun _ _ => None
|}.

End RefLib.

(** ** Sample data *)

Module Samples.

(** An open commitment due on 2025-11-22. *)
Definition deck : dict :=
  <["what" := VStr "send the deck"]> {["deadline_iso" := VStr "2025-11-22"]}.

(** An open commitment without a deadline. *)
Definition memo : dict :=
  <["what" := VStr "call Bob"]> {["deadline_iso" := VNone]}.

(** A completed commitment that carries no derived field. *)
Definition done_bare : dict := {["completed" := VBool true]}.

(** A meeting with estimated hours of 0, with every required field. *)
Definition zero_hours : dict :=
  <["what" := VStr "join the sync"]>
  (<["to_whom" := VStr "Ana"]>
  (<["assigned_to_me" := VBool true]>
  (<["deadline_raw" := VNone]>
  (<["priority" := VStr "low"]>
  (<["confidence" := VNum 1]>
  (<["commitment_type" := VStr "meeting"]>
  {["estimated_hours" := VNum 0]})))))).

(** An inbox email dated 2025-11-24. *)
Definition mail : Extractor.email_json :=
  Extractor.mk_email "ana@example.com" "Ana" "Sync" "see you there"
           "2025-11-24T09:00:00Z" "m1" "INBOX" "" "".

(** The connection state of an active user. *)
Definition conn0 : dict :=
  <["first_connected_at" := VStr "2024-01-01T00:00:00+00:00"]>
  (<["last_sync_time" := VStr "2024-01-01T00:05:00+00:00"]>
  (<["composio_enabled" := VBool true]>
  (<["inbox_trigger_id" := VStr "ti_inbox"]>
  (<["sent_trigger_id" := VStr "ti_sent"]>
  {["entity_id" := VStr "ca_1"]})))).

(** A users collection with that one user. *)
Definition users0 : users_coll :=
  {["u" := <["composio_connection" := Nested conn0]>
             {["credits_remaining" := Scalar (VNum 5)]}]}.

(** A stored, completed commitment. *)
Definition doc0 : dict :=
  <["commitment_id" := VStr "commitment_ab12"]>
  (<["what" := VStr "send the deck"]>
  (<["status" := VStr "completed"]>
  (<["completed" := VBool true]>
  (<["completed_at" := VStr "2025-11-20T10:00:00+00:00"]>
  {["updated_at" := VStr "2025-11-20T10:00:00+00:00"]})))).

(** A store with that one commitment of user [u]. *)
Definition store0 : store := {["u" := {["commitment_ab12" := doc0]}]}.

(** A reachable, empty shadow store. *)
Definition redis0 : CommitmentRoutes.redis := CommitmentRoutes.mk_redis true ∅.

End Samples.

(** ** Sample runs of the deadline parser

    The reference date of the test block of deadline_parser.py:
    2025-11-24, a Monday. *)

Module ParserSamples.

Import DeadlineParser RefLib.

Definition test_date : string := "2025-11-24T09:00:00Z".

Definition run (raw : string) : result (option string) :=
  parse_deadline_raw (H:=ref_lib) (mk_datetime 0 0 None) raw test_date.

End ParserSamples.

(** ** status_calculator.py: categories and urgency *)

Module Categorize.

Import DateTime StatusCalculator.

(** [commitment.get("status", "no_deadline") == s] *)
Definition status_is (commitment : dict) (s : string) : bool :=
  match get_or commitment "status" (VStr "no_deadline") with
  | VStr s' => String.eqb s' s
  | _ => false
  end.

(** The deadline date of the [try] block of [get_urgency_score] on a
    truthy [deadline_iso]: a string is parsed, any other value is taken as
    it is, and only a [date] can then be subtracted from the date [today];
    the other values raise [TypeError]. *)
Definition deadline_date `{Lib} (deadline_iso : value) : result Z :=
  match deadline_iso with
  | VStr s =>
      match fromisoformat (replace_Z s) with
      | Some t => Ok (dt_date t)
      | None => Raise ValueError
      end
  | VDate d => Ok d
  | _ => Raise TypeError
  end.

(** Lines 119-122 of [categorize_by_deadline]: a string is parsed to its
    date, [None] standing for the [ValueError] of [fromisoformat]; any
    other value is taken as it is. *)
Definition parsed_deadline `{Lib} (deadline_iso : value) : option value :=
  match deadline_iso with
  | VStr s =>
      match fromisoformat (replace_Z s) with
      | Some t => Some (VDate (dt_date t))
      | None => None
      end
  | v => Some v
  end.

(** [categorize_by_deadline(commitment, today, upcoming_days)].  Inside the
    [try], the end of the upcoming period is computed before the deadline
    is compared with it: the [OverflowError] of that addition is not among
    the exceptions the [except] clause names and leaves the function; the
    [TypeError] of comparing a value that is not a [date] is caught. *)
Definition categorize_by_deadline `{Lib} (now : datetime) (commitment : dict)
    (today : option Z) (upcoming_days : Z) : result string :=
  let today := default (dt_date now) today in
  if status_is commitment "overdue" then Ok "overdue"
  else if status_is commitment "due_today" then Ok "due_today"
  else if status_is commitment "no_deadline" then Ok "no_deadline"
  else if status_is commitment "active" then
    let deadline_iso := commitment !! "deadline_iso" in
    if truthy_get deadline_iso then
      match parsed_deadline (default VNone deadline_iso) with
      | None => Ok "no_deadline"
      | Some deadline_date =>
          upcoming_end ← add_days today upcoming_days;
          match deadline_date with
          | VDate d => Ok (if d <=? upcoming_end then "upcoming" else "later")
          | _ => Ok "no_deadline"
          end
      end
    else Ok "no_deadline"
  else Ok "no_deadline".

(** A number as arithmetic takes it; a [bool] is an [int]. *)
Definition number_of (v : value) : option Q :=
  match v with
  | VNum q => Some q
  | VBool b => Some (if b then 1 else 0)%Q
  | _ => None
  end.

(** [get_urgency_score(commitment, today)]; the subtraction
    [100 - days_overdue] is outside any [try] and raises [TypeError] on a
    value that is not a number. *)
Definition get_urgency_score `{Lib} (now : datetime) (commitment : dict)
    (today : option Z) : result Q :=
  let today := default (dt_date now) today in
  let days_overdue := get_or commitment "days_overdue" (VNum 0) in
  let deadline_iso := commitment !! "deadline_iso" in
  if status_is commitment "overdue" then
    match number_of days_overdue with
    | Some q => Ok (Qmax 0 (100 - q))
    | None => Raise TypeError
    end
  else if status_is commitment "due_today" then Ok 100%Q
  else if status_is commitment "active" && truthy_get deadline_iso then
    match deadline_date (default VNone deadline_iso) with
    | Ok d =>
        let days_until := days_between d today in
        if days_until <=? 7 then Ok (inject_Z (200 + days_until))
        else Ok (inject_Z (300 + days_until))
    | Raise _ => Ok 1000%Q
    end
  else Ok 1000%Q.

End Categorize.

(** ** services/gmail/commitments/fetcher.py: categories of a result *)

Module Fetcher.

Import Categorize.

(** The six lists of [categorize_commitments]. *)
Record categories := mk_categories {
  overdue : list dict;
  due_today : list dict;
  upcoming : list dict;
  later : list dict;
  no_deadline : list dict;
  completed : list dict
}.

Definition empty_categories : categories := mk_categories [] [] [] [] [] [].

(** [categories[category].append(c)]; [None] stands for [KeyError]. *)
Definition append_to (cats : categories) (category : string) (c : dict)
  : option categories :=
  let '(mk_categories o d u l n k) := cats in
  if String.eqb category "overdue" then Some (mk_categories (o ++ [c]) d u l n k)
  else if String.eqb category "due_today" then Some (mk_categories o (d ++ [c]) u l n k)
  else if String.eqb category "upcoming" then Some (mk_categories o d (u ++ [c]) l n k)
  else if String.eqb category "later" then Some (mk_categories o d u (l ++ [c]) n k)
  else if String.eqb category "no_deadline" then Some (mk_categories o d u l (n ++ [c]) k)
  else if String.eqb category "completed" then Some (mk_categories o d u l n (k ++ [c]))
  else None.

(** The loop of [categorize_commitments], from the categories [cats];
    [UPCOMING_DAYS] is read from the environment. *)
Fixpoint categorize_from `{Lib} (now : datetime) (UPCOMING_DAYS : Z)
    (today : Z) (cats : categories) (commitments : list dict)
  : result categories :=
  match commitments with
  | [] => Ok cats
  | c :: rest =>
      category ←
        (if truthy_get (c !! "completed") then Ok "completed"
         else categorize_by_deadline now c (Some today) UPCOMING_DAYS);
      match append_to cats category c with
      | Some cats' => categorize_from now UPCOMING_DAYS today cats' rest
      | None => Raise KeyError
      end
  end.

(** [categorize_commitments(commitments, today)] *)
Definition categorize_commitments `{Lib} (now : datetime) (UPCOMING_DAYS : Z)
    (commitments : list dict) (today : Z) : result categories :=
  categorize_from now UPCOMING_DAYS today empty_categories commitments.

(** All the commitments of the six lists. *)
Definition all_of (cats : categories) : list dict :=
  overdue cats ++ due_today cats ++ upcoming cats ++ later cats
  ++ no_deadline cats ++ completed cats.

End Fetcher.

(** ** connection_state_manager.py: first connection and its history *)

Module ConnectionHistory.

Import ConnectionState.

(** The dictionary [get_connection_state] returns. *)
Record connection_state := mk_connection_state {
  is_first_time : bool;
  first_connected_at : value;
  composio_enabled : value;
  inbox_trigger_id : value;
  sent_trigger_id : value;
  entity_id : value;
  last_sync_time : value
}.

(** The answer for a user without document, and after an exception. *)
Definition never_connected : connection_state :=
  mk_connection_state true VNone (VBool false) VNone VNone VNone VNone.

(** [v is None] *)
Definition is_None (v : value) : bool :=
  match v with
  | VNone => true
  | _ => false
  end.

(** [get_connection_state]: a [composio_connection] that is not a map has
    no [get], and the exception handler answers as for a new user. *)
Definition get_connection_state (users : users_coll) (user_id : string)
  : connection_state :=
  match users !! user_id with
  | None => never_connected
  | Some data =>
      match default (Nested ∅) (data !! "composio_connection") with
      | Scalar _ | SpecialFloat _ => never_connected
      | Nested composio_conn =>
          let first := get_or composio_conn "first_connected_at" VNone in
          mk_connection_state (is_None first) first
            (get_or composio_conn "composio_enabled" (VBool false))
            (get_or composio_conn "inbox_trigger_id" VNone)
            (get_or composio_conn "sent_trigger_id" VNone)
            (get_or composio_conn "entity_id" VNone)
            (get_or composio_conn "last_sync_time" VNone)
      end
  end.

(** [should_run_initial_sync] *)
Definition should_run_initial_sync (users : users_coll) (user_id : string)
  : bool :=
  is_first_time (get_connection_state users user_id).

(** [mark_first_connection]: [set(..., merge=True)] creates the document
    when there is none and writes each leaf of the nested map;
    [SERVER_TIMESTAMP] is stored as the time [server_time] of the server. *)
Definition mark_first_connection (server_time : datetime) (user_id : string)
    (entity_id inbox_trigger_id sent_trigger_id : value) (users : users_coll)
  : bool * users_coll :=
  let now := VDatetime server_time in
  let data := default ∅ (users !! user_id) in
  let data := update_path data "composio_connection" "first_connected_at" now in
  let data := update_path data "composio_connection" "is_first_time" (VBool false) in
  let data := update_path data "composio_connection" "composio_enabled" (VBool true) in
  let data := update_path data "composio_connection" "inbox_trigger_id" inbox_trigger_id in
  let data := update_path data "composio_connection" "sent_trigger_id" sent_trigger_id in
  let data := update_path data "composio_connection" "entity_id" entity_id in
  let data := update_path data "composio_connection" "last_sync_time" now in
  (true, <[user_id := data]> users).

(** A later change of the connection: a disconnection, or a reconnection
    with the ids the aggregator returned. *)
Inductive change :=
| Disconnect
| Reconnect (entity_id inbox_trigger_id sent_trigger_id : value).

(** The collection after a run of changes for one user. *)
Fixpoint after_changes (user_id : string) (changes : list change)
    (users : users_coll) : users_coll :=
  match changes with
  | [] => users
  | Disconnect :: rest =>
      after_changes user_id rest (snd (mark_disconnection user_id users))
  | Reconnect e i s :: rest =>
      after_changes user_id rest (snd (mark_reconnection user_id e i s users))
  end.

End ConnectionHistory.

(** ** credit_engine.py and routes/credit_routes.py: initial and reset balance *)

Module CreditInit.

Import CreditEngine.

(** The constants of [credit_config]. *)
Class CreditConfig := {
  INPUT_TOKENS_PER_CREDIT : Q;
  OUTPUT_TOKENS_PER_CREDIT : Q;
  DEFAULT_FREE_TRIAL_CREDITS : Q
}.

(** The fields [initialize_credits_if_missing] merges into the document. *)
Definition with_default_credits `{CreditConfig} (data : user_doc) : user_doc :=
  <["composio_enabled" := Scalar (VBool true)]>
    (<["tokens_per_credit_output" := Scalar (VNum OUTPUT_TOKENS_PER_CREDIT)]>
       (<["tokens_per_credit_input" := Scalar (VNum INPUT_TOKENS_PER_CREDIT)]>
          (<["credits_remaining" := Scalar (VNum DEFAULT_FREE_TRIAL_CREDITS)]>
             (<["credits_used" := Scalar (VNum 0)]>
                (<["credits_total" := Scalar (VNum DEFAULT_FREE_TRIAL_CREDITS)]>
                   data))))).

(** [initialize_credits_if_missing] *)
Definition initialize_credits_if_missing `{CreditConfig} (user_id : string)
    (users : users_coll) : users_coll :=
  match users !! user_id with
  | Some data =>
      match data !! "credits_total" with
      | Some _ => users
      | None => <[user_id := with_default_credits data]> users
      end
  | None => <[user_id := with_default_credits ∅]> users
  end.


End CreditInit.

(** ** routes/commitment_routes.py: completion *)

Module CompleteRoute.

Import Firestore CommitmentRoutes.

(** [doc_ref.update(fields)] on an existing document: the fields of
    [update_data] (lines 254-263) are written over it. *)
Definition completion_update `{Lib} (now : datetime) (completed : bool)
    (doc : dict) : dict :=
  let now_iso := VStr (datetime_isoformat now) in
  <["completed_at" := if completed then now_iso else VNone]>
    (<["updated_at" := now_iso]>
       (<["status" := VStr (if completed then "completed" else "active")]>
          (<["completed" := VBool completed]> doc))).

(** [mark_commitment_complete], for the authenticated user [user_id] *)
Definition mark_commitment_complete `{Lib} (now : datetime)
    (user_id commitment_id : string) (completed : bool) (st : store)
  : response * store :=
  match get_commitment_by_field st user_id commitment_id with
  | None => (HttpError 404, st)
  | Some (doc_id, doc) =>
      (Success, set_doc st user_id doc_id (completion_update now completed doc))
  end.

(** The four fields a completion writes. *)
Definition completion_written (k : string) : Prop :=
  k = "completed" \/ k = "status" \/ k = "updated_at" \/ k = "completed_at".

End CompleteRoute.

(** ** Sample data for the routes, the webhook and the live handler *)

Module Scenarios.

Import CreditEngine CreditInit Extractor LiveEmail.

(** The constants of [credit_config], with the values [get_credit_status]
    falls back to. *)
#[export] Instance trial_config : CreditConfig := {|
  INPUT_TOKENS_PER_CREDIT := 6703;
  OUTPUT_TOKENS_PER_CREDIT := 1671;
  DEFAULT_FREE_TRIAL_CREDITS := 2500
|}.

(** A user with a profile and no credit fields. *)
Definition profile_only : users_coll :=
  {["u" := {["email" := Scalar (VStr "founder@example.com")]}]}.



(** A well-formed webhook payload for that user. *)
Definition payload : dict :=
  <["user_id" := VStr "u"]>
    (<["connection_id" := VStr "ca_1"]> {["message_id" := VStr "m1"]}).

(** An inbox message with the id [m1]. *)
Definition inbox_message : gmail_message :=
  mk_message (Some "m1") {["From" := "Ana <ana@example.com>"]} ["INBOX"] None
    "see you there".

(** An extraction with two commitments, neither with a deadline. *)
Definition two_commitments : ai_result :=
  mk_ai_result (VBool true)
    [ {["what" := VStr "send the deck"]}; {["what" := VStr "call Bob"]} ]
    ∅ (VStr "incoming") (VStr "two requests").

(** Services that fetch that message and extract those commitments. *)
#[export] Instance sample_services : Services := {|
  fetch_message := fun _ _ _ => Ok (Some inbox_message);
  extract_commitments_from_email := fun _ _ => Ok two_commitments;
  uuid4_hex16 := fun n => RefLib.pad 16 (Z.of_nat n)
|}.



(** An extracted commitment due the day after the email. *)
Definition due_tomorrow : dict :=
  <["deadline_raw" := VStr "tomorrow"]> {["estimated_hours" := VNum 1]}.

End Scenarios.

(* ===================================================================== *)
(** * Properties *)
(* ===================================================================== *)

Section sanity.
Import RefLib DateTime.

Example ordinal_2025_11_24 : ordinal 2025 11 24 = 739579.
Proof. reflexivity. Qed.

Example monday_2025_11_24 : weekday (ordinal 2025 11 24) = 0.
Proof. reflexivity. Qed.

Example iso_roundtrip_2025_11_24 :
  ref_fromisoformat "2025-11-24" = Some (mk_datetime 739579 0 None)
  /\ ref_date_isoformat 739579 = "2025-11-24".
Proof. split; vm_compute; reflexivity. Qed.

Example iso_rejects_2025_02_30 : ref_fromisoformat "2025-02-30" = None.
Proof. vm_compute. reflexivity. Qed.
End sanity.

(** ** Floats *)

Lemma round64_proper (q q' : Q) : (q == q')%Q -> round64 q = round64 q'.
Proof. intros E. unfold round64. by rewrite (Qred_complete _ _ E). Qed.

Lemma round64_zero (q : Q) : (q == 0)%Q -> round64 q = Finite 0.
Proof. intros E. by rewrite (round64_proper _ _ E). Qed.





Lemma float_sub_finite (a b : Q) :
  float_sub (Finite a) (Finite b) = round64 (a - b).
Proof. reflexivity. Qed.


(** ** Credit meter *)

Section credit_engine.
Context `{Lib}.
Import CreditEngine.

Lemma float_get_field (data : user_doc) k (x : float) :
  data !! k = Some (float_field x) -> float_get data k = Ok x.
Proof. intros E. unfold float_get. rewrite E. by destruct x. Qed.

Lemma credits_stored (data : user_doc) used remaining :
  credits data used remaining <-> stored data (Finite used) (Finite remaining).
Proof. reflexivity. Qed.

Lemma stored_balance (data : user_doc) u x :
  stored data u x ->
  float_get data "credits_remaining" = Ok x
  /\ float_get data "credits_used" = Ok u.
Proof. intros [Hu Hx]. split; by apply float_get_field. Qed.


(** The transaction writes the float difference, cut at zero, and the
    float sum. *)
Lemma txn_credits (users : users_coll) uid data u x spent :
  users !! uid = Some data ->
  stored data u x ->
  exists data',
    txn uid spent users
    = Ok (max_0 (float_sub x (Finite spent)), <[uid := data']> users)
    /\ stored data' (float_add u (Finite spent))
         (max_0 (float_sub x (Finite spent)))
    /\ (forall k, k <> "credits_used" -> k <> "credits_remaining" ->
                  data' !! k = data !! k).
Proof.
  intros Hd Hc. destruct (stored_balance _ _ _ Hc) as [Hr Hu].
  eexists. unfold txn. rewrite Hd, Hr, Hu. simpl. split; [reflexivity|].
  split.
  - split; by simplify_map_eq.
  - intros k ? ?. by simplify_map_eq.
Qed.

(** Whatever the hook does, a deduction commits the debit. *)
Lemma deduct_credits_in_debit names impl (users : users_coll) uid data
    u x spent :
  users !! uid = Some data ->
  stored data u x ->
  exists data' evs,
    deduct_credits_in names impl uid spent users
    = Ok (<[uid := data']> users, evs)
    /\ stored data' (float_add u (Finite spent))
         (max_0 (float_sub x (Finite spent)))
    /\ (forall k, k <> "credits_used" -> k <> "credits_remaining" ->
                  data' !! k = data !! k).
Proof.
  intros Hd Hc.
  destruct (txn_credits users uid data u x spent Hd Hc)
    as (data' & Htxn & Hc' & Hframe).
  exists data'. unfold deduct_credits_in. rewrite Htxn. simpl.
  destruct (float_le0 _); [|eauto].
  destruct (import_from _ _ _) as [h|e]; [|eauto].
  destruct (h uid); eauto.
Qed.

(** A run of deductions goes through and leaves the balance that the
    float arithmetic gives. *)
Lemma deduct_all_balance amounts :
  forall (users : users_coll) uid data u x,
    users !! uid = Some data ->
    stored data u x ->
    exists data' evs,
      deduct_all uid amounts users = Ok (<[uid := data']> users, evs)
      /\ stored data' (balance_after u x amounts).1 (balance_after u x amounts).2
      /\ (forall k, k <> "credits_used" -> k <> "credits_remaining" ->
                    data' !! k = data !! k).
Proof.
  induction amounts as [|a rest IH]; intros users uid data u x Hd Hc.
  - exists data, []. simpl. rewrite (insert_id users uid data Hd). done.
  - destruct (deduct_credits_in_debit composio_manager_names (fun _ => Ok tt)
                users uid data u x a Hd Hc)
      as (d1 & ev1 & Hrun & Hc1 & Hf1).
    destruct (IH (<[uid := d1]> users) uid d1 _ _ (lookup_insert_eq _ _ _) Hc1)
      as (d2 & ev2 & Hrun2 & Hc2 & Hf2).
    exists d2, (ev1 ++ ev2)%list.
    simpl. unfold deduct_credits. rewrite Hrun. simpl. rewrite Hrun2. simpl.
    rewrite insert_insert_eq.
    split; [reflexivity|]. split; [exact Hc2|].
    intros k ? ?. rewrite Hf2, Hf1; done.
Qed.



Lemma exact_Finite (x : float) (q : Q) :
  exact x q = true -> exists d, x = Finite d /\ (d == q)%Q.
Proof.
  destruct x as [d|s]; [|done]. simpl. intros E%Qeq_bool_iff. eauto.
Qed.





Lemma fresh_credits_fields T (data : user_doc) :
  credits (fresh_credits T data) 0 T
  /\ fresh_credits T data !! "credits_total" = Some (Scalar (VNum T)).
Proof. unfold credits, fresh_credits. by simplify_map_eq. Qed.

End credit_engine.

Import CreditEngine RefLib.



(** Rounding shows in a run of ordinary amounts: ten deductions of the
    float 0.1 from a balance of 1 total at least 1 and leave
    [used = 0.9999999999999999] and a remaining balance of [5 / 2^55]
    (1.39e-16), which is positive, so the user still passes
    [has_enough_credits]. *)
Example ten_tenths_leave_credits :
  let tenth := (3602879701896397 # 36028797018963968)%Q in
  round64 (1 # 10) = Finite tenth
  /\ (1 <= total (repeat tenth 10))%Q
  /\ balance_after (Finite 0) (Finite 1) (repeat tenth 10)
     = (Finite (9007199254740991 # 9007199254740992),
        Finite (5 # 36028797018963968))
  /\ exists users' evs,
       deduct_all (H:=ref_lib) "u" (repeat tenth 10) {["u" := fresh_credits 1 ∅]}
       = Ok (users', evs)
       /\ has_enough_credits "u" users' = Ok true.
Proof.
  intros tenth. split; [vm_compute; reflexivity|].
  split; [vm_compute; discriminate|].
  split; [vm_compute; reflexivity|].
  destruct (fresh_credits_fields 1 ∅) as [Hc _].
  destruct (deduct_all_balance (H:=ref_lib) (repeat tenth 10)
              {["u" := fresh_credits 1 ∅]} "u" (fresh_credits 1 ∅) _ _
              (lookup_singleton_eq _ _) (proj1 (credits_stored _ _ _) Hc))
    as (d & evs & Hrun & Hst & _).
  exists (<["u" := d]> {["u" := fresh_credits 1 ∅]}), evs.
  split; [exact Hrun|].
  unfold has_enough_credits. rewrite lookup_insert_eq.
  rewrite (proj1 (stored_balance _ _ _ Hst)). vm_compute. reflexivity.
Qed.

Section pause_hook.
Context `{Lib}.

(** A deduction of exactly the remaining balance: the debit is committed
    with a remaining balance of zero, and the pause hook is reached. *)
Lemma deduct_exact_remaining names impl (users : users_coll) uid data used r :
  users !! uid = Some data ->
  credits data used r ->
  (0 < r)%Q ->
  exists data' remaining',
    stored data' (float_add (Finite used) (Finite r)) (Finite remaining')
    /\ (remaining' == 0)%Q
    /\ deduct_credits_in names impl uid r users
       = match import_from names "pause_composio_trigger" impl with
         | Raise e => Ok (<[uid := data']> users, [PrintedPauseFailed e])
         | Ok pause =>
             match pause uid with
             | Ok _ => Ok (<[uid := data']> users,
                           [PauseCalled uid; PrintedExhausted uid])
             | Raise e => Ok (<[uid := data']> users,
                              [PauseCalled uid; PrintedPauseFailed e])
             end
         end.
Proof.
  intros Hd Hc Hr.
  destruct (txn_credits users uid data _ _ r Hd (proj1 (credits_stored _ _ _) Hc))
    as (data' & Htxn & Hc' & _).
  assert (H0 : max_0 (float_sub (Finite r) (Finite r)) = Finite 0).
  { rewrite float_sub_finite, round64_zero; [reflexivity | lra]. }
  rewrite H0 in Htxn, Hc'.
  exists data', 0%Q. split; [exact Hc'|]. split; [reflexivity|].
  unfold deduct_credits_in. rewrite Htxn. reflexivity.
Qed.

(** Were [pause_composio_trigger] bound in the module, an exhausting
    deduction would invoke it exactly once, and keep the debit whether the
    hook returns or raises. *)
Lemma pause_hook_once_when_bound names impl (users : users_coll) uid data used r :
  existsb (String.eqb "pause_composio_trigger") names = true ->
  users !! uid = Some data ->
  credits data used r ->
  (0 < r)%Q ->
  exists data' remaining' evs,
    deduct_credits_in names impl uid r users = Ok (<[uid := data']> users, evs)
    /\ stored data' (float_add (Finite used) (Finite r)) (Finite remaining')
    /\ (remaining' == 0)%Q
    /\ pause_calls evs = 1%nat.
Proof.
  intros Hb Hd Hc Hr.
  destruct (deduct_exact_remaining names impl users uid data used r Hd Hc Hr)
    as (data' & r' & Hc' & H0 & Hrun).
  unfold import_from in Hrun. rewrite Hb in Hrun.
  exists data', r'. destruct (impl uid); eexists; eauto.
Qed.

(** C2: the module the hook is imported from does not bind it. *)
Lemma pause_composio_trigger_unbound impl :
  import_from composio_manager_names "pause_composio_trigger" impl
  = Raise ImportError.
Proof. reflexivity. Qed.

(** C2 on the code: deducting exactly the remaining balance [r > 0]
    commits the debit, with [credits_used] the float sum of the amount used
    so far and [r] (the number [used + r] when that sum is not rounded),
    and leaves a remaining balance of zero, but the import of
    [pause_composio_trigger] raises [ImportError], which the handler
    prints: the pause hook is not invoked. *)
Theorem C2_exhausting_deduction_hook_not_invoked (users : users_coll) uid data used r :
  users !! uid = Some data ->
  credits data used r ->
  (0 < r)%Q ->
  exists data' remaining',
    deduct_credits uid r users
    = Ok (<[uid := data']> users, [PrintedPauseFailed ImportError])
    /\ stored data' (float_add (Finite used) (Finite r)) (Finite remaining')
    /\ (exact (float_add (Finite used) (Finite r)) (used + r) = true ->
        exists used', credits data' used' remaining'
                      /\ (used' == used + r)%Q)
    /\ (remaining' == 0)%Q
    /\ pause_calls [PrintedPauseFailed ImportError] = 0%nat.
Proof.
  intros Hd Hc Hr.
  destruct (deduct_exact_remaining composio_manager_names (fun _ => Ok tt)
              users uid data used r Hd Hc Hr) as (data' & r' & Hc' & H0 & Hrun).
  exists data', r'. rewrite pause_composio_trigger_unbound in Hrun.
  unfold deduct_credits. rewrite Hrun.
  split; [done|]. split; [exact Hc'|]. split; [|done].
  intros He. apply exact_Finite in He as (u' & Hu' & Eu').
  rewrite Hu' in Hc'. by exists u'.
Qed.

(** C10: for a user id without a user document, [has_enough_credits]
    returns [False] without raising, and a well-formed webhook naming that
    user is answered [skipped] / [no_credits], with nothing queued. *)
Theorem C10_unknown_user_skipped (users : users_coll) uid :
  users !! uid = None ->
  has_enough_credits uid users = Ok false
  /\ forall data, Webhook.well_formed data uid ->
       Webhook.composio_webhook (Some data) users
       = (Webhook.RespSkipped "no_credits", []).
Proof.
  intros Hnone.
  assert (Hc : has_enough_credits uid users = Ok false).
  { unfold has_enough_credits. by rewrite Hnone. }
  split; [exact Hc|].
  intros data (Hu & Hne & Ha & Hm).
  unfold Webhook.composio_webhook. simpl. rewrite Hu, Ha, Hm. simpl.
  destruct (String.eqb_spec uid ""); [done|]. simpl. by rewrite Hc.
Qed.
End pause_hook.

Lemma C2_exhausting_deduction_hook_not_invoked_witness :
  exists data' used' remaining',
    deduct_credits "u" 5%Q {["u" := fresh_credits 5 ∅]}
    = Ok (<["u" := data']> {["u" := fresh_credits 5 ∅]},
          [PrintedPauseFailed ImportError])
    /\ credits data' used' remaining'
    /\ (used' == 0 + 5)%Q
    /\ (remaining' == 0)%Q
    /\ pause_calls [PrintedPauseFailed ImportError] = 0%nat.
Proof.
  destruct (C2_exhausting_deduction_hook_not_invoked (H:=ref_lib)
              {["u" := fresh_credits 5 ∅]} "u" (fresh_credits 5 ∅) 0%Q 5%Q)
    as (data' & remaining' & Hrun & _ & Hexact & Hzero & Hcalls).
  - apply lookup_singleton_eq.
  - apply fresh_credits_fields.
  - reflexivity.
  - destruct Hexact as (used' & Hc & Hu); [vm_compute; reflexivity|].
    exists data', used', remaining'. repeat (split; [assumption|]). exact Hcalls.
Defined.

Lemma C10_unknown_user_skipped_witness :
  has_enough_credits "ghost" ∅ = Ok false
  /\ Webhook.composio_webhook
       (Some (<["user_id" := VStr "ghost"]>
                (<["connection_id" := VStr "ca_1"]>
                   {["message_id" := VStr "m1"]})))
       ∅
     = (Webhook.RespSkipped "no_credits", []).
Proof.
  destruct (C10_unknown_user_skipped (H:=ref_lib) ∅ "ghost" (lookup_empty _))
    as [Hfalse Hskip].
  split; [exact Hfalse|].
  apply Hskip. repeat split; try reflexivity. discriminate.
Defined.

(** ** Status calculator *)

Section status_calculator.
Context `{Lib}.
Import StatusCalculator DateTime.

Lemma set_status_yields (c : dict) status days flag :
  yields (Ok (set_status c (status, days, flag))) status days flag.
Proof. exists (set_status c (status, days, flag)). unfold set_status. by simplify_map_eq. Qed.

(** An open commitment whose deadline parses to [d] gets the fields of the
    comparison of [d] with today. *)
Lemma recalculate_parsed now (c : dict) today d :
  truthy_get (c !! "completed") = false ->
  parses_to c d ->
  recalculate_status now c (Some today)
  = Ok (set_status c (compare_deadline d today)).
Proof.
  intros Hopen Hp. unfold recalculate_status. rewrite Hopen. simpl.
  destruct Hp as [(s & t & Hs & Hne & Hiso & Hd) | Hdate].
  - rewrite Hs. simpl. destruct (String.eqb_spec s ""); [done|]. simpl.
    rewrite Hiso, Hd. reflexivity.
  - rewrite Hdate. reflexivity.
Qed.

Lemma recalculate_no_date now (c : dict) today :
  truthy_get (c !! "completed") = false ->
  null_or_unparseable c ->
  recalculate_status now c (Some today) = Ok (set_status c no_deadline).
Proof.
  intros Hopen Hn. unfold recalculate_status. rewrite Hopen. simpl.
  destruct Hn as [Hn | [Hn | (s & Hs & Hiso)]]; rewrite ?Hn; try reflexivity.
  rewrite Hs. simpl. destruct (negb (String.eqb s "")); [|reflexivity].
  by rewrite Hiso.
Qed.

(** C3: the status of an open commitment follows the comparison of its
    deadline with today. *)
Theorem C3_recalculate_status_cases now (c : dict) today :
  truthy_get (c !! "completed") = false ->
  (forall d, parses_to c d -> d < today ->
     yields (recalculate_status now c (Some today)) "overdue" (today - d) true)
  /\ (forall d, parses_to c d -> d = today ->
     yields (recalculate_status now c (Some today)) "due_today" 0 false)
  /\ (forall d, parses_to c d -> today < d ->
     yields (recalculate_status now c (Some today)) "active" 0 false)
  /\ (null_or_unparseable c ->
     yields (recalculate_status now c (Some today)) "no_deadline" 0 false)
  /\ (forall d, parses_to c d -> d = today - 1 ->
     yields (recalculate_status now c (Some today)) "overdue" 1 true).
Proof.
  intros Hopen.
  assert (Hcmp : forall d, parses_to c d ->
            recalculate_status now c (Some today)
            = Ok (set_status c (compare_deadline d today)))
    by (intros; by apply recalculate_parsed).
  repeat split.
  - intros d Hp Hlt. rewrite (Hcmp d Hp). unfold compare_deadline, days_between.
    destruct (Z.ltb_spec d today); [|lia]. apply set_status_yields.
  - intros d Hp ->. rewrite (Hcmp _ Hp). unfold compare_deadline.
    rewrite Z.ltb_irrefl, Z.eqb_refl. apply set_status_yields.
  - intros d Hp Hgt. rewrite (Hcmp d Hp). unfold compare_deadline.
    destruct (Z.ltb_spec d today); [lia|].
    destruct (Z.eqb_spec d today); [lia|]. apply set_status_yields.
  - intros Hn. rewrite (recalculate_no_date now c today Hopen Hn).
    apply set_status_yields.
  - intros d Hp ->. rewrite (Hcmp _ Hp). unfold compare_deadline, days_between.
    destruct (Z.ltb_spec (today - 1) today); [|lia].
    replace (today - (today - 1)) with 1 by lia. apply set_status_yields.
Qed.

(** C7 (amended): on a completed commitment, [recalculate_status] returns
    the commitment with every field it has unchanged and no field removed;
    [status], [days_overdue] and [overdue_flag] keep their values when
    present and are otherwise added with the defaults [no_deadline], [0]
    and [False].  A commitment that has the three fields is returned
    unchanged. *)
Theorem C7_completed_frame now (c : dict) today :
  truthy_get (c !! "completed") = true ->
  exists c' : dict,
    recalculate_status now c today = Ok c'
    /\ (forall k v, c !! k = Some v -> c' !! k = Some v)
    /\ (forall k, k <> "status" -> k <> "days_overdue" -> k <> "overdue_flag" ->
          c' !! k = c !! k)
    /\ c' !! "status" = Some (get_or c "status" (VStr "no_deadline"))
    /\ c' !! "days_overdue" = Some (get_or c "days_overdue" (VNum 0))
    /\ c' !! "overdue_flag" = Some (get_or c "overdue_flag" (VBool false))
    /\ (is_Some (c !! "status") -> is_Some (c !! "days_overdue") ->
        is_Some (c !! "overdue_flag") -> c' = c).
Proof.
  intros Hdone. exists (fill_defaults c).
  split; [unfold recalculate_status; by rewrite Hdone|].
  unfold fill_defaults, get_or.
  split; [|split; [|split; [|split; [|split]]]].
  - intros k v Hk.
    destruct (decide (k = "overdue_flag")) as [->|]; [by simplify_map_eq|].
    destruct (decide (k = "days_overdue")) as [->|]; [by simplify_map_eq|].
    destruct (decide (k = "status")) as [->|]; by simplify_map_eq.
  - intros k ? ? ?. by simplify_map_eq.
  - by simplify_map_eq.
  - by simplify_map_eq.
  - by simplify_map_eq.
  - intros [v1 H1] [v2 H2] [v3 H3]. rewrite H1, H2, H3. simpl.
    rewrite (insert_id c "status" v1 H1), (insert_id c "days_overdue" v2 H2).
    by apply insert_id.
Qed.
End status_calculator.

Import StatusCalculator RefLib Samples.

Lemma C3_recalculate_status_cases_witness :
  yields (recalculate_status (mk_datetime 0 0 None) deck (Some (ordinal 2025 11 23)))
         "overdue" 1 true
  /\ yields (recalculate_status (mk_datetime 0 0 None) deck (Some (ordinal 2025 11 22)))
         "due_today" 0 false
  /\ yields (recalculate_status (mk_datetime 0 0 None) deck (Some (ordinal 2025 11 1)))
         "active" 0 false
  /\ yields (recalculate_status (mk_datetime 0 0 None) memo (Some (ordinal 2025 11 1)))
         "no_deadline" 0 false.
Proof.
  assert (Hp : parses_to deck (ordinal 2025 11 22)).
  { left. exists "2025-11-22", (mk_datetime (ordinal 2025 11 22) 0 None).
    split; [reflexivity|]. split; [discriminate|].
    split; [vm_compute; reflexivity | reflexivity]. }
  pose (now := mk_datetime 0 0 None).
  destruct (C3_recalculate_status_cases (H:=ref_lib) now deck
              (ordinal 2025 11 23) eq_refl) as (_ & _ & _ & _ & Hday).
  destruct (C3_recalculate_status_cases (H:=ref_lib) now deck
              (ordinal 2025 11 22) eq_refl) as (_ & Htoday & _ & _ & _).
  destruct (C3_recalculate_status_cases (H:=ref_lib) now deck
              (ordinal 2025 11 1) eq_refl) as (_ & _ & Hactive & _ & _).
  destruct (C3_recalculate_status_cases (H:=ref_lib) now memo
              (ordinal 2025 11 1) eq_refl) as (_ & _ & _ & Hnone & _).
  split; [|split; [|split]].
  - exact (Hday _ Hp eq_refl).
  - exact (Htoday _ Hp eq_refl).
  - exact (Hactive _ Hp eq_refl).
  - apply Hnone. right. by left.
Defined.

Lemma C7_completed_frame_witness :
  exists c' : dict,
    recalculate_status (mk_datetime 0 0 None) done_bare (Some 739579) = Ok c'
    /\ (forall k v, done_bare !! k = Some v -> c' !! k = Some v)
    /\ (forall k, k <> "status" -> k <> "days_overdue" -> k <> "overdue_flag" ->
          c' !! k = done_bare !! k)
    /\ c' !! "status" = Some (get_or done_bare "status" (VStr "no_deadline"))
    /\ c' !! "days_overdue" = Some (get_or done_bare "days_overdue" (VNum 0))
    /\ c' !! "overdue_flag" = Some (get_or done_bare "overdue_flag" (VBool false))
    /\ (is_Some (done_bare !! "status") -> is_Some (done_bare !! "days_overdue") ->
        is_Some (done_bare !! "overdue_flag") -> c' = done_bare).
Proof.
  apply (C7_completed_frame (H:=ref_lib) (mk_datetime 0 0 None) done_bare
           (Some 739579)).
  reflexivity.
Defined.

(** C7, as stated, fails on a completed commitment that lacks the derived
    fields: they are added. *)
Lemma C7_counterexample :
  done_bare !! "completed" = Some (VBool true)
  /\ done_bare !! "status" = None
  /\ exists c' : dict,
       recalculate_status (mk_datetime 0 0 None) done_bare (Some 739579) = Ok c'
       /\ c' !! "status" = Some (VStr "no_deadline")
       /\ c' <> done_bare.
Proof.
  split; [reflexivity|]. split; [reflexivity|].
  eexists. split; [reflexivity|]. split; [reflexivity|].
  intros E. apply (f_equal (fun m : dict => m !! "status")) in E.
  vm_compute in E. discriminate.
Qed.

(** ** Deadline parser *)

Section parser_samples.
Import ParserSamples.

Example run_tonight : run "tonight" = Ok (Some "2025-11-24").
Proof. vm_compute. reflexivity. Qed.

Example run_by_eod : run "by EOD" = Ok (Some "2025-11-24").
Proof. vm_compute. reflexivity. Qed.

Example run_within_2_hours : run "within 2 hours" = Ok (Some "2025-11-24").
Proof. vm_compute. reflexivity. Qed.

Example run_before_our_call : run "before our call" = Ok (Some "2025-11-24").
Proof. vm_compute. reflexivity. Qed.

Example run_first_thing_tomorrow : run "first thing tomorrow" = Ok (Some "2025-11-25").
Proof. vm_compute. reflexivity. Qed.

Example run_by_friday : run "by Friday" = Ok (Some "2025-11-28").
Proof. vm_compute. reflexivity. Qed.

Example run_next_monday : run "next Monday" = Ok (Some "2025-12-01").
Proof. vm_compute. reflexivity. Qed.

Example run_monday : run "Monday" = Ok (Some "2025-11-24").
Proof. vm_compute. reflexivity. Qed.

Example run_this_week : run "this week" = Ok (Some "2025-11-30").
Proof. vm_compute. reflexivity. Qed.

Example run_in_3_days : run "in 3 days" = Ok (Some "2025-11-27").
Proof. vm_compute. reflexivity. Qed.

Example run_by_the_30th : run "by the 30th" = Ok (Some "2025-11-30").
Proof. vm_compute. reflexivity. Qed.

Example run_the_5th : run "the 5th" = Ok (Some "2025-12-05").
Proof. vm_compute. reflexivity. Qed.

Example run_tbd : run "TBD" = Ok None.
Proof. vm_compute. reflexivity. Qed.
End parser_samples.

Section deadline_parser.
Context `{Lib}.
Import DeadlineParser DateTime.

(** Adding days that lead to a date gives that date. *)
Lemma add_days_in_range d n :
  Z.abs n <= 999999999 ->
  date_min <= d + n <= date_max ->
  add_days d n = Ok (d + n).
Proof.
  intros Hn [Hlo Hhi]. unfold add_days, timedelta_days.
  destruct (Z.leb_spec (Z.abs n) 999999999); [|lia]. simpl.
  destruct (Z.leb_spec date_min (d + n)); [|lia].
  destruct (Z.leb_spec (d + n) date_max); [|lia]. reflexivity.
Qed.

(** Adding days ahead of a date raises exactly when the sum is past
    [date.max]. *)
Lemma add_days_ahead d n :
  date_min <= d ->
  0 <= n <= 999999999 ->
  add_days d n = if d + n <=? date_max then Ok (d + n) else Raise OverflowError.
Proof.
  intros Hd Hn. unfold add_days, timedelta_days.
  destruct (Z.leb_spec (Z.abs n) 999999999); [|lia]. simpl.
  destruct (Z.leb_spec date_min (d + n)); [|lia].
  by destruct (Z.leb_spec (d + n) date_max).
Qed.

(** Every raise of a date addition is an [OverflowError]. *)
Lemma add_days_raise d n e : add_days d n = Raise e -> e = OverflowError.
Proof.
  unfold add_days, timedelta_days.
  destruct (Z.abs n <=? 999999999); simpl; [|congruence].
  destruct (_ && _); congruence.
Qed.

Lemma add_days_spec d n :
  add_days d n
  = if (Z.abs n <=? 999999999) && (date_min <=? d + n) && (d + n <=? date_max)
    then Ok (d + n) else Raise OverflowError.
Proof.
  unfold add_days, timedelta_days.
  destruct (Z.abs n <=? 999999999); simpl; [|done].
  by destruct (_ && _).
Qed.

(** The weekday arithmetic of [_weekday_after]. *)
Lemma weekday_after_days_ahead reference target_wd which :
  date_min <= dt_date reference ->
  _weekday_after reference target_wd which
  = (let days_ahead := (target_wd - weekday (dt_date reference)) mod 7 in
     let r := dt_date reference
              + (if String.eqb which "next" && (days_ahead =? 0) then 7
                 else days_ahead) in
     if r <=? date_max then Ok (combine_min r (dt_tzinfo reference))
     else Raise OverflowError).
Proof.
  intros Hd. unfold _weekday_after. cbv zeta.
  replace ((target_wd - weekday (dt_date reference) + 7) mod 7)
    with ((target_wd - weekday (dt_date reference)) mod 7).
  2:{ rewrite <- (Z.add_mod_idemp_r _ 7 7) by lia.
      rewrite Z.mod_same by lia. by rewrite Z.add_0_r. }
  set (k := (target_wd - weekday (dt_date reference)) mod 7).
  assert (Hk : 0 <= k < 7) by (apply Z.mod_pos_bound; lia).
  set (n := if String.eqb which "next" then if negb (k =? 0) then k else 7
            else if String.eqb which "this" then k else k).
  assert (En : n = if String.eqb which "next" && (k =? 0) then 7 else k).
  { unfold n. destruct (String.eqb which "next"); simpl.
    - by destruct (k =? 0).
    - by destruct (String.eqb which "this"). }
  assert (Hn : 0 <= n <= 999999999).
  { rewrite En. destruct (_ && _); lia. }
  rewrite (add_days_ahead _ _ Hd Hn), <- En.
  by destruct (_ <=? _).
Qed.

Lemma weekday_range d : 0 <= weekday d < 7.
Proof. unfold weekday. apply Z.mod_pos_bound. lia. Qed.

Lemma earliest_this d wd :
  0 <= wd < 7 ->
  earliest_weekday false wd d (d + (wd - weekday d) mod 7).
Proof.
  intros Hwd. unfold earliest_weekday, weekday.
  repeat split.
  - Z.div_mod_to_equations. lia.
  - Z.div_mod_to_equations. lia.
  - intros r' Hr' Hle. Z.div_mod_to_equations. lia.
Qed.

Lemma earliest_next d wd :
  0 <= wd < 7 ->
  earliest_weekday true wd d
    (d + (if (wd - weekday d) mod 7 =? 0 then 7 else (wd - weekday d) mod 7)).
Proof.
  intros Hwd. unfold earliest_weekday, weekday.
  destruct (Z.eqb_spec ((wd - (d + 6) mod 7) mod 7) 0) as [E|E]; repeat split.
  - Z.div_mod_to_equations. lia.
  - lia.
  - intros r' Hr' Hle. Z.div_mod_to_equations. lia.
  - Z.div_mod_to_equations. lia.
  - Z.div_mod_to_equations. lia.
  - intros r' Hr' Hle. Z.div_mod_to_equations. lia.
Qed.

Lemma parse_tonight now iso t :
  fromisoformat (replace_Z iso) = Some t ->
  parse_deadline_raw now "tonight" iso = Ok (Some (date_isoformat (dt_date t))).
Proof. intros E. unfold parse_deadline_raw. rewrite E. reflexivity. Qed.

Lemma parse_tomorrow now iso t :
  fromisoformat (replace_Z iso) = Some t ->
  parse_deadline_raw now "tomorrow" iso
  = (d ← add_days (dt_date t) 1; Ok (Some (date_isoformat d))).
Proof. intros E. unfold parse_deadline_raw. rewrite E. reflexivity. Qed.

Lemma parse_by_friday now iso t :
  fromisoformat (replace_Z iso) = Some t ->
  parse_deadline_raw now "by Friday" iso
  = (dt ← _weekday_after t 4 "this"; Ok (Some (date_isoformat (dt_date dt)))).
Proof. intros E. unfold parse_deadline_raw. rewrite E. reflexivity. Qed.

Lemma parse_next_friday now iso t :
  fromisoformat (replace_Z iso) = Some t ->
  parse_deadline_raw now "next Friday" iso
  = (dt ← _weekday_after t 4 "next"; Ok (Some (date_isoformat (dt_date dt)))).
Proof. intros E. unfold parse_deadline_raw. rewrite E. reflexivity. Qed.

(** C5 (amended): on an email timestamp [t], [tonight] is the date of [t];
    [tomorrow] is the day after, [by Friday] the earliest Friday from that
    date on, [next Friday] the earliest Friday strictly after it, each when
    that day is a date, that is not after 9999-12-31: otherwise the call
    raises [OverflowError].  The weekday rule adds
    [(target_wd - ref_wd) mod 7] days, or 7 when the qualifier is [next] and
    that number is 0, and raises [OverflowError] past 9999-12-31. *)
Theorem C5_deadline_normalizer now email_date_iso t :
  fromisoformat (replace_Z email_date_iso) = Some t ->
  date_min <= dt_date t <= date_max ->
  parse_deadline_raw now "tonight" email_date_iso
  = Ok (Some (date_isoformat (dt_date t)))
  /\ parse_deadline_raw now "tomorrow" email_date_iso
     = (if dt_date t + 1 <=? date_max
        then Ok (Some (date_isoformat (dt_date t + 1)))
        else Raise OverflowError)
  /\ (exists r, earliest_weekday false 4 (dt_date t) r
                /\ parse_deadline_raw now "by Friday" email_date_iso
                   = if r <=? date_max then Ok (Some (date_isoformat r))
                     else Raise OverflowError)
  /\ (exists r, earliest_weekday true 4 (dt_date t) r
                /\ parse_deadline_raw now "next Friday" email_date_iso
                   = if r <=? date_max then Ok (Some (date_isoformat r))
                     else Raise OverflowError)
  /\ (forall target_wd which,
        _weekday_after t target_wd which
        = (let days_ahead := (target_wd - weekday (dt_date t)) mod 7 in
           let r := dt_date t
                    + (if String.eqb which "next" && (days_ahead =? 0) then 7
                       else days_ahead) in
           if r <=? date_max then Ok (combine_min r (dt_tzinfo t))
           else Raise OverflowError)).
Proof.
  intros E [Hlo Hhi]. split; [by apply parse_tonight|]. split; [|split; [|split]].
  - rewrite (parse_tomorrow _ _ _ E), add_days_ahead by lia.
    by destruct (_ <=? _).
  - eexists. split; [apply (earliest_this (dt_date t) 4); lia|].
    rewrite (parse_by_friday _ _ _ E), weekday_after_days_ahead by done.
    simpl. by destruct (_ <=? _).
  - eexists. split; [apply (earliest_next (dt_date t) 4); lia|].
    rewrite (parse_next_friday _ _ _ E), weekday_after_days_ahead by done.
    simpl. by destruct (_ <=? _).
  - intros. by apply weekday_after_days_ahead.
Qed.
End deadline_parser.

Import DeadlineParser DateTime RefLib ParserSamples.

Lemma C5_deadline_normalizer_witness :
  run "tonight" = Ok (Some (ref_date_isoformat 739579))
  /\ run "tomorrow"
     = (if 739579 + 1 <=? date_max
        then Ok (Some (ref_date_isoformat (739579 + 1)))
        else Raise OverflowError)
  /\ (exists r, earliest_weekday false 4 739579 r
                /\ run "by Friday"
                   = if r <=? date_max then Ok (Some (ref_date_isoformat r))
                     else Raise OverflowError)
  /\ (exists r, earliest_weekday true 4 739579 r
                /\ run "next Friday"
                   = if r <=? date_max then Ok (Some (ref_date_isoformat r))
                     else Raise OverflowError).
Proof.
  destruct (C5_deadline_normalizer (H:=ref_lib) (mk_datetime 0 0 None) test_date
              (mk_datetime 739579 0 (Some 0)) eq_refl)
    as (Htonight & Htomorrow & Hby & Hnext & _).
  - vm_compute. split; discriminate.
  - split; [exact Htonight|]. split; [exact Htomorrow|].
    split; [exact Hby | exact Hnext].
Defined.

(** C5, as stated, fails on the last day of the calendar: for an email
    dated 9999-12-31, [tomorrow] is no date, and the call raises
    [OverflowError]. *)
Lemma C5_counterexample :
  exists t,
    ref_fromisoformat (replace_Z "9999-12-31T09:00:00Z") = Some t
    /\ dt_date t = date_max
    /\ parse_deadline_raw (H:=ref_lib) (mk_datetime 0 0 None) "tomorrow"
         "9999-12-31T09:00:00Z"
       = Raise OverflowError.
Proof.
  eexists. split; [vm_compute; reflexivity|]. split; vm_compute; reflexivity.
Qed.

(** ** Extraction post-processing *)

Section extractor.
Context `{Lib}.
Import Extractor.

Lemma default_estimated_hours_pos ty : (0 < default_estimated_hours ty)%Q.
Proof.
  unfold default_estimated_hours.
  repeat match goal with |- context [if ?b then _ else _] => destruct b end;
    reflexivity.
Qed.

(** The default table, on the lower-cased type. *)
Lemma default_estimated_hours_table :
  default_estimated_hours "meeting" = 1%Q
  /\ default_estimated_hours "call" = 1%Q
  /\ (default_estimated_hours "email" == 1 # 2)%Q
  /\ (default_estimated_hours "message" == 1 # 2)%Q
  /\ default_estimated_hours "report" = 3%Q
  /\ default_estimated_hours "document" = 3%Q
  /\ default_estimated_hours "presentation" = 5%Q
  /\ default_estimated_hours "feature" = 8%Q
  /\ default_estimated_hours "general" = 2%Q
  /\ (default_estimated_hours "communication" == 1 # 2)%Q
  /\ default_estimated_hours "deliverable" = 3%Q
  /\ default_estimated_hours "development" = 8%Q.
Proof. repeat split; vm_compute; reflexivity. Qed.

Lemma post_process_one_hours now email (c : dict) :
  type_ok c ->
  exists c', post_process_one now email c = Ok c' /\ hours_rule c c'.
Proof.
  intros Hty. unfold post_process_one, ensure_estimated_hours.
  rewrite lookup_insert_ne by done.
  destruct (is_none (c !! "estimated_hours")) eqn:Hnone.
  - assert (Hlow : exists ty, lowered_type c = Ok ty
                     /\ lowered_type (<["given_by" := VStr (sender email)]> c) = Ok ty).
    { unfold lowered_type. rewrite lookup_insert_ne by done.
      destruct (Hty Hnone) as [-> | [s ->]]; eauto. }
    destruct Hlow as (ty & Hty1 & Hty2). rewrite Hty2. simpl.
    destruct (status_of _ _) as [[st days] flag].
    eexists. split; [reflexivity|].
    split; [|intros Hf; rewrite Hnone in Hf; discriminate].
    intros _. exists ty. split; [done|]. split; [by simplify_map_eq|].
    apply default_estimated_hours_pos.
  - simpl. destruct (status_of _ _) as [[st days] flag].
    eexists. split; [reflexivity|].
    split; [intros Hf; rewrite Hnone in Hf; discriminate|].
    intros _. by simplify_map_eq.
Qed.

(** C4 (amended): post-processing returns one commitment per extracted
    commitment; estimated hours that are absent or null are replaced by the
    default of the commitment type, which is positive; estimated hours that
    are present and not null are kept as they are, whatever their sign. *)
Theorem C4_post_process_estimated_hours now email (commitments : list dict) :
  Forall type_ok commitments ->
  exists commitments',
    _post_process_commitments now email commitments = Ok commitments'
    /\ Forall2 hours_rule commitments commitments'.
Proof.
  unfold _post_process_commitments.
  induction 1 as [|c l Hc _ (l' & Hl & IH)].
  - exists []. split; [reflexivity | constructor].
  - destruct (post_process_one_hours now email c Hc) as (c' & Hrun & Hrule).
    exists (c' :: l'). split; [|by constructor].
    simpl. rewrite Hrun. simpl. rewrite Hl. reflexivity.
Qed.
End extractor.

Import Extractor RefLib Samples.

Lemma C4_post_process_estimated_hours_witness :
  exists commitments',
    _post_process_commitments (mk_datetime 739579 0 (Some 0)) mail [memo; zero_hours]
    = Ok commitments'
    /\ Forall2 hours_rule [memo; zero_hours] commitments'.
Proof.
  apply (C4_post_process_estimated_hours (H:=ref_lib)).
  constructor; [|constructor; [|constructor]].
  - intros _. by left.
  - intros Hn. vm_compute in Hn. discriminate.
Defined.

(** C4, as stated, fails on estimated hours of 0: the commitment passes the
    schema validation, and post-processing leaves the 0 in place instead of
    the default 1 of a meeting. *)
Lemma C4_counterexample :
  validate_commitment zero_hours = true
  /\ exists c',
       _post_process_commitments (mk_datetime 739579 0 (Some 0)) mail [zero_hours]
       = Ok [c']
       /\ c' !! "estimated_hours" = Some (VNum 0)
       /\ ~ (exists q, hours c' = Some q /\ (0 < q)%Q).
Proof.
  split; [vm_compute; reflexivity|].
  destruct (post_process_one_hours (H:=ref_lib) (mk_datetime 739579 0 (Some 0))
              mail zero_hours) as (c' & Hrun & _ & Hkeep).
  { intros Hn. vm_compute in Hn. discriminate. }
  assert (Hl : c' !! "estimated_hours" = Some (VNum 0)).
  { rewrite Hkeep; vm_compute; reflexivity. }
  exists c'. split.
  { unfold _post_process_commitments. simpl. rewrite Hrun. reflexivity. }
  split; [exact Hl|].
  intros (q & Hq & Hlt). unfold hours in Hq. rewrite Hl in Hq.
  injection Hq as <-. exact (Qlt_irrefl 0 Hlt).
Qed.

(** ** Connection state *)

Section connection_state.
Import ConnectionState Samples.

Lemma update_path_nested (data : user_doc) field_ key v (m : dict) :
  data !! field_ = Some (Nested m) ->
  update_path data field_ key v = <[field_ := Nested (<[key := v]> m)]> data.
Proof. intros E. unfold update_path. by rewrite E. Qed.

Lemma connection_insert (users : users_coll) uid (data : user_doc) (m : dict) :
  connection (<[uid := <["composio_connection" := Nested m]> data]> users) uid
  = Some m.
Proof. unfold connection. by simplify_map_eq. Qed.

(** The connection state after a disconnection. *)
Lemma mark_disconnection_connection (users : users_coll) uid (conn : dict) :
  connection users uid = Some conn ->
  exists users',
    mark_disconnection uid users = (true, users')
    /\ connection users' uid
       = Some (<["sent_trigger_id" := VNone]>
                 (<["inbox_trigger_id" := VNone]>
                    (<["composio_enabled" := VBool false]> conn)))
    /\ (forall u, u <> uid -> users' !! u = users !! u).
Proof.
  unfold connection, mark_disconnection.
  destruct (users !! uid) as [data|] eqn:Hd; [|done].
  destruct (data !! "composio_connection") as [[|m|]|] eqn:Hc; try done.
  intros [= ->]. eexists. split; [reflexivity|].
  rewrite (update_path_nested data _ _ _ conn Hc).
  rewrite (update_path_nested _ _ _ _ _ (lookup_insert_eq _ _ _)).
  rewrite (update_path_nested _ _ _ _ _ (lookup_insert_eq _ _ _)).
  split; [by simplify_map_eq|].
  intros u Hu. by rewrite lookup_insert_ne.
Qed.

(** The connection state after a reconnection. *)
Lemma mark_reconnection_connection (users : users_coll) uid entity inbox sent
    (conn : dict) :
  connection users uid = Some conn ->
  exists users',
    mark_reconnection uid entity inbox sent users = (true, users')
    /\ connection users' uid
       = Some (<["entity_id" := entity]>
                 (<["sent_trigger_id" := sent]>
                    (<["inbox_trigger_id" := inbox]>
                       (<["composio_enabled" := VBool true]> conn))))
    /\ (forall u, u <> uid -> users' !! u = users !! u).
Proof.
  unfold connection, mark_reconnection.
  destruct (users !! uid) as [data|] eqn:Hd; [|done].
  destruct (data !! "composio_connection") as [[|m|]|] eqn:Hc; try done.
  intros [= ->]. eexists. split; [reflexivity|].
  rewrite (update_path_nested data _ _ _ conn Hc).
  rewrite (update_path_nested _ _ _ _ _ (lookup_insert_eq _ _ _)).
  rewrite (update_path_nested _ _ _ _ _ (lookup_insert_eq _ _ _)).
  rewrite (update_path_nested _ _ _ _ _ (lookup_insert_eq _ _ _)).
  split; [by simplify_map_eq|].
  intros u Hu. by rewrite lookup_insert_ne.
Qed.

(** C9: once [first_connected_at] is set, disconnection and reconnection
    leave it and [last_sync_time] as they are; disconnection sets the
    enabled flag to [False] and the two trigger ids to [None], and changes
    no other field of the connection state. *)
Theorem C9_disconnect_reconnect_frame (users : users_coll) uid (conn : dict) :
  connection users uid = Some conn ->
  first_connected conn ->
  (exists users' conn',
     mark_disconnection uid users = (true, users')
     /\ connection users' uid = Some conn'
     /\ conn' !! "first_connected_at" = conn !! "first_connected_at"
     /\ first_connected conn'
     /\ conn' !! "last_sync_time" = conn !! "last_sync_time"
     /\ conn' !! "composio_enabled" = Some (VBool false)
     /\ conn' !! "inbox_trigger_id" = Some VNone
     /\ conn' !! "sent_trigger_id" = Some VNone
     /\ (forall k, k <> "composio_enabled" -> k <> "inbox_trigger_id" ->
                   k <> "sent_trigger_id" -> conn' !! k = conn !! k))
  /\ (forall entity inbox sent,
      exists users' conn',
        mark_reconnection uid entity inbox sent users = (true, users')
        /\ connection users' uid = Some conn'
        /\ conn' !! "first_connected_at" = conn !! "first_connected_at"
        /\ first_connected conn'
        /\ conn' !! "last_sync_time" = conn !! "last_sync_time").
Proof.
  intros Hconn Hfirst. split.
  - destruct (mark_disconnection_connection users uid conn Hconn)
      as (users' & Hrun & Hconn' & _).
    eexists users', _. split; [exact Hrun|]. split; [exact Hconn'|].
    assert (Hframe : forall k, k <> "composio_enabled" -> k <> "inbox_trigger_id" ->
              k <> "sent_trigger_id" ->
              (<["sent_trigger_id" := VNone]>
                 (<["inbox_trigger_id" := VNone]>
                    (<["composio_enabled" := VBool false]> conn))) !! k = conn !! k).
    { intros k ? ? ?. by simplify_map_eq. }
    split; [by apply Hframe|].
    split; [unfold first_connected; rewrite Hframe; done|].
    split; [by apply Hframe|].
    split; [by simplify_map_eq|]. split; [by simplify_map_eq|].
    split; [by simplify_map_eq|]. exact Hframe.
  - intros entity inbox sent.
    destruct (mark_reconnection_connection users uid entity inbox sent conn Hconn)
      as (users' & Hrun & Hconn' & _).
    eexists users', _. split; [exact Hrun|]. split; [exact Hconn'|].
    assert (Hframe : forall k, k <> "composio_enabled" -> k <> "inbox_trigger_id" ->
              k <> "sent_trigger_id" -> k <> "entity_id" ->
              (<["entity_id" := entity]>
                 (<["sent_trigger_id" := sent]>
                    (<["inbox_trigger_id" := inbox]>
                       (<["composio_enabled" := VBool true]> conn)))) !! k
              = conn !! k).
    { intros k ? ? ? ?. by simplify_map_eq. }
    split; [by apply Hframe|].
    split; [unfold first_connected; rewrite Hframe; done|].
    by apply Hframe.
Qed.
End connection_state.

Import ConnectionState Samples.

Lemma C9_disconnect_reconnect_frame_witness :
  (exists users' conn',
     mark_disconnection "u" users0 = (true, users')
     /\ connection users' "u" = Some conn'
     /\ conn' !! "first_connected_at" = conn0 !! "first_connected_at"
     /\ first_connected conn'
     /\ conn' !! "last_sync_time" = conn0 !! "last_sync_time"
     /\ conn' !! "composio_enabled" = Some (VBool false)
     /\ conn' !! "inbox_trigger_id" = Some VNone
     /\ conn' !! "sent_trigger_id" = Some VNone
     /\ (forall k, k <> "composio_enabled" -> k <> "inbox_trigger_id" ->
                   k <> "sent_trigger_id" -> conn' !! k = conn0 !! k))
  /\ (forall entity inbox sent,
      exists users' conn',
        mark_reconnection "u" entity inbox sent users0 = (true, users')
        /\ connection users' "u" = Some conn'
        /\ conn' !! "first_connected_at" = conn0 !! "first_connected_at"
        /\ first_connected conn'
        /\ conn' !! "last_sync_time" = conn0 !! "last_sync_time").
Proof.
  apply (C9_disconnect_reconnect_frame users0 "u" conn0).
  - reflexivity.
  - exists (VStr "2024-01-01T00:00:00+00:00"). split; [reflexivity | discriminate].
Defined.

(** ** Soft delete and restore *)

Section commitment_routes.
Context `{Lib}.
Import Firestore CommitmentRoutes.

Lemma query_first_Some k s (coll : collection) id d :
  query_first k s coll = Some (id, d) ->
  coll !! id = Some d /\ field_is k s d = true.
Proof.
  unfold query_first. intros Hh. apply head_Some_elem_of in Hh.
  apply list_elem_of_filter in Hh as [Hp Hin].
  apply elem_of_map_to_list in Hin. done.
Qed.


Lemma field_is_commitment_id (d : dict) k s :
  d !! "commitment_id" = Some (VStr k) ->
  field_is "commitment_id" s d = true -> k = s.
Proof.
  unfold field_is. intros ->. by intros ?%String.eqb_eq.
Qed.

(** In a collection that stores every commitment under its id, the request
    id resolves to the document of that id. *)
Lemma get_commitment_by_field_consistent (st : store) user cid c :
  ids_consistent (commitments_of st user) ->
  commitments_of st user !! cid = Some c ->
  get_commitment_by_field st user cid = Some (cid, c).
Proof.
  intros Hids Hc. unfold get_commitment_by_field.
  destruct (query_first _ _ _) as [[id d]|] eqn:Hq.
  - apply query_first_Some in Hq as [Hd Hf].
    pose proof (field_is_commitment_id d id cid (Hids _ _ Hd) Hf) as ->.
    rewrite Hc in Hd. by injection Hd as ->.
  - by rewrite Hc.
Qed.

Lemma commitments_of_set_doc (st : store) user id d :
  commitments_of (set_doc st user id d) user !! id = Some d.
Proof. unfold commitments_of, set_doc. by simplify_map_eq. Qed.

Lemma commitments_of_delete_doc (st : store) user id :
  commitments_of (delete_doc st user id) user !! id = None.
Proof. unfold commitments_of at 1, delete_doc. by simplify_map_eq. Qed.

Lemma json_value_native (c : dict) k :
  json_native c -> json_roundtrip c !! k = c !! k.
Proof.
  intros Hn. unfold json_roundtrip. rewrite lookup_fmap.
  destruct (c !! k) as [v|] eqn:E; [|done]. simpl.
  specialize (Hn k v E). by destruct v.
Qed.

Lemma restored_lookup now_r now_u (d : dict) :
  restored now_r now_u d !! "status" = Some (VStr "active")
  /\ restored now_r now_u d !! "completed" = Some (VBool false)
  /\ restored now_r now_u d !! "updated_at" = Some (VStr (datetime_isoformat now_u))
  /\ restored now_r now_u d !! "restored_at" = Some (VStr (datetime_isoformat now_r))
  /\ (forall k, ~ restore_written k -> restored now_r now_u d !! k = d !! k).
Proof.
  unfold restored, restore_written. repeat split; try by simplify_map_eq.
  intros k Hk.
  rewrite !lookup_insert_ne; [done|..]; intros <-; apply Hk; auto.
Qed.

(** C8 (amended): with the shadow store configured and reachable, and the
    restore made before the backup expires, [delete] followed by [restore]
    puts the document back under its id.  The document has the original
    fields as JSON carries them (the very values, for a document of JSON
    scalars), except that [updated_at] is fresh, [restored_at] is added,
    [completed] is [False] and [status] is [active]; the shadow entry is
    gone. *)
Theorem C8_delete_restore now_d t_d now_r now_u t_r user cid (st : store)
    (r : redis) (c : dict) :
  ids_consistent (commitments_of st user) ->
  commitments_of st user !! cid = Some c ->
  reachable r = true ->
  t_r < t_d + 86400 ->
  exists st1 redis1 st2 redis2 c',
    delete_commitment now_d t_d user cid st (Some r) = (Success, st1, redis1)
    /\ commitments_of st1 user !! cid = None
    /\ restore_deleted_commitment now_r now_u t_r user cid st1 redis1
       = (Success, st2, redis2)
    /\ commitments_of st2 user !! cid = Some c'
    /\ c' = restored now_r now_u (json_roundtrip c)
    /\ (forall k, ~ restore_written k -> c' !! k = json_roundtrip c !! k)
    /\ (json_native c -> forall k, ~ restore_written k -> c' !! k = c !! k)
    /\ c' !! "commitment_id" = Some (VStr cid)
    /\ c' !! "updated_at" = Some (VStr (datetime_isoformat now_u))
    /\ c' !! "restored_at" = Some (VStr (datetime_isoformat now_r))
    /\ c' !! "completed" = Some (VBool false)
    /\ c' !! "status" = Some (VStr "active")
    /\ shadow_absent redis2 (shadow_key user cid).
Proof.
  intros Hids Hc Hreach Httl.
  pose proof (get_commitment_by_field_consistent st user cid c Hids Hc) as Hget.
  destruct (restored_lookup now_r now_u (json_roundtrip c))
    as (Hst & Hco & Hup & Hre & Hframe).
  eexists _, _, _, _, (restored now_r now_u (json_roundtrip c)).
  split.
  { unfold delete_commitment, backup_to_redis. rewrite Hget, Hreach. reflexivity. }
  split; [apply commitments_of_delete_doc|].
  split.
  { unfold restore_deleted_commitment, redis_get. simpl.
    rewrite lookup_insert_eq. simpl.
    destruct (Z.ltb_spec t_r (t_d + 86400)); [reflexivity | lia]. }
  split; [apply commitments_of_set_doc|].
  split; [reflexivity|]. split; [exact Hframe|].
  split.
  { intros Hn k Hk. rewrite Hframe by done. by apply json_value_native. }
  split.
  { rewrite Hframe.
    - unfold json_roundtrip. rewrite lookup_fmap, (Hids _ _ Hc). reflexivity.
    - unfold restore_written. intros [?|[?|[?|?]]]; discriminate. }
  repeat (split; [done|]).
  simpl. apply lookup_delete_eq.
Qed.

(** Without a configured shadow store the delete still goes through, and
    the restore is refused. *)
Lemma delete_restore_unconfigured now_d t_d now_r now_u t_r user cid
    (st : store) (c : dict) :
  ids_consistent (commitments_of st user) ->
  commitments_of st user !! cid = Some c ->
  exists st1,
    delete_commitment now_d t_d user cid st None = (Success, st1, None)
    /\ commitments_of st1 user !! cid = None
    /\ restore_deleted_commitment now_r now_u t_r user cid st1 None
       = (HttpError 400, st1, None).
Proof.
  intros Hids Hc.
  pose proof (get_commitment_by_field_consistent st user cid c Hids Hc) as Hget.
  eexists. split.
  { unfold delete_commitment, backup_to_redis. rewrite Hget. reflexivity. }
  split; [apply commitments_of_delete_doc | reflexivity].
Qed.
End commitment_routes.

Import Firestore CommitmentRoutes RefLib Samples.

Lemma store0_commitments :
  commitments_of store0 "u" = {["commitment_ab12" := doc0]}.
Proof. reflexivity. Qed.

Lemma store0_consistent : ids_consistent (commitments_of store0 "u").
Proof.
  rewrite store0_commitments. intros k d [<- <-]%lookup_singleton_Some.
  reflexivity.
Qed.

Lemma C8_delete_restore_witness :
  exists st1 redis1 st2 redis2 c',
    delete_commitment (mk_datetime 739579 0 (Some 0)) 1000 "u" "commitment_ab12"
      store0 (Some redis0) = (Success, st1, redis1)
    /\ commitments_of st1 "u" !! "commitment_ab12" = None
    /\ restore_deleted_commitment (mk_datetime 739579 0 (Some 0))
         (mk_datetime 739579 0 (Some 0)) 1060 "u" "commitment_ab12" st1 redis1
       = (Success, st2, redis2)
    /\ commitments_of st2 "u" !! "commitment_ab12" = Some c'
    /\ c' = restored (mk_datetime 739579 0 (Some 0)) (mk_datetime 739579 0 (Some 0))
              (json_roundtrip doc0)
    /\ (forall k, ~ restore_written k -> c' !! k = json_roundtrip doc0 !! k)
    /\ (json_native doc0 -> forall k, ~ restore_written k -> c' !! k = doc0 !! k)
    /\ c' !! "commitment_id" = Some (VStr "commitment_ab12")
    /\ c' !! "updated_at"
       = Some (VStr (datetime_isoformat (mk_datetime 739579 0 (Some 0))))
    /\ c' !! "restored_at"
       = Some (VStr (datetime_isoformat (mk_datetime 739579 0 (Some 0))))
    /\ c' !! "completed" = Some (VBool false)
    /\ c' !! "status" = Some (VStr "active")
    /\ shadow_absent redis2 (shadow_key "u" "commitment_ab12").
Proof.
  apply (C8_delete_restore (H:=ref_lib) (mk_datetime 739579 0 (Some 0)) 1000
           (mk_datetime 739579 0 (Some 0)) (mk_datetime 739579 0 (Some 0)) 1060
           "u" "commitment_ab12" store0 redis0 doc0).
  - exact store0_consistent.
  - reflexivity.
  - reflexivity.
  - reflexivity.
Defined.

(** C8, as stated, fails when the shadow store is not configured: the
    delete succeeds and removes the document, the restore answers 400, and
    the document is not stored again. *)
Lemma C8_counterexample :
  exists st1,
    delete_commitment (H:=ref_lib) (mk_datetime 739579 0 (Some 0)) 1000
      "u" "commitment_ab12" store0 None = (Success, st1, None)
    /\ commitments_of st1 "u" !! "commitment_ab12" = None
    /\ restore_deleted_commitment (H:=ref_lib) (mk_datetime 739579 0 (Some 0))
         (mk_datetime 739579 0 (Some 0)) 1060 "u" "commitment_ab12" st1 None
       = (HttpError 400, st1, None).
Proof.
  apply (delete_restore_unconfigured (H:=ref_lib)) with (c := doc0).
  - exact store0_consistent.
  - reflexivity.
Qed.

(** ** Status recomputation, categories and urgency *)

Section recompute_more.
Import DateTime StatusCalculator Categorize.
Context {lib : Lib}.

Lemma set_status_lookup (c : dict) st days flag :
  set_status c (st, days, flag) !! "status" = Some (VStr st)
  /\ set_status c (st, days, flag) !! "days_overdue" = Some (VNum (inject_Z days))
  /\ set_status c (st, days, flag) !! "overdue_flag" = Some (VBool flag)
  /\ (forall k, k <> "status" -> k <> "days_overdue" -> k <> "overdue_flag" ->
        set_status c (st, days, flag) !! k = c !! k).
Proof.
  unfold set_status. repeat split; try by simplify_map_eq.
  intros k ? ? ?. by simplify_map_eq.
Qed.

Lemma set_status_twice (c : dict) f : set_status (set_status c f) f = set_status c f.
Proof.
  destruct f as [[st days] flag]. apply map_eq. intros k.
  destruct (set_status_lookup c st days flag) as (H1 & H2 & H3 & H4).
  destruct (set_status_lookup (set_status c (st, days, flag)) st days flag)
    as (G1 & G2 & G3 & G4).
  destruct (decide (k = "status")) as [->|]; [congruence|].
  destruct (decide (k = "days_overdue")) as [->|]; [congruence|].
  destruct (decide (k = "overdue_flag")) as [->|]; [congruence|].
  by rewrite G4.
Qed.

(** The status fields of an open commitment depend on its deadline and on
    today only. *)
Lemma recalculate_open now (c : dict) today :
  truthy_get (c !! "completed") = false ->
  exists f,
    recalculate_status now c (Some today) = Ok (set_status c f)
    /\ (f = no_deadline \/ exists d, parses_to c d /\ f = compare_deadline d today)
    /\ (forall c2 : dict,
          truthy_get (c2 !! "completed") = false ->
          c2 !! "deadline_iso" = c !! "deadline_iso" ->
          recalculate_status now c2 (Some today) = Ok (set_status c2 f)).
Proof.
  intros Hopen. unfold recalculate_status. rewrite Hopen. simpl.
  destruct (truthy_get (c !! "deadline_iso")) eqn:Ht.
  2:{ exists no_deadline. split; [done|]. split; [by left|].
      intros c2 H2 E. by rewrite H2, E, Ht. }
  destruct (c !! "deadline_iso") as [v|] eqn:Hv; [|done]. simpl.
  destruct v as [|b|q|s|d|t]; simpl in *; try done.
  - exists no_deadline. split; [done|]. split; [by left|].
    intros c2 H2 E. by rewrite H2, E; simpl; rewrite Ht.
  - exists no_deadline. split; [done|]. split; [by left|].
    intros c2 H2 E. by rewrite H2, E; simpl; rewrite Ht.
  - destruct (fromisoformat (replace_Z s)) as [t|] eqn:Hiso.
    + exists (compare_deadline (dt_date t) today). split; [done|]. split.
      * right. exists (dt_date t). split; [|done]. left. exists s, t.
        repeat split; try done. intros ->. done.
      * intros c2 H2 E. by rewrite H2, E; simpl; rewrite Ht, Hiso.
    + exists no_deadline. split; [done|]. split; [by left|].
      intros c2 H2 E. by rewrite H2, E; simpl; rewrite Ht, Hiso.
  - exists (compare_deadline d today). split; [done|]. split.
    + right. exists d. split; [by right | done].
    + intros c2 H2 E. by rewrite H2, E.
  - exists no_deadline. split; [done|]. split; [by left|].
    intros c2 H2 E. by rewrite H2, E.
Qed.

Lemma fill_defaults_lookup (c : dict) :
  fill_defaults c !! "status" = Some (get_or c "status" (VStr "no_deadline"))
  /\ fill_defaults c !! "days_overdue" = Some (get_or c "days_overdue" (VNum 0))
  /\ fill_defaults c !! "overdue_flag" = Some (get_or c "overdue_flag" (VBool false))
  /\ (forall k, k <> "status" -> k <> "days_overdue" -> k <> "overdue_flag" ->
        fill_defaults c !! k = c !! k).
Proof.
  unfold fill_defaults. repeat split; try by simplify_map_eq.
  intros k ? ? ?. by simplify_map_eq.
Qed.

Lemma fill_defaults_twice (c : dict) :
  fill_defaults (fill_defaults c) = fill_defaults c.
Proof.
  destruct (fill_defaults_lookup c) as (H1 & H2 & H3 & H4).
  unfold fill_defaults at 1. unfold get_or. rewrite H1, H2, H3. simpl.
  rewrite (insert_id _ "status" _ H1), (insert_id _ "days_overdue" _ H2).
  by apply insert_id.
Qed.

(** X1: [recalculate_status] with a given date never raises, and applying
    it a second time with the same date changes nothing. *)
Theorem X1_recalculate_status_idempotent now (c : dict) today :
  exists c' : dict,
    recalculate_status now c (Some today) = Ok c'
    /\ recalculate_status now c' (Some today) = Ok c'.
Proof.
  destruct (truthy_get (c !! "completed")) eqn:Hdone.
  - exists (fill_defaults c).
    assert (Hrun : forall c0 : dict, truthy_get (c0 !! "completed") = true ->
              recalculate_status now c0 (Some today) = Ok (fill_defaults c0)).
    { intros c0 H0. unfold recalculate_status. by rewrite H0. }
    split; [by apply Hrun|]. rewrite Hrun.
    + by rewrite fill_defaults_twice.
    + destruct (fill_defaults_lookup c) as (_ & _ & _ & Hk). by rewrite Hk.
  - destruct (recalculate_open now c today Hdone) as (f & Hrun & _ & Hsame).
    exists (set_status c f). split; [exact Hrun|].
    destruct f as [[st days] flag].
    destruct (set_status_lookup c st days flag) as (_ & _ & _ & Hk).
    rewrite (Hsame (set_status c (st, days, flag))).
    + by rewrite set_status_twice.
    + by rewrite Hk.
    + by rewrite Hk.
Qed.

(** X2: after [recalculate_status], an open commitment has
    [status == "overdue"] exactly when [overdue_flag] is set, exactly when
    [days_overdue] is positive; [days_overdue] is never negative, and the
    status is one of the four status names. *)
Theorem X2_open_status_consistent now (c : dict) today :
  truthy_get (c !! "completed") = false ->
  exists st days flag,
    yields (recalculate_status now c (Some today)) st days flag
    /\ (st = "overdue" <-> flag = true)
    /\ (flag = true <-> 0 < days)
    /\ 0 <= days
    /\ (st = "overdue" \/ st = "due_today" \/ st = "active" \/ st = "no_deadline").
Proof.
  intros Hopen.
  destruct (recalculate_open now c today Hopen) as (f & Hrun & Hf & _).
  assert (Hy : forall st days flag, f = (st, days, flag) ->
            yields (recalculate_status now c (Some today)) st days flag).
  { intros st days flag ->. rewrite Hrun. exists (set_status c (st, days, flag)).
    split; [done|]. by destruct (set_status_lookup c st days flag) as (? & ? & ? & _). }
  destruct Hf as [-> | (d & _ & ->)].
  - exists "no_deadline", 0, false. split; [by apply Hy|].
    repeat split; try done; try lia. by right; right; right.
  - unfold compare_deadline, days_between in *.
    destruct (Z.ltb_spec d today).
    + exists "overdue", (today - d), true. split; [by apply Hy|].
      repeat split; try done; try lia. by left.
    + destruct (Z.eqb_spec d today).
      * exists "due_today", 0, false. split; [by apply Hy|].
        repeat split; try done; try lia. by right; left.
      * exists "active", 0, false. split; [by apply Hy|].
        repeat split; try done; try lia. by right; right; left.
Qed.

Lemma status_is_set_status (c : dict) st days flag s :
  status_is (set_status c (st, days, flag)) s = String.eqb st s.
Proof.
  unfold status_is, get_or.
  by destruct (set_status_lookup c st days flag) as (-> & _).
Qed.

Lemma deadline_date_parses (c : dict) d :
  parses_to c d ->
  exists v, c !! "deadline_iso" = Some v /\ truthy v = true
            /\ deadline_date v = Ok d.
Proof.
  intros [(s & t & Hs & Hne & Hiso & Hd) | Hdate].
  - exists (VStr s). split; [done|]. split.
    + simpl. by destruct (String.eqb_spec s "").
    + simpl. by rewrite Hiso, Hd.
  - by exists (VDate d).
Qed.

Lemma parsed_deadline_parses (c : dict) d :
  parses_to c d ->
  exists v, c !! "deadline_iso" = Some v /\ truthy v = true
            /\ parsed_deadline v = Some (VDate d).
Proof.
  intros [(s & t & Hs & Hne & Hiso & Hd) | Hdate].
  - exists (VStr s). split; [done|]. split.
    + simpl. by destruct (String.eqb_spec s "").
    + simpl. by rewrite Hiso, Hd.
  - by exists (VDate d).
Qed.

(** X3: the category of an open commitment after recomputation follows its
    deadline: before today [overdue], today [due_today]; after today, the
    end of the upcoming period, [today + upcoming_days], is computed, which
    raises [OverflowError] when [upcoming_days] is beyond 999999999 in
    magnitude or the sum is not a date (0001-01-01 to 9999-12-31), and
    otherwise gives [upcoming] up to that day (included) and [later]
    beyond; without a deadline that parses, [no_deadline]. *)
Theorem X3_category_after_recalculate now (c : dict) today upcoming_days :
  truthy_get (c !! "completed") = false ->
  exists c' : dict,
    recalculate_status now c (Some today) = Ok c'
    /\ (forall d, parses_to c d ->
          categorize_by_deadline now c' (Some today) upcoming_days
          = if d <? today then Ok "overdue"
            else if d =? today then Ok "due_today"
            else if (Z.abs upcoming_days <=? 999999999)
                    && (date_min <=? today + upcoming_days)
                    && (today + upcoming_days <=? date_max)
            then Ok (if d <=? today + upcoming_days then "upcoming" else "later")
            else Raise OverflowError)
    /\ (null_or_unparseable c ->
          categorize_by_deadline now c' (Some today) upcoming_days
          = Ok "no_deadline").
Proof.
  intros Hopen.
  destruct (recalculate_open now c today Hopen) as (f & Hrun & _ & Hsame).
  exists (set_status c f). split; [exact Hrun|]. split.
  - intros d Hp.
    assert (Heq : set_status c f = set_status c (compare_deadline d today)).
    { pose proof (recalculate_parsed now c today d Hopen Hp). congruence. }
    rewrite Heq. clear Heq.
    unfold categorize_by_deadline, compare_deadline. cbn [default].
    destruct (Z.ltb_spec d today); [by rewrite !status_is_set_status|].
    destruct (Z.eqb_spec d today); [by rewrite !status_is_set_status|].
    rewrite !status_is_set_status. cbn [String.eqb Ascii.eqb Bool.eqb].
    destruct (set_status_lookup c "active" 0 false) as (_ & _ & _ & Hk).
    rewrite Hk by done.
    destruct (parsed_deadline_parses c d Hp) as (v & Hv0 & Hv & Hd).
    rewrite Hv0. change (default VNone (Some v)) with v.
    cbn [truthy_get]. rewrite Hv, Hd, add_days_spec.
    by destruct (_ && _).
  - intros Hn.
    assert (Heq : set_status c f = set_status c no_deadline).
    { pose proof (recalculate_no_date now c today Hopen Hn). congruence. }
    rewrite Heq. clear Heq.
    unfold categorize_by_deadline, no_deadline.
    by rewrite !status_is_set_status.
Qed.

Lemma Qmax_inject_Z (a b : Z) :
  (Qmax (inject_Z a) (inject_Z b) == inject_Z (Z.max a b))%Q.
Proof.
  destruct (Z.max_spec a b) as [[Hlt ->] | [Hle ->]];
  destruct (Q.max_spec (inject_Z a) (inject_Z b)) as [[Hq ->] | [Hq ->]];
    try reflexivity.
  - rewrite <- Zle_Qle in Hq. assert (a = b) as -> by lia. reflexivity.
  - rewrite <- Zlt_Qlt in Hq. assert (a = b) as -> by lia. reflexivity.
Qed.

Lemma urgency_set_status now (c : dict) st days flag today :
  get_urgency_score now (set_status c (st, days, flag)) (Some today)
  = if String.eqb st "overdue" then Ok (Qmax 0 (100 - inject_Z days))
    else if String.eqb st "due_today" then Ok 100%Q
    else if String.eqb st "active" && truthy_get (c !! "deadline_iso") then
      match deadline_date (default VNone (c !! "deadline_iso")) with
      | Ok d =>
          if d - today <=? 7 then Ok (inject_Z (200 + (d - today)))
          else Ok (inject_Z (300 + (d - today)))
      | Raise _ => Ok 1000%Q
      end
    else Ok 1000%Q.
Proof.
  unfold get_urgency_score, get_or. rewrite !status_is_set_status.
  destruct (set_status_lookup c st days flag) as (_ & Hd & _ & Hk).
  rewrite Hd, Hk by done. reflexivity.
Qed.

(** X4: the urgency score of an open commitment after recomputation, with
    [days_until = deadline - today]: overdue scores
    [max(0, 100 - days_overdue)], within 0..99; due today scores 100; a
    deadline up to 7 days ahead scores [200 + days_until], within 201..207;
    a later one scores [300 + days_until], at least 308, which stays below
    the 1000 of a commitment without deadline only while [days_until] is
    below 700. *)
Theorem X4_urgency_after_recalculate now (c : dict) today :
  truthy_get (c !! "completed") = false ->
  exists c' : dict,
    recalculate_status now c (Some today) = Ok c'
    /\ (forall d, parses_to c d ->
          exists score : Z,
            (exists q, get_urgency_score now c' (Some today) = Ok q
                       /\ (q == inject_Z score)%Q)
            /\ (d < today -> score = Z.max 0 (100 - (today - d))
                             /\ 0 <= score <= 99)
            /\ (d = today -> score = 100)
            /\ (today < d <= today + 7 -> score = 200 + (d - today)
                                          /\ 201 <= score <= 207)
            /\ (today + 7 < d -> score = 300 + (d - today) /\ 308 <= score
                                 /\ (score < 1000 <-> d - today < 700)))
    /\ (null_or_unparseable c ->
          get_urgency_score now c' (Some today) = Ok 1000%Q).
Proof.
  intros Hopen.
  destruct (recalculate_open now c today Hopen) as (f & Hrun & _ & Hsame).
  exists (set_status c f). split; [exact Hrun|]. split.
  - intros d Hp.
    assert (Heq : set_status c f = set_status c (compare_deadline d today)).
    { pose proof (recalculate_parsed now c today d Hopen Hp). congruence. }
    rewrite Heq. clear Heq.
    destruct (deadline_date_parses c d Hp) as (v & Hv0 & Hv & Hd).
    unfold compare_deadline, days_between.
    destruct (Z.ltb_spec d today) as [Hlt|Hge].
    + exists (Z.max 0 (100 - (today - d))). split.
      * rewrite urgency_set_status. simpl. eexists. split; [reflexivity|].
        rewrite <- Qmax_inject_Z.
        assert (E : (100 - inject_Z (today - d) == inject_Z (100 - (today - d)))%Q).
        { unfold Qeq. simpl. lia. }
        rewrite E. reflexivity.
      * repeat split; lia.
    + destruct (Z.eqb_spec d today) as [->|Hne].
      * exists 100. split.
        -- rewrite urgency_set_status. simpl. by exists 100%Q.
        -- repeat split; lia.
      * rewrite urgency_set_status, Hv0. simpl. rewrite Hv, Hd.
        destruct (Z.leb_spec (d - today) 7).
        -- exists (200 + (d - today)). split; [by eexists|]. repeat split; lia.
        -- exists (300 + (d - today)). split; [by eexists|]. repeat split; lia.
  - intros Hn.
    assert (Heq : set_status c f = set_status c no_deadline).
    { pose proof (recalculate_no_date now c today Hopen Hn). congruence. }
    rewrite Heq. unfold no_deadline. by rewrite urgency_set_status.
Qed.
End recompute_more.

(** ** Categories of a result *)

Section fetcher_categories.
Import Categorize Fetcher.
Context {lib : Lib}.

Lemma categorize_by_deadline_names now (c : dict) today n :
  match categorize_by_deadline now c (Some today) n with
  | Ok cat =>
      cat = "overdue" \/ cat = "due_today" \/ cat = "upcoming" \/ cat = "later"
      \/ cat = "no_deadline"
  | Raise e => e = OverflowError /\ add_days today n = Raise OverflowError
  end.
Proof.
  unfold categorize_by_deadline. cbn [default].
  repeat match goal with
         | |- context [if status_is ?c ?s then _ else _] =>
             destruct (status_is c s); [cbv iota; by auto 10|]
         end.
  destruct (status_is c "active"); [|cbv iota; by auto 10].
  destruct (truthy_get _); [|cbv iota; by auto 10].
  destruct (parsed_deadline _) as [v|]; [|cbv iota; by auto 10].
  change (id today) with today.
  destruct (add_days today n) as [e|e] eqn:Ha; simpl.
  - destruct v; try by auto 10. destruct (_ <=? _); by auto 10.
  - by rewrite (add_days_raise _ _ _ Ha).
Qed.

Lemma append_to_category (cats : categories) category (c : dict) :
  category = "overdue" \/ category = "due_today" \/ category = "upcoming"
  \/ category = "later" \/ category = "no_deadline" \/ category = "completed" ->
  exists cats',
    append_to cats category c = Some cats'
    /\ all_of cats' ≡ₚ (all_of cats ++ [c])%list
    /\ completed cats'
       = if String.eqb category "completed" then (completed cats ++ [c])%list
         else completed cats.
Proof.
  destruct cats as [o d u l n k]. unfold all_of. simpl.
  intros [-> | [-> | [-> | [-> | [-> | ->]]]]]; simpl;
    (eexists; split; [reflexivity|]; split; [|reflexivity]); simpl;
    rewrite <- !app_assoc; repeat apply Permutation_app_head;
    first [done
          | etrans; [apply (Permutation_app_comm [c])|];
            by rewrite <- ?app_assoc].
Qed.

(** The loop either files every commitment, or stops on the
    [OverflowError] of the end of the upcoming period. *)
Lemma categorize_from_spec now n today (commitments : list dict) :
  forall cats,
    (exists cats',
       categorize_from now n today cats commitments = Ok cats'
       /\ all_of cats' ≡ₚ (all_of cats ++ commitments)%list
       /\ completed cats'
          = (completed cats
             ++ filter (fun c : dict => truthy_get (c !! "completed") = true)
                  commitments)%list)
    \/ (categorize_from now n today cats commitments = Raise OverflowError
        /\ add_days today n = Raise OverflowError).
Proof.
  induction commitments as [|c rest IH]; intros cats; cbn [categorize_from].
  - left. exists cats. by rewrite !app_nil_r.
  - destruct (truthy_get (c !! "completed")) eqn:Hc.
    + destruct (append_to_category cats "completed" c) as (cats1 & E1 & Hp1 & Hk1);
        [by auto 10|].
      simpl. rewrite E1.
      destruct (IH cats1) as [(cats' & E & Hp & Hk) | [E Ha]]; [left|by right].
      exists cats'. split; [done|]. split.
      * rewrite Hp, Hp1. by rewrite <- (assoc_L (++)).
      * rewrite Hk, Hk1, filter_cons, decide_True by done.
        simpl. by rewrite <- (assoc_L (++)).
    + pose proof (categorize_by_deadline_names now c today n) as Hn.
      destruct (categorize_by_deadline now c (Some today) n) as [category|e].
      2:{ right. destruct Hn as [-> Ha]. done. }
      destruct (append_to_category cats category c) as (cats1 & E1 & Hp1 & Hk1);
        [by destruct Hn as [?|[?|[?|[?|?]]]]; auto 10|].
      simpl. rewrite E1.
      destruct (IH cats1) as [(cats' & E & Hp & Hk) | [E Ha]]; [left|by right].
      exists cats'. split; [done|]. split.
      * rewrite Hp, Hp1. by rewrite <- (assoc_L (++)).
      * rewrite Hk, Hk1, filter_cons, decide_False by (by rewrite Hc).
        by destruct Hn as [->|[->|[->|[->| ->]]]].
Qed.

(** While the end of the upcoming period is a date, every result is
    categorised. *)
Lemma categorize_commitments_in_range now n (commitments : list dict) today :
  Z.abs n <= 999999999 ->
  date_min <= today + n <= date_max ->
  exists cats, categorize_commitments now n commitments today = Ok cats.
Proof.
  intros Hn Hr.
  destruct (categorize_from_spec now n today commitments empty_categories)
    as [(cats & E & _) | [_ Ha]]; [by exists cats|].
  rewrite add_days_in_range in Ha by done. discriminate.
Qed.

(** X5: [categorize_commitments] never fails on a category name.  Either it
    returns, and then every commitment lands in exactly one of the six
    lists, so the six counts add up to the number of commitments, and the
    [completed] list holds exactly the commitments whose [completed] is
    truthy, in their order; or it raises [OverflowError], which happens
    only when the end of the upcoming period, [today + UPCOMING_DAYS], is
    not a date. *)
Theorem X5_categorize_commitments_partition now n (commitments : list dict) today :
  (exists cats,
     categorize_commitments now n commitments today = Ok cats
     /\ all_of cats ≡ₚ commitments
     /\ (length (overdue cats) + length (due_today cats) + length (upcoming cats)
         + length (later cats) + length (no_deadline cats)
         + length (completed cats) = length commitments)%nat
     /\ completed cats
        = filter (fun c : dict => truthy_get (c !! "completed") = true) commitments)
  \/ (categorize_commitments now n commitments today = Raise OverflowError
      /\ (Z.abs n <=? 999999999) && (date_min <=? today + n)
         && (today + n <=? date_max) = false).
Proof.
  destruct (categorize_from_spec now n today commitments empty_categories)
    as [(cats & Hrun & Hp & Hk) | [Hrun Ha]].
  - left. exists cats. split; [exact Hrun|]. split; [exact Hp|]. split; [|exact Hk].
    apply Permutation_length in Hp. unfold all_of in Hp.
    rewrite !length_app in Hp. simpl in Hp. lia.
  - right. split; [exact Hrun|]. rewrite add_days_spec in Ha.
    by destruct (_ && _).
Qed.
End fetcher_categories.

(** ** Connection history *)

Section connection_history.
Import ConnectionState ConnectionHistory.

Lemma get_connection_state_first (users : users_coll) uid :
  should_run_initial_sync users uid = false
  <-> exists conn, connection users uid = Some conn /\ first_connected conn.
Proof.
  unfold should_run_initial_sync, get_connection_state, connection, first_connected.
  destruct (users !! uid) as [data|]; simpl.
  2:{ split; [done | by intros (? & ? & _)]. }
  destruct (data !! "composio_connection") as [[v|m|s]|]; simpl.
  - split; [done | by intros (? & ? & _)].
  - unfold get_or. split.
    + intros Hf. exists m. split; [done|].
      destruct (m !! "first_connected_at") as [v|]; [|done].
      exists v. split; [done|]. by intros ->.
    + intros (conn & [= <-] & v & -> & Hv). simpl. by destruct v.
  - split; [done | by intros (? & ? & _)].
  - split; [done | by intros (? & ? & _)].
Qed.

(** X6: [should_run_initial_sync] answers [False] exactly for a user whose
    document has a [composio_connection] map with a [first_connected_at]
    that is not [None]; a user without document, without that map, or with
    a field of that name that is not a map, is treated as connecting for
    the first time. *)
Theorem X6_should_run_initial_sync_iff (users : users_coll) uid :
  (should_run_initial_sync users uid = false
   <-> exists conn, connection users uid = Some conn /\ first_connected conn)
  /\ (users !! uid = None -> should_run_initial_sync users uid = true)
  /\ (forall data v, users !! uid = Some data ->
        data !! "composio_connection" = Some (Scalar v) ->
        should_run_initial_sync users uid = true).
Proof.
  split; [apply get_connection_state_first|]. split.
  - intros Hn. unfold should_run_initial_sync, get_connection_state. by rewrite Hn.
  - intros data v Hd Hc.
    unfold should_run_initial_sync, get_connection_state. by rewrite Hd, Hc.
Qed.

Lemma update_path_connection (data : user_doc) key v :
  exists m : dict,
    update_path data "composio_connection" key v
    = <["composio_connection" := Nested (<[key := v]> m)]> data
    /\ (forall m0, data !! "composio_connection" = Some (Nested m0) -> m = m0).
Proof.
  unfold update_path.
  destruct (data !! "composio_connection") as [[?|m0|?]|];
    eexists; (split; [reflexivity|]); by intros ? [= ->] || done.
Qed.

Lemma mark_first_connection_connection t uid e i s (users : users_coll) :
  exists conn,
    connection (snd (mark_first_connection t uid e i s users)) uid = Some conn
    /\ conn !! "first_connected_at" = Some (VDatetime t)
    /\ conn !! "last_sync_time" = Some (VDatetime t)
    /\ conn !! "composio_enabled" = Some (VBool true)
    /\ conn !! "inbox_trigger_id" = Some i
    /\ conn !! "sent_trigger_id" = Some s
    /\ conn !! "entity_id" = Some e.
Proof.
  unfold mark_first_connection. simpl.
  destruct (update_path_connection (default ∅ (users !! uid))
              "first_connected_at" (VDatetime t)) as (m & -> & _).
  repeat rewrite (update_path_nested _ _ _ _ _ (lookup_insert_eq _ _ _)).
  rewrite !insert_insert_eq. rewrite connection_insert.
  eexists. split; [reflexivity|]. by simplify_map_eq.
Qed.

Lemma change_keeps_first_connection uid (c : change) (users : users_coll) conn :
  connection users uid = Some conn -> first_connected conn ->
  exists conn',
    connection (after_changes uid [c] users) uid = Some conn'
    /\ first_connected conn'
    /\ conn' !! "first_connected_at" = conn !! "first_connected_at"
    /\ conn' !! "last_sync_time" = conn !! "last_sync_time".
Proof.
  intros Hc Hf. destruct c as [|e i s]; simpl.
  - destruct (mark_disconnection_connection users uid conn Hc)
      as (users' & Hm & Hc' & _). rewrite Hm. simpl.
    eexists. split; [exact Hc'|].
    assert (Hk : forall k, k <> "composio_enabled" -> k <> "inbox_trigger_id" ->
              k <> "sent_trigger_id" ->
              (<["sent_trigger_id" := VNone]>
                 (<["inbox_trigger_id" := VNone]>
                    (<["composio_enabled" := VBool false]> conn))) !! k = conn !! k).
    { intros k ? ? ?. by simplify_map_eq. }
    split; [unfold first_connected; by rewrite Hk|]. by rewrite !Hk.
  - destruct (mark_reconnection_connection users uid e i s conn Hc)
      as (users' & Hm & Hc' & _). rewrite Hm. simpl.
    eexists. split; [exact Hc'|].
    assert (Hk : forall k, k <> "composio_enabled" -> k <> "inbox_trigger_id" ->
              k <> "sent_trigger_id" -> k <> "entity_id" ->
              (<["entity_id" := e]>
                 (<["sent_trigger_id" := s]>
                    (<["inbox_trigger_id" := i]>
                       (<["composio_enabled" := VBool true]> conn)))) !! k
              = conn !! k).
    { intros k ? ? ? ?. by simplify_map_eq. }
    split; [unfold first_connected; by rewrite Hk|]. by rewrite !Hk.
Qed.

Lemma changes_keep_first_connection uid (changes : list change) :
  forall (users : users_coll) conn,
    connection users uid = Some conn -> first_connected conn ->
    exists conn',
      connection (after_changes uid changes users) uid = Some conn'
      /\ first_connected conn'
      /\ conn' !! "first_connected_at" = conn !! "first_connected_at"
      /\ conn' !! "last_sync_time" = conn !! "last_sync_time".
Proof.
  induction changes as [|c rest IH]; intros users conn Hc Hf.
  - by exists conn.
  - destruct (change_keeps_first_connection uid c users conn Hc Hf)
      as (conn1 & Hc1 & Hf1 & Ha1 & Hl1).
    destruct (IH _ conn1 Hc1 Hf1) as (conn2 & Hc2 & Hf2 & Ha2 & Hl2).
    exists conn2. split; [|split; [done|split; congruence]].
    destruct c; exact Hc2.
Qed.

(** X7: once [mark_first_connection] has run for a user, whether or not the
    user had a document, [should_run_initial_sync] answers [False], and it
    keeps answering [False] after any run of disconnections and
    reconnections; the recorded [first_connected_at] and [last_sync_time]
    stay the server time of the first connection. *)
Theorem X7_initial_sync_runs_once t uid e i s (changes : list change)
    (users : users_coll) :
  let users1 := snd (mark_first_connection t uid e i s users) in
  should_run_initial_sync users1 uid = false
  /\ should_run_initial_sync (after_changes uid changes users1) uid = false
  /\ first_connected_at (get_connection_state (after_changes uid changes users1) uid)
     = VDatetime t
  /\ last_sync_time (get_connection_state (after_changes uid changes users1) uid)
     = VDatetime t.
Proof.
  intros users1.
  destruct (mark_first_connection_connection t uid e i s users)
    as (conn & Hc & Hfirst & Hlast & _).
  fold users1 in Hc.
  assert (Hf : first_connected conn) by (by exists (VDatetime t)).
  split; [apply get_connection_state_first; eauto|].
  destruct (changes_keep_first_connection uid changes users1 conn Hc Hf)
    as (conn' & Hc' & Hf' & Ha & Hl).
  split; [apply get_connection_state_first; eauto|].
  unfold get_connection_state. unfold connection in Hc'.
  destruct (after_changes uid changes users1 !! uid) as [data|]; [|done].
  destruct (data !! "composio_connection") as [[?|m|?]|]; try done.
  injection Hc' as ->. simpl. unfold get_or. by rewrite Ha, Hl, Hfirst, Hlast.
Qed.

(** X8: for a user without document, [mark_reconnection] and
    [mark_disconnection] answer [False] and write nothing, while
    [mark_first_connection] answers [True] and creates the document. *)
Theorem X8_missing_user_document t uid e i s (users : users_coll) :
  users !! uid = None ->
  mark_reconnection uid e i s users = (false, users)
  /\ mark_disconnection uid users = (false, users)
  /\ fst (mark_first_connection t uid e i s users) = true
  /\ is_Some (snd (mark_first_connection t uid e i s users) !! uid)
  /\ (forall u, u <> uid ->
        snd (mark_first_connection t uid e i s users) !! u = users !! u).
Proof.
  intros Hn. unfold mark_reconnection, mark_disconnection. rewrite Hn.
  repeat split. 
  - unfold mark_first_connection. simpl. rewrite lookup_insert_eq. eauto.
  - intros u Hu. unfold mark_first_connection. simpl. by rewrite lookup_insert_ne.
Qed.
End connection_history.

(** ** Initial balance, spending and reset *)

Section credit_init.
Context `{Lib} `{CreditInit.CreditConfig}.
Import CreditEngine CreditInit.

Lemma with_default_credits_fields (data : user_doc) :
  credits (with_default_credits data) 0 DEFAULT_FREE_TRIAL_CREDITS
  /\ with_default_credits data !! "credits_total"
     = Some (Scalar (VNum DEFAULT_FREE_TRIAL_CREDITS)).
Proof. unfold credits, with_default_credits. by simplify_map_eq. Qed.

Lemma initialize_credits_total uid (users : users_coll) :
  exists data, initialize_credits_if_missing uid users !! uid = Some data
               /\ is_Some (data !! "credits_total").
Proof.
  unfold initialize_credits_if_missing.
  destruct (users !! uid) as [data|] eqn:Hd.
  - destruct (data !! "credits_total") as [t|] eqn:Ht.
    + exists data. rewrite Hd, Ht. eauto.
    + eexists. rewrite lookup_insert_eq. split; [reflexivity|].
      rewrite (proj2 (with_default_credits_fields data)). eauto.
  - eexists. rewrite lookup_insert_eq. split; [reflexivity|].
    rewrite (proj2 (with_default_credits_fields ∅)). eauto.
Qed.

Lemma initialize_credits_noop uid (users : users_coll) data :
  users !! uid = Some data -> is_Some (data !! "credits_total") ->
  initialize_credits_if_missing uid users = users.
Proof.
  intros Hd [t Ht]. unfold initialize_credits_if_missing. by rewrite Hd, Ht.
Qed.

Lemma deduct_credits_keeps_total uid a (users users' : users_coll) evs data :
  deduct_credits uid a users = Ok (users', evs) ->
  users !! uid = Some data ->
  exists data', users' !! uid = Some data'
                /\ data' !! "credits_total" = data !! "credits_total".
Proof.
  unfold deduct_credits, deduct_credits_in, txn. intros Hrun Hd.
  rewrite Hd in Hrun. simpl in Hrun.
  destruct (float_get data "credits_remaining") as [r|]; [|done].
  destruct (float_get data "credits_used") as [u|]; [|done].
  simpl in Hrun.
  assert (Hu : users' = <[uid :=
              <["credits_used" := float_field (float_add u (Finite a))]>
                (<["credits_remaining" :=
                     float_field (max_0 (float_sub r (Finite a)))]> data)]>
            users).
  { destruct (float_le0 _); simpl in Hrun; congruence. }
  subst users'. eexists. rewrite lookup_insert_eq. split; [reflexivity|].
  by simplify_map_eq.
Qed.

Lemma deduct_credits_needs_user uid a (users users' : users_coll) evs :
  deduct_credits uid a users = Ok (users', evs) -> is_Some (users !! uid).
Proof.
  unfold deduct_credits, deduct_credits_in, txn.
  destruct (users !! uid); [eauto | done].
Qed.

Lemma deduct_all_keeps_total uid amounts :
  forall (users users' : users_coll) evs data,
    deduct_all uid amounts users = Ok (users', evs) ->
    users !! uid = Some data ->
    exists data', users' !! uid = Some data'
                  /\ data' !! "credits_total" = data !! "credits_total".
Proof.
  induction amounts as [|a rest IH]; intros users users' evs data Hrun Hd.
  - injection Hrun as <- _. eauto.
  - simpl in Hrun.
    destruct (deduct_credits uid a users) as [[users1 ev1]|] eqn:H1; [|done].
    simpl in Hrun.
    destruct (deduct_all uid rest users1) as [[users2 ev2]|] eqn:H2; [|done].
    simpl in Hrun. injection Hrun as <- _.
    destruct (deduct_credits_keeps_total _ _ _ _ _ _ H1 Hd) as (d1 & Hd1 & Ht1).
    destruct (IH _ _ _ _ H2 Hd1) as (d2 & Hd2 & Ht2).
    exists d2. split; [done | congruence].
Qed.

(** X9: [initialize_credits_if_missing] takes effect once: calling it again
    changes nothing, and after any run of deductions that went through it
    still changes nothing, so a balance that was spent is never put back by
    it.  Users other than the one named are never touched. *)
Theorem X9_initialize_credits_once uid amounts (users users2 : users_coll) evs :
  deduct_all uid amounts (initialize_credits_if_missing uid users)
  = Ok (users2, evs) ->
  initialize_credits_if_missing uid users2 = users2
  /\ initialize_credits_if_missing uid (initialize_credits_if_missing uid users)
     = initialize_credits_if_missing uid users
  /\ (forall u, u <> uid ->
        initialize_credits_if_missing uid users !! u = users !! u).
Proof.
  intros Hrun.
  destruct (initialize_credits_total uid users) as (d1 & Hd1 & Ht1).
  split; [|split].
  - destruct (deduct_all_keeps_total _ _ _ _ _ _ Hrun Hd1) as (d2 & Hd2 & Ht2).
    apply (initialize_credits_noop _ _ _ Hd2). by rewrite Ht2.
  - by apply (initialize_credits_noop _ _ _ Hd1).
  - intros u Hu. unfold initialize_credits_if_missing.
    destruct (users !! uid) as [data|]; [destruct (data !! "credits_total")|];
      by rewrite ?lookup_insert_ne.
Qed.





End credit_init.

(** ** Completion, deletion and the shadow store *)

Section complete_route.
Context `{Lib}.
Import Firestore CommitmentRoutes CompleteRoute StatusCalculator.

Lemma completion_update_lookup now completed (d : dict) :
  completion_update now completed d !! "completed" = Some (VBool completed)
  /\ completion_update now completed d !! "status"
     = Some (VStr (if completed then "completed" else "active"))
  /\ completion_update now completed d !! "updated_at"
     = Some (VStr (datetime_isoformat now))
  /\ completion_update now completed d !! "completed_at"
     = Some (if completed then VStr (datetime_isoformat now) else VNone)
  /\ (forall k, ~ completion_written k ->
        completion_update now completed d !! k = d !! k).
Proof.
  unfold completion_update, completion_written.
  repeat split; try by simplify_map_eq.
  intros k Hk.
  rewrite !lookup_insert_ne; [done|..]; intros <-; apply Hk; auto.
Qed.

Lemma commitments_of_set_doc_other (st : store) user id d k :
  k <> id -> commitments_of (set_doc st user id d) user !! k
             = commitments_of st user !! k.
Proof. intros Hk. unfold commitments_of at 1, set_doc. by simplify_map_eq. Qed.

Lemma commitments_of_set_doc_user (st : store) user id d u :
  u <> user -> commitments_of (set_doc st user id d) u = commitments_of st u.
Proof. intros Hu. unfold commitments_of, set_doc. by simplify_map_eq. Qed.

Lemma commitments_of_delete_doc_other (st : store) user id k :
  k <> id -> commitments_of (delete_doc st user id) user !! k
             = commitments_of st user !! k.
Proof. intros Hk. unfold commitments_of at 1, delete_doc. by simplify_map_eq. Qed.

Lemma ids_consistent_set_doc (st : store) user id d :
  ids_consistent (commitments_of st user) ->
  d !! "commitment_id" = Some (VStr id) ->
  ids_consistent (commitments_of (set_doc st user id d) user).
Proof.
  intros Hids Hd k d' Hk. destruct (decide (k = id)) as [->|Hne].
  - rewrite commitments_of_set_doc in Hk. by injection Hk as <-.
  - rewrite commitments_of_set_doc_other in Hk by done. by apply Hids.
Qed.

Lemma ids_consistent_delete_doc (st : store) user id :
  ids_consistent (commitments_of st user) ->
  ids_consistent (commitments_of (delete_doc st user id) user).
Proof.
  intros Hids k d' Hk. destruct (decide (k = id)) as [->|Hne].
  - by rewrite commitments_of_delete_doc in Hk.
  - rewrite commitments_of_delete_doc_other in Hk by done. by apply Hids.
Qed.

(** A request id that no document carries, in a collection that stores
    every commitment under its id, resolves to nothing. *)
Lemma get_commitment_by_field_absent (st : store) user cid :
  ids_consistent (commitments_of st user) ->
  commitments_of st user !! cid = None ->
  get_commitment_by_field st user cid = None.
Proof.
  intros Hids Hc. unfold get_commitment_by_field.
  destruct (query_first _ _ _) as [[id d]|] eqn:Hq.
  - apply query_first_Some in Hq as [Hd Hf].
    pose proof (field_is_commitment_id d id cid (Hids _ _ Hd) Hf) as ->.
    congruence.
  - by rewrite Hc.
Qed.

Lemma mark_complete_found now user cid completed (st : store) (c : dict) :
  ids_consistent (commitments_of st user) ->
  commitments_of st user !! cid = Some c ->
  mark_commitment_complete now user cid completed st
  = (Success, set_doc st user cid (completion_update now completed c)).
Proof.
  intros Hids Hc. unfold mark_commitment_complete.
  by rewrite (get_commitment_by_field_consistent st user cid c Hids Hc).
Qed.

(** X12: marking a stored commitment complete and then reopening it both
    succeed; while complete it carries [completed = True], the status
    [completed] and the completion time, and [recalculate_status] returns
    it with that status whatever the day.  After the reopening it has
    [completed = False], [completed_at = None] and the status [active]
    (whatever its deadline), every other field but [updated_at] is as
    before the two calls, and no other document of the store changed. *)
Theorem X12_complete_then_reopen now1 now2 user cid (st : store) (c : dict) :
  ids_consistent (commitments_of st user) ->
  commitments_of st user !! cid = Some c ->
  exists st1 st2 c1 c2,
    mark_commitment_complete now1 user cid true st = (Success, st1)
    /\ commitments_of st1 user !! cid = Some c1
    /\ c1 !! "completed" = Some (VBool true)
    /\ c1 !! "completed_at" = Some (VStr (datetime_isoformat now1))
    /\ (forall now today, exists c',
          recalculate_status now c1 today = Ok c'
          /\ c' !! "status" = Some (VStr "completed"))
    /\ mark_commitment_complete now2 user cid false st1 = (Success, st2)
    /\ commitments_of st2 user !! cid = Some c2
    /\ c2 !! "completed" = Some (VBool false)
    /\ c2 !! "completed_at" = Some VNone
    /\ c2 !! "status" = Some (VStr "active")
    /\ c2 !! "updated_at" = Some (VStr (datetime_isoformat now2))
    /\ (forall k, ~ completion_written k -> c2 !! k = c !! k)
    /\ (forall k, k <> cid ->
          commitments_of st2 user !! k = commitments_of st user !! k)
    /\ (forall u, u <> user -> commitments_of st2 u = commitments_of st u).
Proof.
  intros Hids Hc.
  destruct (completion_update_lookup now1 true c) as (Hco1 & Hst1 & Hup1 & Hat1 & Hf1).
  set (c1 := completion_update now1 true c) in *.
  destruct (completion_update_lookup now2 false c1) as (Hco2 & Hst2 & Hup2 & Hat2 & Hf2).
  assert (Hid1 : c1 !! "commitment_id" = Some (VStr cid)).
  { rewrite Hf1; [by apply Hids|].
    unfold completion_written. intros [?|[?|[?|?]]]; discriminate. }
  pose proof (ids_consistent_set_doc st user cid c1 Hids Hid1) as Hids1.
  exists (set_doc st user cid c1),
         (set_doc (set_doc st user cid c1) user cid (completion_update now2 false c1)),
         c1, (completion_update now2 false c1).
  split; [by apply mark_complete_found|].
  split; [apply commitments_of_set_doc|].
  split; [done|]. split; [done|].
  split.
  { intros now today. exists (fill_defaults c1). split.
    - unfold recalculate_status. by rewrite Hco1.
    - unfold fill_defaults, get_or. rewrite Hst1. by simplify_map_eq. }
  split.
  { apply mark_complete_found; [done | apply commitments_of_set_doc]. }
  split; [apply commitments_of_set_doc|].
  repeat (split; [done|]).
  split; [intros k Hk; by rewrite Hf2, Hf1|].
  split.
  - intros k Hk. by rewrite !commitments_of_set_doc_other.
  - intros u Hu. by rewrite !commitments_of_set_doc_user.
Qed.

(** X13: a commitment can be deleted once.  The first [delete] succeeds;
    a second [delete] of the same id answers 404 and leaves the store and
    the shadow store as the first left them, and so does marking the
    deleted commitment complete or reopening it. *)
Theorem X13_delete_once now1 t1 now2 t2 now3 completed user cid (st : store)
    (redis_client : option redis) (c : dict) :
  ids_consistent (commitments_of st user) ->
  commitments_of st user !! cid = Some c ->
  exists st1 redis1,
    delete_commitment now1 t1 user cid st redis_client = (Success, st1, redis1)
    /\ delete_commitment now2 t2 user cid st1 redis1 = (HttpError 404, st1, redis1)
    /\ mark_commitment_complete now3 user cid completed st1 = (HttpError 404, st1)
    /\ (forall k, k <> cid ->
          commitments_of st1 user !! k = commitments_of st user !! k).
Proof.
  intros Hids Hc.
  pose proof (get_commitment_by_field_consistent st user cid c Hids Hc) as Hget.
  assert (Habs : get_commitment_by_field (delete_doc st user cid) user cid = None).
  { apply get_commitment_by_field_absent.
    - by apply ids_consistent_delete_doc.
    - apply commitments_of_delete_doc. }
  unfold delete_commitment at 1. rewrite Hget.
  destruct (backup_to_redis now1 t1 user cid c redis_client) as [b redis1].
  exists (delete_doc st user cid), redis1.
  split; [done|].
  split; [unfold delete_commitment; by rewrite Habs|].
  split; [unfold mark_commitment_complete; by rewrite Habs|].
  intros k Hk. by apply commitments_of_delete_doc_other.
Qed.

(** X14: the backup of a deleted commitment can be restored once, and only
    within 86400 seconds of the deletion.  A [restore] at or after the
    expiry answers 404 and the commitment stays deleted; a [restore] in
    time succeeds, and a second [restore] of the same id answers 404 and
    leaves the restored document in place. *)
Theorem X14_restore_once_before_expiry now_d t_d now_r now_u t_r t_r'
    user cid (st : store) (r : redis) (c : dict) :
  ids_consistent (commitments_of st user) ->
  commitments_of st user !! cid = Some c ->
  reachable r = true ->
  exists st1 redis1,
    delete_commitment now_d t_d user cid st (Some r) = (Success, st1, redis1)
    /\ (t_d + 86400 <= t_r ->
        restore_deleted_commitment now_r now_u t_r user cid st1 redis1
        = (HttpError 404, st1, redis1)
        /\ commitments_of st1 user !! cid = None)
    /\ (t_r < t_d + 86400 ->
        exists st2 redis2,
          restore_deleted_commitment now_r now_u t_r user cid st1 redis1
          = (Success, st2, redis2)
          /\ restore_deleted_commitment now_r now_u t_r' user cid st2 redis2
             = (HttpError 404, st2, redis2)
          /\ is_Some (commitments_of st2 user !! cid)).
Proof.
  intros Hids Hc Hreach.
  pose proof (get_commitment_by_field_consistent st user cid c Hids Hc) as Hget.
  eexists _, _. split.
  { unfold delete_commitment, backup_to_redis. rewrite Hget, Hreach. reflexivity. }
  split.
  - intros Hexp. split; [|apply commitments_of_delete_doc].
    unfold restore_deleted_commitment, redis_get. simpl.
    rewrite ?Hreach, lookup_insert_eq. simpl.
    destruct (Z.ltb_spec t_r (t_d + 86400)); [lia | reflexivity].
  - intros Httl. eexists _, _. split.
    { unfold restore_deleted_commitment, redis_get. simpl.
      rewrite ?Hreach, lookup_insert_eq. simpl.
      destruct (Z.ltb_spec t_r (t_d + 86400)); [reflexivity | lia]. }
    split.
    + unfold restore_deleted_commitment, redis_get. simpl.
      rewrite ?Hreach, lookup_delete_eq. reflexivity.
    + rewrite commitments_of_set_doc. eauto.
Qed.
End complete_route.

(** ** The webhook and the credit gate *)

Section webhook_gate.
Context `{Lib}.
Import CreditEngine Webhook.

(** X15: the webhook queues at most one task, and answers [ok] exactly
    when it queues one.  A queued task names the user of the payload, who
    passes [has_enough_credits], and carries a truthy connection id and a
    truthy message id, each taken from the first truthy one of its two
    payload keys. *)
Theorem X15_webhook_task body (users : users_coll) :
  match snd (composio_webhook body users) with
  | [] => fst (composio_webhook body users) <> RespOk
  | [t] =>
      fst (composio_webhook body users) = RespOk
      /\ has_enough_credits (task_user_id t) users = Ok true
      /\ task_user_id t <> ""
      /\ truthy (task_connected_account_id t) = true
      /\ truthy (task_message_id t) = true
      /\ exists data,
           body = Some data
           /\ data !! "user_id" = Some (VStr (task_user_id t))
           /\ or_else (data !! "connection_nano_id") (data !! "connection_id")
              = Some (task_connected_account_id t)
           /\ or_else (data !! "message_id") (data !! "id")
              = Some (task_message_id t)
  | _ => False
  end.
Proof.
  unfold composio_webhook.
  destruct body as [data|]; simpl; [|rewrite lookup_empty; simpl; done].
  destruct (truthy_get (data !! "user_id")) eqn:Hu; simpl; [|done].
  destruct (truthy_get (or_else (data !! "connection_nano_id")
                                (data !! "connection_id"))) eqn:Ha;
    simpl; [|done].
  destruct (truthy_get (or_else (data !! "message_id") (data !! "id"))) eqn:Hm;
    simpl; [|done].
  destruct (data !! "user_id") as [[| | |uid| |]|] eqn:Hid; simpl; try done.
  destruct (has_enough_credits uid users) as [[|]|] eqn:Hc; simpl; try done.
  destruct (or_else (data !! "connection_nano_id") (data !! "connection_id"))
    as [acct|] eqn:Hacct; [|done].
  destruct (or_else (data !! "message_id") (data !! "id"))
    as [msg|] eqn:Hmsg; [|done].
  simpl in *. repeat split; try done.
  - intros ->. done.
  - exists data. done.
Qed.




End webhook_gate.

(** ** The live email handler *)

Section live_email.
Import Firestore Extractor LiveEmail.
Context {lib : Lib} {svc : Services}.











End live_email.

(** ** Post-processing and the status calculator *)

Section post_process_status.
Context {lib : Lib}.
Import DateTime DeadlineParser Extractor StatusCalculator.

Lemma set_status_id (c : dict) st days flag :
  c !! "status" = Some (VStr st) ->
  c !! "days_overdue" = Some (VNum (inject_Z days)) ->
  c !! "overdue_flag" = Some (VBool flag) ->
  set_status c (st, days, flag) = c.
Proof.
  intros H1 H2 H3. unfold set_status.
  rewrite (insert_id c "status" _ H1), (insert_id c "days_overdue" _ H2).
  by apply insert_id.
Qed.

(** The status the post-processing computes is the one the status
    calculator computes from the same ISO string. *)
Lemma status_of_try_deadline (iso : string) today :
  replace_Z iso = iso ->
  iso <> "" ->
  match try_deadline (VStr iso) today with
  | Ok f => f
  | Raise _ => no_deadline
  end = status_of (Some iso) today.
Proof.
  intros HZ Hne. unfold try_deadline, status_of. rewrite HZ.
  destruct (String.eqb_spec iso ""); [done|].
  destruct (fromisoformat iso) as [t|]; [|done].
  unfold compare_deadline. reflexivity.
Qed.

(** X19: the status fields the extractor's post-processing writes are the
    ones [recalculate_status] computes on the same day.  For a commitment
    whose type is usable and whose ISO deadline carries no letter Z,
    post-processing returns an open commitment ([completed = False],
    [completed_at = None]) given by the sender of the email, and
    [recalculate_status] at the same reading of the clock returns it
    unchanged. *)
Theorem X19_post_process_then_recalculate now email (c : dict) :
  type_ok c ->
  (forall iso, deadline_iso_of now c (date email) = Some iso ->
               replace_Z iso = iso) ->
  exists c' : dict,
    post_process_one now email c = Ok c'
    /\ c' !! "given_by" = Some (VStr (sender email))
    /\ c' !! "completed" = Some (VBool false)
    /\ c' !! "completed_at" = Some VNone
    /\ c' !! "deadline_iso"
       = Some (value_of_iso (deadline_iso_of now c (date email)))
    /\ recalculate_status now c' None = Ok c'.
Proof.
  intros Hty HZ. unfold post_process_one.
  assert (Hens : exists c1 : dict,
             ensure_estimated_hours (<["given_by" := VStr (sender email)]> c) = Ok c1
             /\ c1 !! "given_by" = Some (VStr (sender email))
             /\ c1 !! "deadline_raw" = c !! "deadline_raw").
  { unfold ensure_estimated_hours. rewrite lookup_insert_ne by done.
    destruct (is_none (c !! "estimated_hours")) eqn:Hnone.
    - unfold lowered_type. rewrite lookup_insert_ne by done.
      destruct (Hty Hnone) as [-> | [s ->]]; simpl;
        eexists; (split; [reflexivity|]); by simplify_map_eq.
    - eexists. split; [reflexivity|]. by simplify_map_eq. }
  destruct Hens as (c1 & -> & Hgiven & Hraw). simpl.
  assert (Hiso : deadline_iso_of now c1 (date email)
                 = deadline_iso_of now c (date email)).
  { unfold deadline_iso_of. by rewrite Hraw. }
  rewrite Hiso.
  destruct (status_of (deadline_iso_of now c (date email)) (dt_date now))
    as [[st days] flag] eqn:Hst.
  eexists. split; [reflexivity|].
  split; [by simplify_map_eq|]. split; [by simplify_map_eq|].
  split; [by simplify_map_eq|]. split; [by simplify_map_eq|].
  set (c' := <["completed_at" := VNone]> _).
  assert (Hco : c' !! "completed" = Some (VBool false)) by (unfold c'; by simplify_map_eq).
  assert (Hdl : c' !! "deadline_iso"
                = Some (value_of_iso (deadline_iso_of now c (date email))))
    by (unfold c'; by simplify_map_eq).
  assert (Hid : set_status c' (st, days, flag) = c').
  { apply set_status_id; unfold c'; by simplify_map_eq. }
  unfold recalculate_status. rewrite Hco, Hdl. simpl.
  destruct (deadline_iso_of now c (date email)) as [iso|] eqn:Hd; simpl.
  - destruct (String.eqb_spec iso "") as [->|Hne]; simpl.
    + unfold status_of in Hst. simpl in Hst. injection Hst as <- <- <-.
      exact (f_equal Ok Hid).
    + pose proof (status_of_try_deadline iso (dt_date now) (HZ iso eq_refl) Hne)
        as Heq.
      rewrite Hst in Heq.
      change (match fromisoformat (replace_Z iso) with
              | Some t => Ok (compare_deadline (dt_date t) (dt_date now))
              | None => Raise ValueError
              end) with (try_deadline (VStr iso) (dt_date now)).
      destruct (try_deadline (VStr iso) (dt_date now)) as [f|e] eqn:Htry.
      * subst f. exact (f_equal Ok Hid).
      * unfold try_deadline in Htry.
        destruct (fromisoformat (replace_Z iso)); [done|].
        injection Htry as <-. unfold no_deadline in Heq.
        injection Heq as <- <- <-. exact (f_equal Ok Hid).
  - unfold status_of in Hst. injection Hst as <- <- <-.
    exact (f_equal Ok Hid).
Qed.
End post_process_status.

(** ** The deadline parser returns *)

Section parser_returns.
Context {lib : Lib}.
Import Regex DeadlineParser.

Lemma re_match_Cat r1 r2 s caps k :
  re_match (Cat r1 r2) s caps k
  = re_match r1 s caps (fun s' caps' => re_match r2 s' caps' k).
Proof. reflexivity. Qed.

Lemma re_match_Grp n r s caps k :
  re_match (Grp n r) s caps k
  = re_match r s caps (fun s' caps' => k s' ((n, consumed s s') :: caps')).
Proof. reflexivity. Qed.

(** A match is a result of the continuation. *)
Lemma re_match_continues r :
  forall s caps k m,
    re_match r s caps k = Some m -> exists s' caps', k s' caps' = Some m.
Proof.
  induction r as [l|p|r1 IH1 r2 IH2|r1 IH1 r2 IH2|r1 IH1|r1 IH1|n r1 IH1];
    intros s caps k m; cbn [re_match].
  - destruct (strip_prefix l s); [eauto | done].
  - destruct s as [|c s']; [done|]. destruct (p c); [eauto | done].
  - intros H. apply IH1 in H as (s1 & c1 & H). by apply IH2 in H.
  - destruct (re_match r1 s caps k) eqn:E.
    + intros [= <-]. by apply IH1 in E.
    + apply IH2.
  - destruct (re_match r1 s caps k) eqn:E.
    + intros [= <-]. by apply IH1 in E.
    + eauto.
  - generalize (String.length s). intros fuel. revert s caps.
    induction fuel as [|fuel IHf]; intros s caps; [eauto|].
    destruct (re_match r1 s caps _) eqn:E.
    + intros [= <-]. apply IH1 in E as (s1 & c1 & E).
      destruct (String.length s1 <? String.length s)%nat; [|done].
      by apply IHf in E.
    + eauto.
  - intros H. apply IH1 in H as (s1 & c1 & H). eauto.
Qed.

Lemma search_matches r s m :
  search r s = Some m ->
  exists s0, re_match r s0 [] (fun _ caps => Some caps) = Some m.
Proof.
  induction s as [|c s IH]; simpl.
  - destruct (re_match r "" [] _) eqn:E; [|done]. intros [= <-]. eauto.
  - destruct (re_match r (String c s) [] _) eqn:E; [|exact IH].
    intros [= <-]. eauto.
Qed.

Lemma strip_prefix_length l :
  forall s s', strip_prefix l s = Some s' ->
               String.length s = (String.length l + String.length s')%nat.
Proof.
  induction l as [|a l IH]; intros s s'; simpl.
  - by intros [= ->].
  - destruct s as [|b s]; [done|]. destruct (Ascii.eqb a b); [|done].
    intros H. simpl. by rewrite (IH _ _ H).
Qed.

Lemma strip_prefix_consumed l :
  forall s s', strip_prefix l s = Some s' -> consumed s s' = l.
Proof.
  unfold consumed. induction l as [|a l IH]; intros s s'; simpl.
  - intros [= ->]. rewrite Nat.sub_diag. by destruct s'.
  - destruct s as [|b s]; [done|]. destruct (Ascii.eqb_spec a b) as [<-|]; [|done].
    intros H. pose proof (strip_prefix_length _ _ _ H) as Hlen.
    replace (String.length (String a s) - String.length s')%nat
      with (S (String.length s - String.length s')) by (simpl; lia).
    simpl. by rewrite (IH _ _ H).
Qed.

Lemma any_of_match l :
  forall a s caps k m,
    re_match (any_of a l) s caps k = Some m ->
    exists w s', In w (a :: l) /\ strip_prefix w s = Some s'
                 /\ k s' caps = Some m.
Proof.
  induction l as [|b l IH]; intros a s caps k m; cbn [any_of re_match].
  - destruct (strip_prefix a s) as [s'|] eqn:E; [|done].
    intros H. exists a, s'. simpl. auto.
  - destruct (strip_prefix a s) as [s'|] eqn:E.
    + destruct (k s' caps) eqn:Ek.
      * intros [= <-]. exists a, s'. simpl. auto.
      * intros H. apply IH in H as (w & s2 & Hin & Hp & Hk).
        exists w, s2. simpl in *. auto.
    + intros H. apply IH in H as (w & s2 & Hin & Hp & Hk).
      exists w, s2. simpl in *. auto.
Qed.

(** The second group of a match of the weekday pattern is a key of
    [WEEKDAY_MAP]. *)
Lemma re_weekday_group txt m :
  search re_weekday txt = Some m ->
  exists wd i, group m 2 = Some wd /\ weekday_index WEEKDAY_MAP wd = Some i.
Proof.
  intros H. apply search_matches in H as (s0 & H). unfold re_weekday in H.
  rewrite re_match_Cat in H. apply re_match_continues in H as (s1 & c1 & H).
  rewrite re_match_Cat in H. apply re_match_continues in H as (s2 & c2 & H).
  rewrite re_match_Grp in H.
  apply any_of_match in H as (w & s' & Hin & Hp & Hk).
  injection Hk as <-. rewrite (strip_prefix_consumed _ _ _ Hp).
  exists w. simpl in Hin.
  destruct Hin as [<-|[<-|[<-|[<-|[<-|[<-|[<-|[]]]]]]]]; eexists; split; reflexivity.
Qed.

Lemma after_raise (d n : Z) (f : Z -> option string) e :
  (x ← add_days d n; Ok (f x)) = Raise e -> e = OverflowError \/ e = ValueError.
Proof.
  destruct (add_days d n) as [x|e'] eqn:Ha; [done|].
  intros [= <-]. left. by apply (add_days_raise d n).
Qed.

Lemma weekday_after_raise reference wd which (f : datetime -> option string) e :
  (dt ← _weekday_after reference wd which; Ok (f dt)) = Raise e ->
  e = OverflowError \/ e = ValueError.
Proof.
  unfold _weekday_after. cbv zeta.
  destruct (add_days _ _) as [x|e'] eqn:Ha; [done|].
  intros [= <-]. left. by apply (add_days_raise _ _ _ Ha).
Qed.

Lemma after_ok (d n : Z) (f : Z -> option string) :
  date_min <= d -> d + 7 <= date_max -> 0 <= n <= 7 ->
  exists o, (x ← add_days d n; Ok (f x)) = Ok o.
Proof.
  intros Hlo Hhi Hn. rewrite add_days_in_range by lia. by eexists.
Qed.

Lemma weekday_after_ok reference wd which (f : datetime -> option string) :
  date_min <= dt_date reference -> dt_date reference + 7 <= date_max ->
  exists o, (dt ← _weekday_after reference wd which; Ok (f dt)) = Ok o.
Proof.
  intros Hlo Hhi. rewrite weekday_after_days_ahead by done. cbv zeta.
  set (k := (wd - weekday (dt_date reference)) mod 7).
  assert (Hk : 0 <= k < 7) by (apply Z.mod_pos_bound; lia).
  destruct (Z.leb_spec (dt_date reference + (if String.eqb which "next" && (k =? 0)
                                             then 7 else k)) date_max) as [|Hgt].
  - by eexists.
  - destruct (_ && _); lia.
Qed.

(** X20: the weekday that the pattern of [parse_deadline_raw] captures is
    always a key of [WEEKDAY_MAP], so the lookup never raises [KeyError]:
    an exception that leaves the function is the [OverflowError] of a date
    addition, or the [ValueError] of [int] on more than 4300 digits.  The
    function returns when the email date has seven days after it in the
    calendar and, for a text of the form [in N days], [N] has at most 4300
    digits and the day [N] days after the email date is a date. *)
Theorem X20_parse_deadline_raw_returns now (deadline_raw email_date_iso : string) :
  let d := dt_date (match fromisoformat (replace_Z email_date_iso) with
                    | Some t => t
                    | None => now
                    end) in
  (forall e, parse_deadline_raw now deadline_raw email_date_iso = Raise e ->
             e = OverflowError \/ e = ValueError)
  /\ (date_min <= d -> d + 7 <= date_max ->
      (forall m, search re_in_days (_normalize deadline_raw) = Some m ->
         (String.length (default "" (group m 1)) <= 4300)%nat
         /\ date_min <= d + int_of_digits 0 (default "" (group m 1)) <= date_max) ->
      exists o, parse_deadline_raw now deadline_raw email_date_iso = Ok o).
Proof.
  intros d. subst d. unfold parse_deadline_raw. cbv zeta.
  set (email_dt := match fromisoformat (replace_Z email_date_iso) with
                   | Some t => t
                   | None => now
                   end).
  split.
  - intros e.
    repeat lazymatch goal with
    | |- (if ?b then _ else _) = Raise _ -> _ =>
        destruct b; [first [discriminate | by apply after_raise]|]
    end.
    destruct (search re_weekday (_normalize deadline_raw)) as [m|] eqn:Hm.
    + destruct (re_weekday_group _ _ Hm) as (wd & i & Hg & Hi).
      rewrite Hg. change (default "" (Some wd)) with wd. rewrite Hi.
      apply weekday_after_raise.
    + repeat lazymatch goal with
      | |- (if ?b then _ else _) = Raise _ -> _ =>
          destruct b; [first [discriminate | by apply after_raise]|]
      end.
      destruct (search re_in_days _) as [m|].
      { unfold py_int. destruct (_ <? _)%nat; simpl.
        - intros [= <-]. by right.
        - by apply after_raise. }
      destruct (_try_parse_explicit_date _ _); [discriminate|].
      destruct (ordinal_month_rule _ _); discriminate.
  - intros Hlo Hhi Hdays.
    pose proof (weekday_range (dt_date email_dt)) as Hwd.
    repeat lazymatch goal with
    | |- exists o, (if ?b then _ else _) = Ok o =>
        destruct b; [first [by eauto | by apply after_ok; [| |lia]]|]
    end.
    destruct (search re_weekday (_normalize deadline_raw)) as [m|] eqn:Hm.
    + destruct (re_weekday_group _ _ Hm) as (wd & i & Hg & Hi).
      rewrite Hg. change (default "" (Some wd)) with wd. rewrite Hi.
      by apply weekday_after_ok.
    + destruct (contains "next week" _); [by apply after_ok; [| |lia]|].
      destruct (contains "this week" _); [by apply after_ok; [| |lia]|].
      destruct (_ || _).
      { apply after_ok; [done|done|]. destruct (_ <? 0) eqn:E; lia. }
      destruct (search re_in_days _) as [m|].
      { destruct (Hdays m eq_refl) as [Hlen Hr]. unfold py_int.
        destruct (Nat.ltb_spec 4300 (String.length (default "" (group m 1))));
          [lia|].
        cbn [mbind result_bind]. rewrite add_days_in_range by (unfold date_min, date_max in *; lia).
        by eexists. }
      destruct (_try_parse_explicit_date _ _); [by eauto|].
      destruct (ordinal_month_rule _ _); by eauto.
Qed.
End parser_returns.

(** ** Sender and recipient headers *)

Section header_parsing.
Import Regex LiveEmail.

Lemma contains_char c a s :
  contains (String c "") (String a s)
  = Ascii.eqb c a || contains (String c "") s.
Proof.
  cbn [contains strip_prefix]. destruct (Ascii.eqb c a); [|reflexivity].
  by destruct s.
Qed.

Lemma append_empty (s : string) : ("" ++ s)%string = s.
Proof. reflexivity. Qed.

Lemma append_cons c (a b : string) :
  (String c a ++ b)%string = String c (a ++ b)%string.
Proof. reflexivity. Qed.

Lemma append_nonempty (a : string) c (b : string) :
  String.eqb (a ++ String c b)%string "" = false.
Proof. by destruct a. Qed.

Lemma contains_char_app c (a b : string) :
  contains (String c "") (a ++ String c b)%string = true.
Proof.
  induction a as [|x a IH]; rewrite ?append_empty, ?append_cons.
  - rewrite contains_char, Ascii.eqb_refl. reflexivity.
  - rewrite contains_char, IH. apply orb_true_r.
Qed.

Lemma before_app c (a b : string) :
  contains (String c "") a = false ->
  before c (a ++ String c b)%string = a.
Proof.
  induction a as [|x a IH]; rewrite ?append_empty, ?append_cons; simpl.
  - intros _. by rewrite Ascii.eqb_refl.
  - intros H. change (contains (String c "") (String x a) = false) in H.
    rewrite contains_char in H. apply orb_false_elim in H as [Hx Ha].
    rewrite Ascii.eqb_sym, Hx. by rewrite IH.
Qed.

Lemma consumed_app (a b : string) : consumed (a ++ b)%string b = a.
Proof.
  unfold consumed. induction a as [|x a IH];
    rewrite ?append_empty, ?append_cons; simpl.
  - rewrite Nat.sub_diag. by destruct b.
  - assert (Hlen : (String.length b <= String.length (a ++ b)%string)%nat).
    { clear. induction a; rewrite ?append_empty, ?append_cons; simpl; lia. }
    replace (S (String.length (a ++ b)%string) - String.length b)%nat
      with (S (String.length (a ++ b)%string - String.length b)) by lia.
    simpl. by rewrite IH.
Qed.

(** A greedy run of a character class takes every character of a prefix
    in the class when the text after it cannot extend the run. *)
Lemma star_cls_greedy p (a : string) :
  forall (rest : string) caps k m,
    (forall i c, String.get i a = Some c -> p c = true) ->
    match rest with
    | String c _ => p c = false
    | EmptyString => True
    end ->
    k rest caps = Some m ->
    re_match (Star (Cls p)) (a ++ rest)%string caps k = Some m.
Proof.
  induction a as [|x a IH]; intros rest caps k m Hall Hstop Hk.
  - rewrite ?append_empty, ?append_cons. cbn [re_match].
    destruct rest as [|c rest]; [exact Hk|].
    cbn [String.length]. cbn [re_match]. rewrite Hstop. exact Hk.
  - rewrite ?append_empty, ?append_cons. cbn [re_match String.length].
    rewrite (Hall O x eq_refl).
    assert (Hlt : (String.length (a ++ rest)%string
                   <? S (String.length (a ++ rest)%string))%nat = true)
      by (apply Nat.ltb_lt; lia).
    rewrite Hlt.
    pose proof (IH rest caps k m (fun i c H => Hall (S i) c H) Hstop Hk) as Hrec.
    cbn [re_match] in Hrec. rewrite Hrec. reflexivity.
Qed.

Lemma contains_char_get c (a : string) :
  contains (String c "") a = false ->
  forall i x, String.get i a = Some x -> Ascii.eqb x c = false.
Proof.
  induction a as [|y a IH]; intros H i x Hx; [by destruct i|].
  rewrite contains_char in H. apply orb_false_elim in H as [Hy Ha].
  destruct i as [|i]; simpl in Hx.
  - injection Hx as <-. by rewrite Ascii.eqb_sym.
  - by apply (IH Ha i).
Qed.

Lemma re_match_Cls p c s caps k :
  re_match (Cls p) (String c s) caps k = if p c then k s caps else None.
Proof. reflexivity. Qed.

(** The pattern [<([^>]+)>] at an opening bracket. *)
Lemma re_angle_at (addr rest : string) :
  addr <> "" ->
  contains ">" addr = false ->
  re_match re_angle (String "<" (addr ++ String ">" rest)) []
    (fun _ caps => Some caps)
  = Some [(1%nat, addr)].
Proof.
  intros Hne Hno. destruct addr as [|x a]; [done|].
  pose proof (contains_char_get _ _ Hno) as Hall.
  unfold re_angle. rewrite re_match_Cat.
  change (re_match (Lit "<") (String "<" ?s) ?c ?k) with (k s c).
  cbv beta. rewrite re_match_Cat, re_match_Grp. unfold Plus.
  rewrite re_match_Cat, append_cons, re_match_Cls.
  rewrite (Hall O x eq_refl). cbn [negb].
  rewrite (star_cls_greedy _ a (String ">" rest) []
             _ [(1%nat, String x a)]).
  - reflexivity.
  - intros i c Hc. by rewrite (Hall (S i) c Hc).
  - reflexivity.
  - cbv beta. cbn [re_match strip_prefix].
    change (Ascii.eqb ">" ">") with true. cbv iota.
    rewrite <- append_cons, consumed_app. by destruct rest.
Qed.

Lemma search_re_angle (name addr rest : string) :
  contains "<" name = false ->
  addr <> "" ->
  contains ">" addr = false ->
  search re_angle (name ++ String "<" (addr ++ String ">" rest))
  = Some [(1%nat, addr)].
Proof.
  intros Hname Hne Hno. induction name as [|y name IH];
    rewrite ?append_empty, ?append_cons.
  - cbn [search]. rewrite (re_angle_at addr rest Hne Hno). reflexivity.
  - rewrite contains_char in Hname. apply orb_false_elim in Hname as [Hy Hn].
    cbn [search].
    assert (Hfail : re_match re_angle
                      (String y (name ++ String "<" (addr ++ String ">" rest)))
                      [] (fun _ caps => Some caps) = None).
    { unfold re_angle. rewrite re_match_Cat. cbn [re_match strip_prefix].
      by rewrite Hy. }
    rewrite Hfail. exact (IH Hn).
Qed.

(** X21: on a header of the form [name <addr> rest], where the name has
    no opening bracket and the address is not empty and has no closing
    bracket, [extract_email_address] returns the address without its outer
    blanks, and [extract_name_from_header] returns the name without outer
    blanks and quotes, or, when the name is blank, the part of the address
    before its first [@] (nothing when the address has no [@]). *)
Theorem X21_header_address_and_name (name addr rest : string) :
  contains "<" name = false ->
  addr <> "" ->
  contains ">" addr = false ->
  extract_email_address (name ++ "<" ++ addr ++ ">" ++ rest)%string
  = strip addr
  /\ (strip name <> "" ->
      extract_name_from_header (name ++ "<" ++ addr ++ ">" ++ rest)%string
      = strip_char "'" (strip_char (ascii_of_N 34) (strip name)))
  /\ (strip name = "" ->
      extract_name_from_header (name ++ "<" ++ addr ++ ">" ++ rest)%string
      = if negb (String.eqb (strip addr) "") && contains "@" (strip addr)
        then before "@" (strip addr) else "").
Proof.
  intros Hname Hne Hno.
  change (name ++ "<" ++ addr ++ ">" ++ rest)%string
    with (name ++ String "<" (addr ++ String ">" rest))%string.
  assert (Haddr : extract_email_address
                    (name ++ String "<" (addr ++ String ">" rest))
                  = strip addr).
  { unfold extract_email_address.
    rewrite append_nonempty, (search_re_angle name addr rest Hname Hne Hno).
    reflexivity. }
  split; [exact Haddr|].
  unfold extract_name_from_header.
  rewrite append_nonempty, (before_app "<" name _ Hname), contains_char_app, Haddr.
  split.
  - intros Hn. destruct (String.eqb_spec (strip name) ""); [done|]. reflexivity.
  - intros ->. reflexivity.
Qed.
End header_parsing.

(** ** Sample runs *)

Import DateTime StatusCalculator Categorize RefLib Samples.

Lemma X2_open_status_consistent_witness :
  exists st days flag,
    yields (recalculate_status (H:=ref_lib) (mk_datetime 0 0 None) deck
              (Some (ordinal 2025 11 24))) st days flag
    /\ (st = "overdue" <-> flag = true)
    /\ (flag = true <-> 0 < days)
    /\ 0 <= days
    /\ (st = "overdue" \/ st = "due_today" \/ st = "active" \/ st = "no_deadline").
Proof.
  apply (X2_open_status_consistent (lib:=ref_lib)). reflexivity.
Defined.

Lemma X3_category_after_recalculate_witness :
  exists c' : dict,
    recalculate_status (H:=ref_lib) (mk_datetime 0 0 None) deck
      (Some (ordinal 2025 11 20)) = Ok c'
    /\ categorize_by_deadline (mk_datetime 0 0 None) c'
         (Some (ordinal 2025 11 20)) 7 = Ok "upcoming".
Proof.
  destruct (X3_category_after_recalculate (lib:=ref_lib) (mk_datetime 0 0 None)
              deck (ordinal 2025 11 20) 7 eq_refl) as (c' & Hrun & Hcat & _).
  exists c'. split; [exact Hrun|].
  apply (Hcat (ordinal 2025 11 22)).
  left. exists "2025-11-22", (mk_datetime (ordinal 2025 11 22) 0 None).
  split; [reflexivity|]. split; [discriminate|].
  split; [vm_compute; reflexivity | reflexivity].
Defined.

Lemma X4_urgency_after_recalculate_witness :
  exists c' : dict,
    recalculate_status (H:=ref_lib) (mk_datetime 0 0 None) deck
      (Some (ordinal 2025 11 20)) = Ok c'
    /\ exists q, get_urgency_score (mk_datetime 0 0 None) c'
                   (Some (ordinal 2025 11 20)) = Ok q
                 /\ (q == 202)%Q.
Proof.
  destruct (X4_urgency_after_recalculate (lib:=ref_lib) (mk_datetime 0 0 None)
              deck (ordinal 2025 11 20) eq_refl) as (c' & Hrun & Hscore & _).
  exists c'. split; [exact Hrun|].
  destruct (Hscore (ordinal 2025 11 22)) as (score & (q & Hq & Hqs) & _ & _ & Hnear & _).
  { left. exists "2025-11-22", (mk_datetime (ordinal 2025 11 22) 0 None).
    split; [reflexivity|]. split; [discriminate|].
    split; [vm_compute; reflexivity | reflexivity]. }
  exists q. split; [exact Hq|].
  destruct Hnear as [-> _]; [split; vm_compute; [reflexivity | discriminate]|].
  exact Hqs.
Defined.

Import ConnectionState ConnectionHistory.

Lemma X6_should_run_initial_sync_iff_witness :
  should_run_initial_sync users0 "u" = false
  /\ should_run_initial_sync users0 "ghost" = true.
Proof.
  destruct (X6_should_run_initial_sync_iff users0 "u") as (Hiff & _ & _).
  destruct (X6_should_run_initial_sync_iff users0 "ghost") as (_ & Hnone & _).
  split.
  - apply Hiff. exists conn0. split; [reflexivity|].
    exists (VStr "2024-01-01T00:00:00+00:00"). split; [reflexivity | discriminate].
  - apply Hnone. reflexivity.
Defined.

Lemma X8_missing_user_document_witness :
  mark_reconnection "ghost" (VStr "ca_2") (VStr "ti_1") (VStr "ti_2") users0
  = (false, users0)
  /\ mark_disconnection "ghost" users0 = (false, users0)
  /\ fst (mark_first_connection (mk_datetime 0 0 None) "ghost" (VStr "ca_2")
            (VStr "ti_1") (VStr "ti_2") users0) = true
  /\ is_Some (snd (mark_first_connection (mk_datetime 0 0 None) "ghost"
                     (VStr "ca_2") (VStr "ti_1") (VStr "ti_2") users0)
              !! "ghost")
  /\ (forall u, u <> "ghost" ->
        snd (mark_first_connection (mk_datetime 0 0 None) "ghost" (VStr "ca_2")
               (VStr "ti_1") (VStr "ti_2") users0) !! u = users0 !! u).
Proof.
  apply (X8_missing_user_document (mk_datetime 0 0 None) "ghost" (VStr "ca_2")
           (VStr "ti_1") (VStr "ti_2") users0).
  reflexivity.
Defined.

Import CreditEngine CreditInit Scenarios.

Lemma X9_initialize_credits_once_witness :
  exists users2 evs,
    deduct_all (H:=ref_lib) "u" [2#1; 3#1]%Q
      (initialize_credits_if_missing "u" profile_only) = Ok (users2, evs)
    /\ initialize_credits_if_missing "u" users2 = users2
    /\ initialize_credits_if_missing "u"
         (initialize_credits_if_missing "u" profile_only)
       = initialize_credits_if_missing "u" profile_only
    /\ (forall u, u <> "u" ->
          initialize_credits_if_missing "u" profile_only !! u
          = profile_only !! u).
Proof.
  destruct (deduct_all_balance (H:=ref_lib) [2#1; 3#1]%Q
              (initialize_credits_if_missing "u" profile_only) "u"
              (with_default_credits {["email" := Scalar (VStr "founder@example.com")]})
              (Finite 0) (Finite 2500))
    as (d & evs & Hrun & _).
  { reflexivity. }
  { exact (proj1 (credits_stored _ _ _) (proj1 (with_default_credits_fields _))). }
  exists (<["u" := d]> (initialize_credits_if_missing "u" profile_only)), evs.
  split; [exact Hrun|].
  exact (X9_initialize_credits_once (H:=ref_lib) "u" [2#1; 3#1]%Q profile_only
           _ evs Hrun).
Defined.



Import Firestore CommitmentRoutes CompleteRoute.

Lemma X12_complete_then_reopen_witness :
  exists st1 st2 c1 c2,
    mark_commitment_complete (H:=ref_lib) (mk_datetime 739579 0 (Some 0)) "u"
      "commitment_ab12" true store0 = (Success, st1)
    /\ commitments_of st1 "u" !! "commitment_ab12" = Some c1
    /\ c1 !! "completed" = Some (VBool true)
    /\ c1 !! "completed_at"
       = Some (VStr (datetime_isoformat (mk_datetime 739579 0 (Some 0))))
    /\ (forall now today, exists c',
          recalculate_status now c1 today = Ok c'
          /\ c' !! "status" = Some (VStr "completed"))
    /\ mark_commitment_complete (mk_datetime 739580 0 (Some 0)) "u"
         "commitment_ab12" false st1 = (Success, st2)
    /\ commitments_of st2 "u" !! "commitment_ab12" = Some c2
    /\ c2 !! "completed" = Some (VBool false)
    /\ c2 !! "completed_at" = Some VNone
    /\ c2 !! "status" = Some (VStr "active")
    /\ c2 !! "updated_at"
       = Some (VStr (datetime_isoformat (mk_datetime 739580 0 (Some 0))))
    /\ (forall k, ~ completion_written k -> c2 !! k = doc0 !! k)
    /\ (forall k, k <> "commitment_ab12" ->
          commitments_of st2 "u" !! k = commitments_of store0 "u" !! k)
    /\ (forall u, u <> "u" -> commitments_of st2 u = commitments_of store0 u).
Proof.
  apply (X12_complete_then_reopen (H:=ref_lib) (mk_datetime 739579 0 (Some 0))
           (mk_datetime 739580 0 (Some 0)) "u" "commitment_ab12" store0 doc0).
  - exact store0_consistent.
  - reflexivity.
Defined.

Lemma X13_delete_once_witness :
  exists st1 redis1,
    delete_commitment (H:=ref_lib) (mk_datetime 739579 0 (Some 0)) 1000 "u"
      "commitment_ab12" store0 (Some redis0) = (Success, st1, redis1)
    /\ delete_commitment (mk_datetime 739579 0 (Some 0)) 1060 "u"
         "commitment_ab12" st1 redis1 = (HttpError 404, st1, redis1)
    /\ mark_commitment_complete (mk_datetime 739579 0 (Some 0)) "u"
         "commitment_ab12" true st1 = (HttpError 404, st1)
    /\ (forall k, k <> "commitment_ab12" ->
          commitments_of st1 "u" !! k = commitments_of store0 "u" !! k).
Proof.
  apply (X13_delete_once (H:=ref_lib) (mk_datetime 739579 0 (Some 0)) 1000
           (mk_datetime 739579 0 (Some 0)) 1060 (mk_datetime 739579 0 (Some 0))
           true "u" "commitment_ab12" store0 (Some redis0) doc0).
  - exact store0_consistent.
  - reflexivity.
Defined.

Lemma X14_restore_once_before_expiry_witness :
  exists st1 redis1,
    delete_commitment (H:=ref_lib) (mk_datetime 739579 0 (Some 0)) 1000 "u"
      "commitment_ab12" store0 (Some redis0) = (Success, st1, redis1)
    /\ (1000 + 86400 <= 87400 ->
        restore_deleted_commitment (mk_datetime 739580 0 (Some 0))
          (mk_datetime 739580 0 (Some 0)) 87400 "u" "commitment_ab12" st1 redis1
        = (HttpError 404, st1, redis1)
        /\ commitments_of st1 "u" !! "commitment_ab12" = None)
    /\ (87400 < 1000 + 86400 ->
        exists st2 redis2,
          restore_deleted_commitment (mk_datetime 739580 0 (Some 0))
            (mk_datetime 739580 0 (Some 0)) 87400 "u" "commitment_ab12" st1 redis1
          = (Success, st2, redis2)
          /\ restore_deleted_commitment (mk_datetime 739580 0 (Some 0))
               (mk_datetime 739580 0 (Some 0)) 87500 "u" "commitment_ab12"
               st2 redis2
             = (HttpError 404, st2, redis2)
          /\ is_Some (commitments_of st2 "u" !! "commitment_ab12")).
Proof.
  apply (X14_restore_once_before_expiry (H:=ref_lib)
           (mk_datetime 739579 0 (Some 0)) 1000 (mk_datetime 739580 0 (Some 0))
           (mk_datetime 739580 0 (Some 0)) 87400 87500 "u" "commitment_ab12"
           store0 redis0 doc0).
  - exact store0_consistent.
  - reflexivity.
  - reflexivity.
Defined.

Import Webhook.


Import Extractor LiveEmail.



Lemma X19_post_process_then_recalculate_witness :
  exists c' : dict,
    post_process_one (H:=ref_lib) (mk_datetime (ordinal 2025 11 24) 0 (Some 0))
      mail due_tomorrow = Ok c'
    /\ c' !! "given_by" = Some (VStr (sender mail))
    /\ c' !! "completed" = Some (VBool false)
    /\ c' !! "completed_at" = Some VNone
    /\ c' !! "deadline_iso"
       = Some (value_of_iso
                 (deadline_iso_of (mk_datetime (ordinal 2025 11 24) 0 (Some 0))
                    due_tomorrow (date mail)))
    /\ recalculate_status (mk_datetime (ordinal 2025 11 24) 0 (Some 0)) c' None
       = Ok c'.
Proof.
  apply (X19_post_process_then_recalculate (lib:=ref_lib)
           (mk_datetime (ordinal 2025 11 24) 0 (Some 0)) mail due_tomorrow).
  - intros Hn. vm_compute in Hn. discriminate.
  - intros iso Hiso. vm_compute in Hiso. injection Hiso as <-. reflexivity.
Defined.

Lemma X20_parse_deadline_raw_returns_witness :
  exists o, ParserSamples.run "in 3 days" = Ok o.
Proof.
  apply (X20_parse_deadline_raw_returns (lib:=ref_lib) (mk_datetime 0 0 None)
           "in 3 days" ParserSamples.test_date).
  - vm_compute. discriminate.
  - vm_compute. discriminate.
  - intros m Hm. vm_compute in Hm. injection Hm as <-.
    vm_compute. repeat split; try discriminate. lia.
Defined.

Lemma X21_header_address_and_name_witness :
  LiveEmail.extract_email_address "Ana Lima <ana@example.com>" = "ana@example.com"
  /\ LiveEmail.extract_name_from_header "Ana Lima <ana@example.com>" = "Ana Lima".
Proof.
  destruct (X21_header_address_and_name "Ana Lima " "ana@example.com" ""
              eq_refl ltac:(discriminate) eq_refl) as (Haddr & Hname & _).
  split; [exact Haddr|]. apply Hname. discriminate.
Defined.
